(** * The training harness of FCN-CD-PyTorch: [src/core/trainers.py]

    A shallow embedding of [Trainer] (the epoch loop, the learning-rate
    schedule, checkpoint resume and checkpoint persistence) and of the
    return statement of [CDTrainer.validate_epoch], with the properties
    the specification states about them, followed by further
    properties read off the code: what the methods leave unchanged,
    how they fail, and how saving, resuming and the two drivers
    compose.

    Conventions of the embedding.
    - Python [int] is [Z]; [//] and [%] are [Z.div] and [Z.modulo], which
      round like Python's (towards minus infinity, the remainder taking
      the sign of the divisor); a zero divisor raises [ZeroDivisionError].
    - Python [float] is idealised.  Scores, which are only compared and
      stored, are rationals [Q].  The learning rate, which goes through
      [**] with the exponent [1.1], is a real number [R].  Rounding,
      infinities and NaN are outside the model.
    - A [dict] with string keys is a [gmap string _]; [len] is [size].
    - [self], the files on disk and the calls made to the collaborators
      (logger, [torch.save], [torch.load], [shutil.copyfile], the two
      task hooks) are threaded through a state-and-exception monad. *)

From Stdlib Require Import ZArith QArith Reals Lra Lia String.
From stdpp Require Import gmap strings list fin_maps pretty.

Local Open Scope Z_scope.

(** ** Python values found in a checkpoint file *)

(** A tensor: its [shape] ([torch.Size]) and an opaque payload. *)
Record tensor := Tensor { shape : list Z; payload : Z }.

#[export] Instance tensor_eq_dec : EqDecision tensor.
Proof. solve_decision. Defined.

(** What [optimizer.state_dict()] returns and [load_state_dict] accepts:
    the opaque per-parameter state and the ['lr'] entry of every
    parameter group. *)
Record optim := Optim { opt_state : Z; param_groups : list R }.

Inductive pyval :=
| VTensor (t : tensor)
| VInt (n : Z)
| VFloat (x : Q)
| VTuple (acc : Q) (epoch : Z)          (* a (score, epoch) pair *)
| VDict (d : gmap string tensor)        (* a parameter mapping; [{}] is [VDict ∅] *)
| VOptim (o : optim).                   (* a dict with keys 'state' and 'param_groups' *)

(** The object [torch.load] returns: a dict. *)
Abbreviation checkpoint_record := (gmap string pyval).

(** ** Exceptions and the monad *)

Inductive exn :=
| AttributeError (name : string)
| KeyError (key : string)
| ValueError (what : string)
| TypeError
| ZeroDivisionError
| NotImplementedError
| SameFileError
| CollaboratorError (code : Z)   (* raised inside torch or a task hook *)
| Unmodelled (what : string).    (* Python goes on with a value this model has no type for *)

Inductive result (S A : Type) :=
| Ok (a : A) (s : S)
| Raise (e : exn) (s : S).
Arguments Ok {S A} a s.
Arguments Raise {S A} e s.

Definition final_state {S A} (r : result S A) : S :=
  match r with Ok _ s => s | Raise _ s => s end.

Definition returns {S A} (r : result S A) : option A :=
  match r with Ok a _ => Some a | Raise _ _ => None end.

Definition succeeded {S A} (r : result S A) : bool :=
  match r with Ok _ _ => true | Raise _ _ => false end.

Definition value {S A} (d : A) (r : result S A) : A :=
  match r with Ok a _ => a | Raise _ _ => d end.

(** ** Configuration *)

(** The settings namespace handed to [Trainer.__init__]; [self.ctx] is a
    read-only view of its copy. *)
Module Ctx.
Record t := Build {
  cmd : string;
  batch_size : Z;
  resume : string;
  num_epochs : Z;
  lr : R;
  save_on : bool;
  out_dir : string;
  track_intvl : Z;
  lr_mode : string;
  step : Z;
  anew : bool;
  load_optim : bool;
  save_optim : bool
}.
End Ctx.

(** The three checkpoint files [_save_checkpoint] names:
    [constants.CKP_COUNTED.format(e=epoch)], [constants.CKP_LATEST] and
    [constants.CKP_BEST]. *)
Inductive slot := History (epoch : Z) | Latest | Best.

(** Messages handed to the logger, one constructor per format string. *)
Inductive msg :=
| MsgEpochLr (epoch : Z) (lr : R)
| MsgValidate
| MsgCurrentBest (acc : Q) (epoch : Z) (max_acc : Q) (best_epoch : Z)
| MsgNoCheckpointFound (path : string)
| MsgLoadingCheckpoint (path : string)
| MsgMismatchedForEvaluation
| MsgTryingMismatched
| MsgNoParameterToLoad
| MsgParamsToLoad (n : nat)
| MsgLoadedCheckpoint (path : string) (ckp_epoch : Z) (max_acc : Q) (epoch : Z)
| MsgNoCheckpointAssigned.

Inductive level := Show | ShowNl | Warning | Error.

(** Calls made to the collaborators, in program order. *)
Inductive event :=
| Log (l : level) (m : msg)
| Input                                            (* [input] in [_write_prompt] *)
| TorchLoad (path : string)
| TorchSave (path : string) (state : checkpoint_record)
| CopyFile (src dst : string)
| CallTrainEpoch (epoch : Z)
| CallValidateEpoch (epoch : Z) (store : bool).

(** The comparison [acc > max_acc] on scores. *)
Definition Qgtb (a b : Q) : bool := negb (Qle_bool a b).

(** ** The trainer object *)

(** The parts of [self] a task hook may change.  [metric] is the type of
    the objects [metric_factory] returns. *)
Record net (metric : Type) := Net {
  model : gmap string tensor;     (* [self.model.state_dict()] *)
  optimizer : option optim;       (* the attribute exists only when training *)
  metrics : list metric
}.
Arguments Net {metric} model optimizer metrics.
Arguments model {metric} n.
Arguments optimizer {metric} n.
Arguments metrics {metric} n.

Record trainer (metric : Type) := Trainer {
  ctx : Ctx.t;
  mode : nat;                     (* [('train', 'val').index(cmd)] *)
  nets : net metric;
  start_epoch : Z;
  _init_max_acc_and_epoch : Q * Z
}.
Arguments Trainer {metric} ctx mode nets start_epoch _init_max_acc_and_epoch.
Arguments ctx {metric} t.
Arguments mode {metric} t.
Arguments nets {metric} t.
Arguments start_epoch {metric} t.
Arguments _init_max_acc_and_epoch {metric} t.

(** The world: [self], the checkpoint files, the calls made so far. *)
Record world (metric : Type) := World {
  self_ : trainer metric;
  fs : gmap string checkpoint_record;
  trace : list event
}.
Arguments World {metric} self_ fs trace.
Arguments self_ {metric} w.
Arguments fs {metric} w.
Arguments trace {metric} w.

(** ** Collaborators that are not part of [trainers.py] *)

Class Collaborators (metric : Type) := {
  (** [m.reset()] on a metric object *)
  metric_reset : metric → metric;
  (** [self.path('weight', name, underline=True)] at the three names *)
  weight_path : slot → string;
  (** [torch.optim.Optimizer.load_state_dict]; [None] when it raises *)
  optimizer_load_state_dict : optim → pyval → option optim
}.

(** The two methods [Trainer] leaves to its subclasses.  They read
    [self] and may change its [nets]; what they write to the logger or
    to the image directory is not recorded. *)
Class Task (metric : Type) := {
  train_epoch : trainer metric → Z → result (net metric) unit;
  validate_epoch : trainer metric → Z → bool → result (net metric) Q
}.

Section Trainer.

Context {metric : Type}.
Context `{!Collaborators metric}.

Implicit Types (self : trainer metric) (w : world metric).

(** Attributes copied from the settings in [__init__] and never
    assigned again. *)
Definition checkpoint self : string := Ctx.resume (ctx self).
Definition load_checkpoint self : bool :=
  bool_decide (0 < String.length (checkpoint self))%nat.
Definition num_epochs self : Z := Ctx.num_epochs (ctx self).
Definition lr self : R := Ctx.lr (ctx self).
Definition save self : bool :=
  Ctx.save_on (ctx self) || negb (bool_decide (Ctx.out_dir (ctx self) = ""%string)).
Definition track_intvl self : Z := Ctx.track_intvl (ctx self).

Definition is_training self : bool := bool_decide (mode self = 0%nat).

(** [ckp_epoch]: the epoch the checkpoint was written at. *)
Definition ckp_epoch self : Z := Z.max (start_epoch self - 1) 0.

(** [Trainer.__init__], given what the factories built.  [None] when
    [cmd] is neither ['train'] nor ['val'] ([tuple.index] raises). *)
Definition Trainer_init (settings : Ctx.t) (m : gmap string tensor)
    (o : optim) (ms : list metric) : option (trainer metric) :=
  let mk md opt :=
    {| ctx := settings; mode := md;
       nets := {| model := m; optimizer := opt; metrics := ms |};
       start_epoch := 0; _init_max_acc_and_epoch := (0%Q, 0) |} in
  if decide (Ctx.cmd settings = "train"%string) then Some (mk 0%nat (Some o))
  else if decide (Ctx.cmd settings = "val"%string) then Some (mk 1%nat None)
  else None.

(** *** The monad *)

Definition M (A : Type) : Type := world metric → result (world metric) A.

#[export] Instance M_ret : MRet M := λ A a w, Ok a w.
#[export] Instance M_bind : MBind M := λ A B f m w,
  match m w with
  | Ok a w' => f a w'
  | Raise e w' => Raise e w'
  end.

Definition raise {A} (e : exn) : M A := λ w, Raise e w.
Definition get_self : M (trainer metric) := λ w, Ok (self_ w) w.
Definition set_self (t : trainer metric) : M unit :=
  λ w, Ok tt {| self_ := t; fs := fs w; trace := trace w |}.
Definition get_fs : M (gmap string checkpoint_record) := λ w, Ok (fs w) w.
Definition set_fs (f : gmap string checkpoint_record) : M unit :=
  λ w, Ok tt {| self_ := self_ w; fs := f; trace := trace w |}.
Definition emit (e : event) : M unit :=
  λ w, Ok tt {| self_ := self_ w; fs := fs w; trace := trace w ++ [e] |}.

Definition logger (l : level) (m : msg) : M unit := emit (Log l m).

Definition set_nets (n : net metric) (t : trainer metric) : trainer metric :=
  {| ctx := ctx t; mode := mode t; nets := n; start_epoch := start_epoch t;
     _init_max_acc_and_epoch := _init_max_acc_and_epoch t |}.
Definition set_start_epoch (e : Z) (t : trainer metric) : trainer metric :=
  {| ctx := ctx t; mode := mode t; nets := nets t; start_epoch := e;
     _init_max_acc_and_epoch := _init_max_acc_and_epoch t |}.
Definition set_init_max_acc_and_epoch (p : Q * Z) (t : trainer metric) : trainer metric :=
  {| ctx := ctx t; mode := mode t; nets := nets t; start_epoch := start_epoch t;
     _init_max_acc_and_epoch := p |}.
Definition set_model (m : gmap string tensor) (n : net metric) : net metric :=
  {| model := m; optimizer := optimizer n; metrics := metrics n |}.
Definition set_optimizer (o : option optim) (n : net metric) : net metric :=
  {| model := model n; optimizer := o; metrics := metrics n |}.
Definition set_metrics (ms : list metric) (n : net metric) : net metric :=
  {| model := model n; optimizer := optimizer n; metrics := ms |}.

Definition modify_self (f : trainer metric → trainer metric) : M unit :=
  self ← get_self; set_self (f self).

(** [self.optimizer]: an [AttributeError] in evaluation mode. *)
Definition get_optimizer : M optim :=
  self ← get_self;
  match optimizer (nets self) with
  | Some o => mret o
  | None => raise (AttributeError "optimizer")
  end.

(** *** [_adjust_learning_rate] *)

(** The value of [lr] the three branches compute.  [0.5 ** k] for an
    [int] [k] is [powerRZ (/ 2) k].  The base of [** 1.1] is
    [1 - epoch / num_epochs]; its sign is that of
    [(num_epochs - epoch) * num_epochs]. *)
Definition scheduled_lr self (epoch : Z) : M R :=
  let policy := Ctx.lr_mode (ctx self) in
  if decide (policy = "step"%string) then
    if decide (Ctx.step (ctx self) = 0) then raise ZeroDivisionError
    else mret (lr self * powerRZ (/ 2) (epoch / Ctx.step (ctx self)))%R
  else if decide (policy = "poly"%string) then
    if decide (num_epochs self = 0) then raise ZeroDivisionError
    else if decide (0 < (num_epochs self - epoch) * num_epochs self) then
      mret (lr self * Rpower (1 - IZR epoch / IZR (num_epochs self)) 1.1)%R
    else if decide (epoch = num_epochs self) then mret (lr self * 0)%R
    else raise (Unmodelled "complex learning rate")
  else if decide (policy = "const"%string) then mret (lr self)
  else raise (ValueError "unknown lr mode").

Definition _adjust_learning_rate (epoch : Z) : M R :=
  self ← get_self;
  lr ← scheduled_lr self epoch;
  o ← get_optimizer;
  let o' := {| opt_state := opt_state o; param_groups := (λ _, lr) <$> param_groups o |} in
  set_self (set_nets (set_optimizer (Some o') (nets self)) self);;
  mret lr.

(** *** Reading a checkpoint *)

Definition as_tensor (v : pyval) : option tensor :=
  match v with VTensor t => Some t | _ => None end.

(** [ckp_dict = checkpoint.get('state_dict', checkpoint)], seen as the
    mapping [_resume_from_checkpoint] iterates over: every entry is a
    tensor ([Some t]) or something without a [shape] ([None]).  The
    result is [None] when the value has no [items]. *)
Definition ckp_dict_of (ck : checkpoint_record) : option (gmap string (option tensor)) :=
  match ck !! "state_dict"%string with
  | None => Some (as_tensor <$> ck)
  | Some (VDict d) => Some (Some <$> d)
  | Some (VOptim _) => Some {[ "state"%string := None; "param_groups"%string := None ]}
  | Some _ => None
  end.

(** One entry of the comprehension
    [{k: v for k, v in ckp_dict.items()
         if k in state_dict and state_dict[k].shape == v.shape}]. *)
Definition keep_entry (v : option (option tensor)) (live : option tensor)
    : option tensor :=
  match v, live with
  | Some (Some t), Some t0 => if decide (shape t0 = shape t) then Some t else None
  | _, _ => None
  end.

(** The comprehension asks a value for its [shape] when its name is
    one of the live model; that raises unless the value is a tensor. *)
Definition has_shapes (state_dict : gmap string tensor)
    (ckp_dict : gmap string (option tensor)) : Prop :=
  map_Forall (λ k v, v = None → state_dict !! k = None) ckp_dict.

Definition update_dict_of (state_dict : gmap string tensor)
    (ckp_dict : gmap string (option tensor)) : option (gmap string tensor) :=
  if decide (has_shapes state_dict ckp_dict)
  then Some (merge keep_entry ckp_dict state_dict)
  else None.

Definition or_raise {A} (e : exn) (o : option A) : M A :=
  match o with Some a => mret a | None => raise e end.

(** [checkpoint.get('epoch', 0)].  The model has integer epochs only:
    with another value Python goes on and the model stops. *)
Definition epoch_field (ck : checkpoint_record) : option Z :=
  match ck !! "epoch"%string with
  | None => Some 0
  | Some (VInt n) => Some n
  | Some _ => None
  end.

(** [checkpoint.get('max_acc', (0.0, self.ckp_epoch))] followed by the
    backward-compatibility test [isinstance(_, (float, int))], for a
    trainer whose [ckp_epoch] is [at_epoch].  The model has numbers
    and (score, epoch) pairs only. *)
Definition max_acc_field (ck : checkpoint_record) (at_epoch : Z) : option (Q * Z) :=
  match ck !! "max_acc"%string with
  | None => Some (0%Q, at_epoch)
  | Some (VInt n) => Some (inject_Z n, at_epoch)
  | Some (VFloat x) => Some (x, at_epoch)
  | Some (VTuple acc e) => Some (acc, e)
  | Some _ => None
  end.

(** [self.optimizer.load_state_dict(checkpoint['optimizer'])] *)
Definition restore_optimizer (ck : checkpoint_record) : M unit :=
  o ← get_optimizer;
  v ← or_raise (KeyError "optimizer") (ck !! "optimizer"%string);
  o' ← or_raise (CollaboratorError 0) (optimizer_load_state_dict o v);
  modify_self (λ t, set_nets (set_optimizer (Some o') (nets t)) t).

(** The [elif] branch: the counters and the optimizer are taken from
    the checkpoint. *)
Definition restore_progress (ck : checkpoint_record) : M unit :=
  e ← or_raise (Unmodelled "epoch is not an int") (epoch_field ck);
  modify_self (set_start_epoch e);;
  self ← get_self;
  p ← or_raise (Unmodelled "max_acc is neither a number nor a pair")
               (max_acc_field ck (ckp_epoch self));
  modify_self (set_init_max_acc_and_epoch p);;
  if Ctx.load_optim (ctx self) && is_training self
  then restore_optimizer ck   (* Note that weight decay might be modified here *)
  else mret tt.

(** [state_dict.update(update_dict); self.model.load_state_dict(state_dict)]:
    the dict handed over has the names and shapes of the live model,
    so the strict load copies every tensor in. *)
Definition load_state_dict (update_dict : gmap string tensor) : M unit :=
  modify_self (λ t, set_nets (set_model (update_dict ∪ model (nets t)) (nets t)) t).

(** The end of [_resume_from_checkpoint], which every path that has
    not returned [False] reaches. *)
Definition finish_load (update_dict : gmap string tensor) : M bool :=
  load_state_dict update_dict;;
  self ← get_self;
  logger Show (MsgLoadedCheckpoint (checkpoint self) (ckp_epoch self)
                 (_init_max_acc_and_epoch self).1 (_init_max_acc_and_epoch self).2);;
  mret true.

Definition _resume_from_checkpoint : M bool :=
  self ← get_self;
  files ← get_fs;
  match files !! checkpoint self with
  | None =>
      logger Error (MsgNoCheckpointFound (checkpoint self));;
      mret false
  | Some ck =>
      logger Show (MsgLoadingCheckpoint (checkpoint self));;
      emit (TorchLoad (checkpoint self));;
      let state_dict := model (nets self) in
      ckp_dict ← or_raise (AttributeError "items") (ckp_dict_of ck);
      update_dict ← or_raise (AttributeError "shape") (update_dict_of state_dict ckp_dict);
      let num_to_update := size update_dict in
      go_on ←
        (if bool_decide (num_to_update < size state_dict)%nat
            || bool_decide (size state_dict < size ckp_dict)%nat
         then
           if negb (is_training self) && bool_decide (num_to_update < size state_dict)%nat
           then logger Error MsgMismatchedForEvaluation;; mret false
           else
             logger Warning MsgTryingMismatched;;
             if bool_decide (num_to_update = 0%nat)
             then logger Error MsgNoParameterToLoad;; mret false
             else logger Warning (MsgParamsToLoad num_to_update);; mret true
         else if negb (Ctx.anew (ctx self)) || negb (is_training self)
         then restore_progress ck;; mret true
         else mret true);
      if (go_on : bool) then finish_load update_dict else mret false
  end.

(** *** Writing a checkpoint *)

Definition torch_save (state : checkpoint_record) (path : string) : M unit :=
  emit (TorchSave path state);;
  files ← get_fs;
  set_fs (<[path := state]> files).

(** [shutil.copyfile]: refuses to copy a file onto itself. *)
Definition copyfile (src dst : string) : M unit :=
  emit (CopyFile src dst);;
  files ← get_fs;
  if decide (src = dst) then raise SameFileError
  else
    match files !! src with
    | Some c => set_fs (<[dst := c]> files)
    | None => raise (CollaboratorError 1)
    end.

Definition checkpoint_state (state_dict : gmap string tensor) (optim_state : pyval)
    (max_acc : Q * Z) (epoch : Z) : checkpoint_record :=
  {[ "epoch"%string := VInt epoch;
     "state_dict"%string := VDict state_dict;
     "optimizer"%string := optim_state;
     "max_acc"%string := VTuple max_acc.1 max_acc.2 ]}.

Definition _save_checkpoint (state_dict : gmap string tensor) (optim_state : pyval)
    (max_acc : Q * Z) (epoch : Z) (is_best : bool) : M unit :=
  let state := checkpoint_state state_dict optim_state max_acc epoch in
  self ← get_self;
  (* Save history *)
  let history_path := weight_path (History epoch) in
  (if decide (track_intvl self = 0) then raise ZeroDivisionError
   else if decide (epoch `mod` track_intvl self = 0)
        then torch_save state history_path
        else mret tt);;
  (* Save latest *)
  let latest_path := weight_path Latest in
  torch_save state latest_path;;
  if is_best then copyfile latest_path (weight_path Best) else mret tt.

(** *** The task hooks and the two drivers *)

(** A call of [train_epoch] or [validate_epoch], which the base class
    leaves to the task. *)
Context `{!Task metric}.

Definition call_hook {A} (ev : event) (hook : trainer metric → result (net metric) A) : M A :=
  emit ev;;
  self ← get_self;
  match hook self with
  | Ok a n => set_self (set_nets n self);; mret a
  | Raise e n => set_self (set_nets n self);; raise e
  end.

(** The body of the [for] loop of [train]; [best] is the pair of locals
    [(max_acc, best_epoch)]. *)
Definition train_one_epoch (epoch : Z) (best : Q * Z) : M (Q * Z) :=
  lr ← _adjust_learning_rate epoch;
  logger ShowNl (MsgEpochLr epoch lr);;
  (* Train for one epoch *)
  call_hook (CallTrainEpoch epoch) (λ self, train_epoch self epoch);;
  (* Clear the history of metric objects *)
  modify_self (λ t, set_nets (set_metrics (metric_reset <$> metrics (nets t)) (nets t)) t);;
  (* Evaluate the model on validation set *)
  logger ShowNl MsgValidate;;
  self ← get_self;
  acc ← call_hook (CallValidateEpoch epoch (save self))
                  (λ self, validate_epoch self epoch (save self));
  let is_best := Qgtb acc best.1 in
  let best' := if is_best then (acc, epoch) else best in
  logger ShowNl (MsgCurrentBest acc epoch best'.1 best'.2);;
  (* The checkpoint saves next epoch *)
  self ← get_self;
  optim_state ← (if Ctx.save_optim (ctx self)
                 then o ← get_optimizer; mret (VOptim o)
                 else mret (VDict ∅));
  _save_checkpoint (model (nets self)) optim_state best' (epoch + 1) is_best;;
  mret best'.

Fixpoint train_loop (epochs : list Z) (best : Q * Z) : M (Q * Z) :=
  match epochs with
  | [] => mret best
  | epoch :: rest => best' ← train_one_epoch epoch best; train_loop rest best'
  end.

(** [range(self.start_epoch, self.num_epochs)]. *)
Definition epoch_range self : list Z :=
  seqZ (start_epoch self) (num_epochs self - start_epoch self).

Definition train : M unit :=
  self ← get_self;
  (if load_checkpoint self then _resume_from_checkpoint;; mret tt else mret tt);;
  self ← get_self;
  train_loop (epoch_range self) (_init_max_acc_and_epoch self);;
  mret tt.

Definition evaluate : M unit :=
  self ← get_self;
  if load_checkpoint self then
    ok ← _resume_from_checkpoint;
    if (ok : bool) then
      self ← get_self;
      call_hook (CallValidateEpoch (ckp_epoch self) (save self))
                (λ self', validate_epoch self' (ckp_epoch self) (save self));;
      mret tt
    else mret tt
  else logger Warning MsgNoCheckpointAssigned.

Definition _write_prompt : M unit := emit Input.

Definition run : M unit :=
  self ← get_self;
  if is_training self then _write_prompt;; train else evaluate.

End Trainer.

Arguments M metric A : clear implicits.

(** ** [save_image] *)

(** [str.startswith('/')] and [str.endswith('/')]. *)
Definition startswith_sep (s : string) : bool :=
  match s with
  | String c _ => bool_decide (String c "" = "/"%string)
  | EmptyString => false
  end.

Fixpoint endswith_sep (s : string) : bool :=
  match s with
  | EmptyString => false
  | String c s' =>
      match s' with
      | EmptyString => bool_decide (String c "" = "/"%string)
      | String _ _ => endswith_sep s'
      end
  end.

(** [os.path.join(a, *p)] of [posixpath]:
    [for b in p:
       if b.startswith(sep): path = b
       elif not path or path.endswith(sep): path += b
       else: path += sep + b]. *)
Definition join_component (path b : string) : string :=
  if startswith_sep b then b
  else if bool_decide (path = ""%string) || endswith_sep path then path +:+ b
  else path +:+ "/" +:+ b.

Definition os_path_join (a : string) (p : list string) : string :=
  foldl join_component a p.

Section SaveImage.

Context {metric : Type}.
Implicit Types (self : trainer metric).

Definition out_dir self : string := Ctx.out_dir (ctx self).

(** The local [file_path] of [save_image], which the path resolver
    then turns into the path of the image:
    [os.path.join('epoch_{}/'.format(epoch), self.out_dir, file_name)]. *)
Definition file_path self (file_name : string) (epoch : Z) : string :=
  os_path_join ("epoch_" +:+ pretty epoch +:+ "/") [out_dir self; file_name].

End SaveImage.

(** The base class itself: both hooks raise [NotImplementedError]. *)
Definition abstract_task {metric : Type} : Task metric :=
  {| train_epoch := λ self _, Raise NotImplementedError (nets self);
     validate_epoch := λ self _ _, Raise NotImplementedError (nets self) |}.

(** ** [CDTrainer] *)

(** What [CDTrainer] takes from torch, the data factory and
    [utils.metrics]. *)
Class CDCollaborators (metric : Type) := {
  batch : Type;                         (* an item of a data loader *)
  arrays : Type;                        (* the pair [(CM, label)] of uint8 arrays *)
  train_loader : list batch;
  val_loader : list batch;
  (** [AverageMeter()], [update(val, n)] and [avg] *)
  AverageMeter : Type;
  meter_new : AverageMeter;
  meter_update : AverageMeter → Q → Z → AverageMeter;
  meter_avg : AverageMeter → Q;
  (** forward pass, criterion, [zero_grad], [backward] and [step] on
      one batch: the new parameters and [loss.item()] *)
  train_step : net metric → batch → result (net metric) Q;
  (** forward pass and criterion under [no_grad]: [loss.item()] and the
      arrays, [None] when torch raises *)
  val_forward : net metric → batch → option (Q * arrays);
  (** [m.update(CM, label)] and [m.avg] on a metric object *)
  metric_update : metric → arrays → metric;
  metric_avg : metric → Q
}.

Module CDTrainer.
Section CDTrainer.

Context {metric : Type}.
Context `{!CDCollaborators metric}.

Implicit Types (self : trainer metric) (n : net metric).

(** The value of an attribute of a trainer, as far as the code below
    looks at it. *)
Inductive attribute :=
| AttrInt (i : Z)
| AttrPair (p : Q * Z)
| AttrObject.

(** The names [Trainer.__init__] binds on the instance. *)
Definition instance_attributes : list string :=
  [ "ctx"; "mode"; "logger"; "gpc"; "path"; "batch_size"; "checkpoint";
    "load_checkpoint"; "num_epochs"; "lr"; "save"; "out_dir"; "track_intvl";
    "device"; "suffix_off"; "model"; "criterion"; "metrics"; "train_loader";
    "val_loader"; "optimizer"; "start_epoch"; "_init_max_acc_and_epoch" ]%string.

(** The names the classes [Trainer] and [CDTrainer] define. *)
Definition class_attributes : list string :=
  [ "is_training"; "train_epoch"; "validate_epoch"; "_write_prompt"; "run";
    "train"; "evaluate"; "_adjust_learning_rate"; "_resume_from_checkpoint";
    "_save_checkpoint"; "ckp_epoch"; "save_image" ]%string.

(** [self.<name>]: [None] is [AttributeError]. *)
Definition getattr self (name : string) : option attribute :=
  if decide (name = "start_epoch"%string) then Some (AttrInt (start_epoch self))
  else if decide (name = "_init_max_acc_and_epoch"%string)
    then Some (AttrPair (_init_max_acc_and_epoch self))
  else if decide (name = "ckp_epoch"%string) then Some (AttrInt (ckp_epoch self))
  else if decide (name ∈ instance_attributes ++ class_attributes) then Some AttrObject
  else None.

Fixpoint train_batches n (losses : AverageMeter) (bs : list batch) (batch_size : Z)
    : result (net metric) AverageMeter :=
  match bs with
  | [] => Ok losses n
  | b :: bs' =>
      match train_step n b with
      | Ok loss n' => train_batches n' (meter_update losses loss batch_size) bs' batch_size
      | Raise e n' => Raise e n'
      end
  end.

Definition train_epoch self (epoch : Z) : result (net metric) unit :=
  match train_batches (nets self) meter_new train_loader (Ctx.batch_size (ctx self)) with
  | Ok _ n => Ok tt n
  | Raise e n => Raise e n
  end.

(** The batches the loop of [validate_epoch] gets to:
    [if self.is_training and i >= 16: break]. *)
Definition validated self (bs : list batch) : list batch :=
  if is_training self then take 16 bs else bs.

Fixpoint validate_batches n (losses : AverageMeter) (bs : list batch) (batch_size : Z)
    : result (net metric) AverageMeter :=
  match bs with
  | [] => Ok losses n
  | b :: bs' =>
      match val_forward n b with
      | Some (loss, cm_label) =>
          validate_batches
            {| model := model n; optimizer := optimizer n;
               metrics := (λ m, metric_update m cm_label) <$> metrics n |}
            (meter_update losses loss batch_size) bs' batch_size
      | None => Raise (CollaboratorError 2) n
      end
  end.

(** [max(a, b)] on two numbers: [b] when [b > a]. *)
Definition py_max (a b : Q) : Q := if Qgtb b a then b else a.

(** The [return] statement:
    [self.metrics[0].avg if len(self.metrics) > 0
     else max(1.0 - losses.avg, self._init_max_acc)]. *)
Definition validate_return self n (losses : AverageMeter) : result (net metric) Q :=
  match metrics n with
  | m :: _ => Ok (metric_avg m) n
  | [] =>
      let fallback := (1 - meter_avg losses)%Q in
      match getattr self "_init_max_acc" with
      | None => Raise (AttributeError "_init_max_acc") n
      | Some (AttrInt i) => Ok (py_max fallback (inject_Z i)) n
      | Some _ => Raise TypeError n
      end
  end.

Definition validate_epoch self (epoch : Z) (store : bool) : result (net metric) Q :=
  match validate_batches (nets self) meter_new (validated self val_loader)
                         (Ctx.batch_size (ctx self)) with
  | Ok losses n => validate_return self n losses
  | Raise e n => Raise e n
  end.

Definition task : Task metric := Build_Task metric train_epoch validate_epoch.

End CDTrainer.
End CDTrainer.

(** ** Concrete collaborators, used to run the model *)

Module Demo.

Local Open Scope string_scope.

(** A metric object reduced to its running value. *)
Definition metric : Type := Q.

Definition path (s : slot) : string :=
  match s with
  | History e => "checkpoint_" +:+ pretty e +:+ ".pth"
  | Latest => "checkpoint_latest.pth"
  | Best => "model_best.pth"
  end.

Definition load_optimizer (o : optim) (v : pyval) : option optim :=
  match v with
  | VOptim o' =>
      if decide (length (param_groups o') = length (param_groups o)) then Some o' else None
  | _ => None
  end.

#[export] Instance collaborators : Collaborators metric :=
  {| metric_reset := λ _, 0%Q;
     weight_path := path;
     optimizer_load_state_dict := load_optimizer |}.

(** A task whose training leaves the parameters alone and whose
    validation score at epoch [e] is [scores e]. *)
Definition task (scores : Z → Q) : Task metric :=
  {| train_epoch := λ self _, Ok tt (nets self);
     validate_epoch := λ self e _, Ok (scores e) (nets self) |}.

Definition settings (cmd resume : string) (num_epochs track_intvl : Z) : Ctx.t :=
  {| Ctx.cmd := cmd; Ctx.batch_size := 4; Ctx.resume := resume;
     Ctx.num_epochs := num_epochs; Ctx.lr := (1 / 10)%R; Ctx.save_on := false;
     Ctx.out_dir := ""; Ctx.track_intvl := track_intvl; Ctx.lr_mode := "const";
     Ctx.step := 10; Ctx.anew := false; Ctx.load_optim := false;
     Ctx.save_optim := false |}.

Definition with_lr_mode (m : string) (c : Ctx.t) : Ctx.t :=
  {| Ctx.cmd := Ctx.cmd c; Ctx.batch_size := Ctx.batch_size c; Ctx.resume := Ctx.resume c;
     Ctx.num_epochs := Ctx.num_epochs c; Ctx.lr := Ctx.lr c; Ctx.save_on := Ctx.save_on c;
     Ctx.out_dir := Ctx.out_dir c; Ctx.track_intvl := Ctx.track_intvl c; Ctx.lr_mode := m;
     Ctx.step := Ctx.step c; Ctx.anew := Ctx.anew c; Ctx.load_optim := Ctx.load_optim c;
     Ctx.save_optim := Ctx.save_optim c |}.

(** A live model with one parameter [w] of shape [[2]]. *)
Definition w_live : tensor := {| shape := [2]; payload := 1 |}.
Definition live_model : gmap string tensor := {[ "w" := w_live ]}.

Definition w_stored : tensor := {| shape := [2]; payload := 9 |}.
Definition extra_stored : tensor := {| shape := [3]; payload := 8 |}.

Definition sgd : optim := {| opt_state := 0; param_groups := [(1 / 10)%R] |}.

(** The trainer [__init__] builds for a [cmd] of ['train'] or ['val']
    (the one metric object starts at 0), and the world around it. *)
Definition fresh (c : Ctx.t) (m : gmap string tensor) : trainer metric :=
  default
    {| ctx := c; mode := 0; nets := {| model := m; optimizer := None; metrics := [] |};
       start_epoch := 0; _init_max_acc_and_epoch := (0%Q, 0) |}
    (Trainer_init c m sgd [0%Q]).

Definition boot (c : Ctx.t) (m : gmap string tensor) (files : gmap string checkpoint_record)
    : world metric :=
  {| self_ := fresh c m; fs := files; trace := [] |}.

(** A run of six epochs with a history file every fifth, without a
    checkpoint to resume from; epoch 2 scores 0.7, the others 0.5. *)
Definition scores (e : Z) : Q := if decide (e = 2) then 7 # 10 else 1 # 2.
Definition scored_task : Task metric := task scores.
Definition six_epochs : world metric := boot (settings "train" "" 6 5) live_model ∅.

(** A run of one epoch asked to resume from a file that is not there. *)
Definition missing : world metric := boot (settings "train" "missing.pth" 1 5) live_model ∅.

(** Checkpoints to resume from, stored as [ck.pth]. *)
Definition resuming (cmd : string) (m : gmap string tensor) (ck : checkpoint_record)
    : world metric :=
  boot (settings cmd "ck.pth" 6 5) m {[ "ck.pth" := ck ]}.

(** The live parameter and one more. *)
Definition superset_dict : gmap string tensor :=
  {[ "w" := w_stored; "extra" := extra_stored ]}.
Definition superset_ckpt : checkpoint_record :=
  {[ "state_dict" := VDict superset_dict; "epoch" := VInt 7;
     "max_acc" := VTuple (9 # 10) 6 ]}.

(** The live parameter alone, the best score in the new format. *)
Definition exact_dict : gmap string tensor := {[ "w" := w_stored ]}.
Definition exact_ckpt : checkpoint_record :=
  {[ "state_dict" := VDict exact_dict; "epoch" := VInt 7;
     "max_acc" := VTuple (9 # 10) 6 ]}.

(** The live parameter alone, the best score in the old format. *)
Definition bare_ckpt (epoch : Z) : checkpoint_record :=
  {[ "state_dict" := VDict exact_dict; "epoch" := VInt epoch;
     "max_acc" := VFloat (87 # 100) ]}.

(** The live parameter in another shape. *)
Definition reshaped_dict : gmap string tensor := {[ "w" := extra_stored ]}.
Definition reshaped_ckpt : checkpoint_record :=
  {[ "state_dict" := VDict reshaped_dict; "epoch" := VInt 7 ]}.

(** No parameter at all. *)
Definition empty_ckpt : checkpoint_record := {[ "state_dict" := VDict ∅ ]}.

(** [CDTrainer] on two batches, each with the loss 0.25 and nothing
    for the metrics to see. *)
Definition cd_collaborators : CDCollaborators metric :=
  {| batch := unit; arrays := unit;
     train_loader := [tt; tt]; val_loader := [tt; tt];
     AverageMeter := Q * Z;
     meter_new := (0%Q, 0);
     meter_update := λ m val n, ((m.1 + val * inject_Z n)%Q, m.2 + n);
     meter_avg := λ m, (m.1 / inject_Z m.2)%Q;
     train_step := λ n _, Ok (1 # 4) n;
     val_forward := λ _ _, Some (1 # 4, tt);
     metric_update := λ m _, m;
     metric_avg := λ m, m |}.

(** A trainer configured with an empty list of metrics. *)
Definition without_metrics : trainer metric :=
  {| ctx := settings "train" "" 6 5; mode := 0;
     nets := {| model := live_model; optimizer := Some sgd; metrics := [] |};
     start_epoch := 0; _init_max_acc_and_epoch := (0%Q, 0) |}.

(** Settings with the flags of a resume, and with an output directory. *)
Definition with_resume_flags (anew load_optim : bool) (c : Ctx.t) : Ctx.t :=
  {| Ctx.cmd := Ctx.cmd c; Ctx.batch_size := Ctx.batch_size c; Ctx.resume := Ctx.resume c;
     Ctx.num_epochs := Ctx.num_epochs c; Ctx.lr := Ctx.lr c; Ctx.save_on := Ctx.save_on c;
     Ctx.out_dir := Ctx.out_dir c; Ctx.track_intvl := Ctx.track_intvl c;
     Ctx.lr_mode := Ctx.lr_mode c; Ctx.step := Ctx.step c; Ctx.anew := anew;
     Ctx.load_optim := load_optim; Ctx.save_optim := Ctx.save_optim c |}.

Definition with_out_dir (d : string) (c : Ctx.t) : Ctx.t :=
  {| Ctx.cmd := Ctx.cmd c; Ctx.batch_size := Ctx.batch_size c; Ctx.resume := Ctx.resume c;
     Ctx.num_epochs := Ctx.num_epochs c; Ctx.lr := Ctx.lr c; Ctx.save_on := Ctx.save_on c;
     Ctx.out_dir := d; Ctx.track_intvl := Ctx.track_intvl c;
     Ctx.lr_mode := Ctx.lr_mode c; Ctx.step := Ctx.step c; Ctx.anew := Ctx.anew c;
     Ctx.load_optim := Ctx.load_optim c; Ctx.save_optim := Ctx.save_optim c |}.

(** The parameter mapping alone, as a checkpoint file. *)
Definition weights_only_ckpt : checkpoint_record := VTensor <$> exact_dict.

End Demo.

(** ** Vocabulary of the properties *)

(** [offers ckp_dict state_dict]: the record has every parameter of the
    live model, as a tensor of the same shape. *)
Definition offers (ckp_dict : gmap string (option tensor))
    (state_dict : gmap string tensor) : Prop :=
  ∀ k t, state_dict !! k = Some t →
         ∃ t', ckp_dict !! k = Some (Some t') ∧ shape t' = shape t.

(** A ['max_acc'] entry of the old format: a bare number. *)
Definition bare_number (v : pyval) : option Q :=
  match v with
  | VInt n => Some (inject_Z n)
  | VFloat x => Some x
  | _ => None
  end.

(** The validation scores a trace reports, oldest first. *)
Definition score_of (ev : event) : option Q :=
  match ev with
  | Log ShowNl (MsgCurrentBest acc _ _ _) => Some acc
  | _ => None
  end.
Definition scores (evs : list event) : list Q := omap score_of evs.

(** [acc] is strictly above every score of the list. *)
Definition above_all (acc : Q) (previous : list Q) : Prop :=
  ∀ s, s ∈ previous → (s < acc)%Q.

Definition above_allb (acc : Q) (previous : list Q) : bool :=
  forallb (Qgtb acc) previous.

(** The checkpoints a trace writes with [torch.save], oldest first. *)
Definition save_of (ev : event) : option (string * checkpoint_record) :=
  match ev with
  | TorchSave path state => Some (path, state)
  | _ => None
  end.
Definition saves (evs : list event) : list (string * checkpoint_record) := omap save_of evs.

Section Vocabulary.

Context {metric : Type}.
Context `{!Collaborators metric}.
Implicit Types (self : trainer metric) (w : world metric).

(** The world after some more calls. *)
Definition logged (evs : list event) w : world metric :=
  {| self_ := self_ w; fs := fs w; trace := trace w ++ evs |}.

(** The calls made between two worlds of one run. *)
Definition since w0 w : list event := drop (length (trace w0)) (trace w).

(** The world once [torch.load] has returned. *)
Definition loading w : world metric :=
  logged [Log Show (MsgLoadingCheckpoint (checkpoint (self_ w)));
          TorchLoad (checkpoint (self_ w))] w.

(** The world [finish_load] leaves. *)
Definition loaded (update_dict : gmap string tensor) w : world metric :=
  let self :=
    set_nets (set_model (update_dict ∪ model (nets (self_ w))) (nets (self_ w))) (self_ w) in
  {| self_ := self; fs := fs w;
     trace := trace w ++
       [Log Show (MsgLoadedCheckpoint (checkpoint self) (ckp_epoch self)
                    (_init_max_acc_and_epoch self).1 (_init_max_acc_and_epoch self).2)] |}.

(** The world [restore_progress] leaves once the counters are read. *)
Definition restored (e : Z) (p : Q * Z) w : world metric :=
  {| self_ := set_init_max_acc_and_epoch p (set_start_epoch e (self_ w));
     fs := fs w; trace := trace w |}.

(** The calls [_save_checkpoint] makes, and the files it leaves, when
    it returns. *)
Definition save_events (state : checkpoint_record) (epoch track : Z) (is_best : bool)
    : list event :=
  (if decide (epoch `mod` track = 0)
   then [TorchSave (weight_path (History epoch)) state] else [])
  ++ [TorchSave (weight_path Latest) state]
  ++ (if is_best then [CopyFile (weight_path Latest) (weight_path Best)] else []).

Definition save_files (state : checkpoint_record) (epoch track : Z) (is_best : bool)
    (files : gmap string checkpoint_record) : gmap string checkpoint_record :=
  let with_history :=
    if decide (epoch `mod` track = 0)
    then <[weight_path (History epoch) := state]> files else files in
  let with_latest := <[weight_path Latest := state]> with_history in
  if is_best then <[weight_path Best := state]> with_latest else with_latest.

(** What one completed iteration of the loop of [train] has seen: the
    learning rate, the score, the nets the validation left, the
    optimizer state put in the checkpoint. *)
Record iteration := Iteration {
  it_lr : R;
  it_acc : Q;
  it_nets : net metric;
  it_optim : pyval
}.

Definition iteration_best (best : Q * Z) (epoch : Z) (it : iteration) : Q * Z :=
  if Qgtb (it_acc it) best.1 then (it_acc it, epoch) else best.

Definition iteration_state (best : Q * Z) (epoch : Z) (it : iteration) : checkpoint_record :=
  checkpoint_state (model (it_nets it)) (it_optim it) (iteration_best best epoch it)
                   (epoch + 1).

Definition iteration_events self (best : Q * Z) (epoch : Z) (it : iteration)
    : list event :=
  [ Log ShowNl (MsgEpochLr epoch (it_lr it));
    CallTrainEpoch epoch;
    Log ShowNl MsgValidate;
    CallValidateEpoch epoch (save self);
    Log ShowNl (MsgCurrentBest (it_acc it) epoch (iteration_best best epoch it).1
                               (iteration_best best epoch it).2) ]
  ++ save_events (iteration_state best epoch it) (epoch + 1) (track_intvl self)
                 (Qgtb (it_acc it) best.1).

Context `{!Task metric}.

(** [epoch_completed w0 e best w best' w']: the loop of [train],
    entered in the world [w0], has completed the epochs before [e],
    which left the locals [best] and the world [w], and then the
    iteration for [e], which left [best'] and [w']. *)
Definition epoch_completed w0 (e : Z) (best : Q * Z) w (best' : Q * Z) w' : Prop :=
  let self := self_ w0 in
  start_epoch self ≤ e < num_epochs self
  ∧ train_loop (seqZ (start_epoch self) (e - start_epoch self))
               (_init_max_acc_and_epoch self) w0 = Ok best w
  ∧ train_one_epoch e best w = Ok best' w'.

End Vocabulary.
Arguments iteration metric : clear implicits.

(** The epochs a trace hands to [train_epoch], and the arguments it
    hands to [validate_epoch], oldest first. *)
Definition train_call_of (ev : event) : option Z :=
  match ev with
  | CallTrainEpoch e => Some e
  | _ => None
  end.
Definition train_calls (evs : list event) : list Z := omap train_call_of evs.

Definition validate_call_of (ev : event) : option (Z * bool) :=
  match ev with
  | CallValidateEpoch e store => Some (e, store)
  | _ => None
  end.
Definition validate_calls (evs : list event) : list (Z * bool) := omap validate_call_of evs.

(** A call that only reports or reads: to the logger or to [torch.load]. *)
Definition reads (ev : event) : Prop :=
  match ev with
  | Log _ _ | TorchLoad _ => True
  | _ => False
  end.

(** The exception a computation has raised. *)
Definition raised {S A} (r : result S A) : option exn :=
  match r with
  | Ok _ _ => None
  | Raise e _ => Some e
  end.

Section Drivers.

Context {metric : Type}.
Implicit Types (w : world metric).

(** The world a call of [validate_epoch] made by [evaluate] leaves,
    given the nets the hook left. *)
Definition validated_world w (n : net metric) : world metric :=
  {| self_ := set_nets n (self_ w); fs := fs w;
     trace := trace w ++ [CallValidateEpoch (ckp_epoch (self_ w)) (save (self_ w))] |}.

End Drivers.

(** * Properties *)

(** Unfolds the monad down to matches on results. *)
Ltac run :=
  repeat progress
    (unfold mbind, M_bind, mret, M_ret, raise, get_self, set_self, get_fs, set_fs,
            emit, logger, modify_self, or_raise, get_optimizer; cbn).

Lemma succeeded_Ok {S A} (d : A) (r : result S A) :
  succeeded r = true → r = Ok (value d r) (final_state r).
Proof. by destruct r. Qed.

Lemma Qgtb_lt a b : Qgtb a b = true ↔ (b < a)%Q.
Proof.
  unfold Qgtb. rewrite negb_true_iff, <- not_true_iff_false, Qle_bool_iff.
  split; [apply Qnot_le_lt | apply Qlt_not_le].
Qed.

Lemma Qgtb_le a b : Qgtb a b = false ↔ (a <= b)%Q.
Proof. unfold Qgtb. rewrite negb_false_iff. apply Qle_bool_iff. Qed.

Lemma above_allb_spec acc previous :
  above_allb acc previous = true → above_all acc previous.
Proof.
  unfold above_allb, above_all. rewrite forallb_forall. intros Hall s Hs.
  apply Qgtb_lt, Hall. by apply list_elem_of_In.
Qed.

Section LearningRate.

Context {metric : Type}.
Implicit Types (self : trainer metric) (w : world metric).

Lemma scheduled_lr_step self epoch w :
  Ctx.lr_mode (ctx self) = "step"%string →
  Ctx.step (ctx self) ≠ 0 →
  scheduled_lr self epoch w
    = Ok (lr self * powerRZ (/ 2) (epoch `div` Ctx.step (ctx self)))%R w.
Proof.
  intros Hmode Hstep. unfold scheduled_lr. rewrite Hmode.
  rewrite decide_True by done. rewrite decide_False by done. reflexivity.
Qed.

Lemma scheduled_lr_poly self epoch w :
  Ctx.lr_mode (ctx self) = "poly"%string →
  0 < num_epochs self →
  epoch < num_epochs self →
  scheduled_lr self epoch w
    = Ok (lr self * Rpower (1 - IZR epoch / IZR (num_epochs self)) 1.1)%R w.
Proof.
  intros Hmode Hnum Hepoch. unfold scheduled_lr. rewrite Hmode.
  rewrite (decide_False (P := "poly"%string = "step"%string)) by done.
  rewrite decide_True by done.
  rewrite decide_False by lia. rewrite decide_True by nia. reflexivity.
Qed.

Lemma scheduled_lr_const self epoch w :
  Ctx.lr_mode (ctx self) = "const"%string →
  scheduled_lr self epoch w = Ok (lr self) w.
Proof.
  intros Hmode. unfold scheduled_lr. rewrite Hmode.
  rewrite (decide_False (P := "const"%string = "step"%string)) by done.
  rewrite (decide_False (P := "const"%string = "poly"%string)) by done.
  rewrite decide_True by done. reflexivity.
Qed.

(** With an optimizer at hand, [_adjust_learning_rate] returns what
    the schedule computes. *)
Lemma adjust_learning_rate_returns w o epoch x :
  optimizer (nets (self_ w)) = Some o →
  scheduled_lr (self_ w) epoch w = Ok x w →
  returns (_adjust_learning_rate epoch w) = Some x.
Proof.
  intros Ho Hx. unfold _adjust_learning_rate. run.
  rewrite Hx. run. rewrite Ho. reflexivity.
Qed.

(** C8.  In training ([self.optimizer] exists), at every epoch
    [_adjust_learning_rate] returns
    - [lr * 0.5 ** (epoch // step)] under the policy ['step'] (for a
      step that is not zero), so that with [step = 10] it returns
      [lr] at epoch 0, [lr * 0.5] at epoch 10 and [lr * 0.25] at
      epoch 20;
    - [lr * (1 - epoch / num_epochs) ** 1.1] under ['poly'], at the
      epochs below [num_epochs], which are those the loop of [train]
      passes;
    - [lr] itself under ['const']. *)
Theorem adjust_learning_rate_policies w o epoch :
  optimizer (nets (self_ w)) = Some o →
  let self := self_ w in
  let returned := returns (_adjust_learning_rate epoch w) in
  (Ctx.lr_mode (ctx self) = "step"%string → Ctx.step (ctx self) ≠ 0 →
     returned = Some (lr self * powerRZ (/ 2) (epoch `div` Ctx.step (ctx self)))%R
     ∧ (Ctx.step (ctx self) = 10 →
          (epoch = 0 → returned = Some (lr self))
          ∧ (epoch = 10 → returned = Some (lr self * 0.5)%R)
          ∧ (epoch = 20 → returned = Some (lr self * 0.25)%R)))
  ∧ (Ctx.lr_mode (ctx self) = "poly"%string →
     0 < num_epochs self → epoch < num_epochs self →
     returned
       = Some (lr self * Rpower (1 - IZR epoch / IZR (num_epochs self)) 1.1)%R)
  ∧ (Ctx.lr_mode (ctx self) = "const"%string → returned = Some (lr self)).
Proof.
  intros Ho self returned. subst self returned.
  split; [|split].
  - intros Hmode Hstep.
    pose proof (adjust_learning_rate_returns w o epoch _ Ho
                  (scheduled_lr_step (self_ w) epoch w Hmode Hstep)) as Hret.
    split; [exact Hret|].
    intros H10. rewrite H10 in Hret.
    repeat split; intros ->; rewrite Hret; f_equal.
    + change (powerRZ (/ 2) (0 `div` 10)) with 1%R. lra.
    + change (powerRZ (/ 2) (10 `div` 10)) with (/ 2 * 1)%R. lra.
    + change (powerRZ (/ 2) (20 `div` 10)) with (/ 2 * (/ 2 * 1))%R. lra.
  - intros Hmode Hnum Hepoch.
    eapply adjust_learning_rate_returns; [done|]. by apply scheduled_lr_poly.
  - intros Hmode.
    eapply adjust_learning_rate_returns; [done|]. by apply scheduled_lr_const.
Qed.

End LearningRate.

(** ** The update set *)

Section UpdateDict.

Implicit Types (sd ud : gmap string tensor) (cd : gmap string (option tensor)).

Lemma has_shapes_update_dict sd cd :
  has_shapes sd cd → update_dict_of sd cd = Some (merge keep_entry cd sd).
Proof. intros Hsh. unfold update_dict_of. by rewrite decide_True. Qed.

Lemma update_dict_lookup sd cd ud k :
  update_dict_of sd cd = Some ud → ud !! k = keep_entry (cd !! k) (sd !! k).
Proof.
  unfold update_dict_of. case_decide; [|done]. intros [= <-].
  by rewrite lookup_merge; destruct (cd !! k), (sd !! k).
Qed.

Lemma update_dict_dom sd cd ud :
  update_dict_of sd cd = Some ud → dom ud ⊆ dom sd.
Proof.
  intros Hud k. rewrite !elem_of_dom, (update_dict_lookup _ _ _ _ Hud).
  destruct (cd !! k) as [[?|]|], (sd !! k); cbn; try done; by intros [].
Qed.

Lemma offers_has_shapes sd cd : offers cd sd → has_shapes sd cd.
Proof.
  intros Hoff k v Hk ->. destruct (sd !! k) as [t|] eqn:Hsd; [|done].
  destruct (Hoff k t Hsd) as (t' & Hk' & _). congruence.
Qed.

(** When the record offers every live parameter, the update set has
    exactly the live names, with the tensors of the record. *)
Lemma offers_update_dict sd cd :
  offers cd sd →
  ∃ ud, update_dict_of sd cd = Some ud ∧ dom ud = dom sd
        ∧ ∀ k, is_Some (sd !! k) → cd !! k = Some (ud !! k).
Proof.
  intros Hoff. rewrite has_shapes_update_dict by by apply offers_has_shapes.
  eexists. split; [done|]. split.
  - apply set_eq. intros k. rewrite !elem_of_dom, lookup_merge.
    destruct (sd !! k) as [t|] eqn:Hsd.
    + destruct (Hoff k t Hsd) as (t' & -> & Hsh). cbn.
      rewrite decide_True by done. split; eauto.
    + destruct (cd !! k) as [[?|]|]; cbn; split; by intros [].
  - intros k [t Hsd]. rewrite lookup_merge, Hsd.
    destruct (Hoff k t Hsd) as (t' & -> & Hsh). cbn.
    by rewrite decide_True by done.
Qed.

Lemma size_lt_of_extra sd cd :
  (∀ k, is_Some (sd !! k) → is_Some (cd !! k)) →
  (∃ k, is_Some (cd !! k) ∧ sd !! k = None) →
  (size sd < size cd)%nat.
Proof.
  intros Hsub (k & Hk & Hnone). rewrite <- !size_dom. apply subset_size.
  split.
  - intros j. rewrite !elem_of_dom. apply Hsub.
  - intros Hcd. specialize (Hcd k). rewrite !elem_of_dom in Hcd.
    rewrite Hnone in Hcd. destruct (Hcd Hk) as [? [=]].
Qed.

Lemma size_le_of_names sd cd :
  (∀ k, is_Some (cd !! k) → is_Some (sd !! k)) → (size cd ≤ size sd)%nat.
Proof.
  intros Hsub. rewrite <- !size_dom. apply subseteq_size.
  intros j. rewrite !elem_of_dom. apply Hsub.
Qed.

(** A live parameter the record lacks, or has in another shape, stays
    out of the update set. *)
Lemma update_dict_size_lt sd cd ud :
  update_dict_of sd cd = Some ud →
  (∃ k t, sd !! k = Some t ∧
          ∀ t', cd !! k = Some (Some t') → shape t ≠ shape t') →
  (size ud < size sd)%nat.
Proof.
  intros Hud (k & t & Hsd & Hmiss). rewrite <- !size_dom. apply subset_size.
  split; [by eapply update_dict_dom|].
  intros Hsub. specialize (Hsub k). rewrite !elem_of_dom in Hsub.
  destruct (Hsub (mk_is_Some _ _ Hsd)) as [t' Ht'].
  rewrite (update_dict_lookup _ _ _ _ Hud), Hsd in Ht'.
  destruct (cd !! k) as [[t''|]|] eqn:Hcd; cbn in Ht'; try done.
  case_decide; [|done]. by eapply Hmiss.
Qed.

Lemma update_dict_empty sd cd ud :
  update_dict_of sd cd = Some ud →
  (∀ k t t', sd !! k = Some t → cd !! k = Some (Some t') → shape t ≠ shape t') →
  ud = ∅.
Proof.
  intros Hud Hzero. apply map_eq. intros k.
  rewrite (update_dict_lookup _ _ _ _ Hud), lookup_empty.
  destruct (cd !! k) as [[t'|]|] eqn:Hcd, (sd !! k) as [t|] eqn:Hsd; cbn; try done.
  case_decide; [|done]. by destruct (Hzero k t t').
Qed.

End UpdateDict.

(** ** [_resume_from_checkpoint] *)

Section Resume.

Context {metric : Type}.
Context `{!Collaborators metric}.
Implicit Types (self : trainer metric) (w : world metric).
Implicit Types (sd ud : gmap string tensor) (cd : gmap string (option tensor)).

Lemma resume_missing w :
  fs w !! checkpoint (self_ w) = None →
  _resume_from_checkpoint w
    = Ok false (logged [Log Error (MsgNoCheckpointFound (checkpoint (self_ w)))] w).
Proof. intros Hfile. unfold _resume_from_checkpoint. run. by rewrite Hfile. Qed.

(** The ways through [_resume_from_checkpoint] once the file is read
    and the update set computed: three in the mismatch branch, two in
    the other one. *)
Lemma resume_found w ck cd ud :
  fs w !! checkpoint (self_ w) = Some ck →
  ckp_dict_of ck = Some cd →
  update_dict_of (model (nets (self_ w))) cd = Some ud →
  let self := self_ w in
  let sd := model (nets self) in
  _resume_from_checkpoint w =
    if bool_decide (size ud < size sd)%nat || bool_decide (size sd < size cd)%nat then
      if negb (is_training self) && bool_decide (size ud < size sd)%nat then
        Ok false (logged [Log Error MsgMismatchedForEvaluation] (loading w))
      else if bool_decide (size ud = 0%nat) then
        Ok false (logged [Log Warning MsgTryingMismatched; Log Error MsgNoParameterToLoad]
                         (loading w))
      else
        Ok true (loaded ud (logged [Log Warning MsgTryingMismatched;
                                    Log Warning (MsgParamsToLoad (size ud))] (loading w)))
    else if negb (Ctx.anew (ctx self)) || negb (is_training self) then
      match restore_progress ck (loading w) with
      | Ok _ w' => Ok true (loaded ud w')
      | Raise e w' => Raise e w'
      end
    else Ok true (loaded ud (loading w)).
Proof.
  intros Hfile Hcd Hud self sd. subst self sd.
  unfold _resume_from_checkpoint. run.
  rewrite Hfile. run. rewrite Hcd. run. rewrite Hud. run.
  unfold loaded, loading, logged, finish_load, load_state_dict; run.
  rewrite <- !app_assoc; cbn.
  destruct (bool_decide (size ud < _)%nat || _); cbn.
  - destruct (negb _ && _); cbn; [by rewrite <- !app_assoc|].
    destruct (bool_decide (size ud = 0%nat)); cbn; rewrite <- ?app_assoc; reflexivity.
  - destruct (negb _ || negb _); cbn; [|by rewrite <- ?app_assoc].
    by destruct (restore_progress ck _).
Qed.

Lemma restore_progress_run ck w e p :
  epoch_field ck = Some e →
  max_acc_field ck (Z.max (e - 1) 0) = Some p →
  restore_progress ck w =
    if Ctx.load_optim (ctx (self_ w)) && is_training (self_ w)
    then restore_optimizer ck (restored e p w)
    else Ok tt (restored e p w).
Proof.
  intros He Hp. unfold restore_progress. run. rewrite He. run.
  unfold ckp_epoch. cbn. rewrite Hp. run.
  unfold is_training. cbn. by destruct (Ctx.load_optim _ && _).
Qed.

Lemma restore_optimizer_frame ck w :
  let w' := final_state (restore_optimizer ck w) in
  start_epoch (self_ w') = start_epoch (self_ w)
  ∧ _init_max_acc_and_epoch (self_ w') = _init_max_acc_and_epoch (self_ w)
  ∧ model (nets (self_ w')) = model (nets (self_ w))
  ∧ fs w' = fs w ∧ trace w' = trace w.
Proof.
  unfold restore_optimizer. run.
  destruct (optimizer (nets (self_ w))); run; [|done].
  destruct (ck !! "optimizer"%string); run; [|done].
  destruct (optimizer_load_state_dict _ _); run; done.
Qed.

(** Whatever it does to the counters, [restore_progress] leaves the
    parameters, the files and the trace alone. *)
Lemma restore_progress_frame ck w :
  let w' := final_state (restore_progress ck w) in
  model (nets (self_ w')) = model (nets (self_ w)) ∧ fs w' = fs w ∧ trace w' = trace w.
Proof.
  unfold restore_progress. run.
  destruct (epoch_field ck); run; [|done].
  destruct (max_acc_field ck _); run; [|done].
  destruct (Ctx.load_optim _ && _); [|done].
  match goal with |- context [restore_optimizer ck ?w0] =>
    destruct (restore_optimizer_frame ck w0) as (_ & _ & Hm & Hf & Ht) end.
  cbn in *.
  match goal with |- context [restore_optimizer ck ?w0] =>
    destruct (restore_optimizer ck w0) end; cbn in *; done.
Qed.

(** The counters it leaves are those of the record, also when the
    optimizer then refuses its state. *)
Lemma restore_progress_counters ck w e p :
  epoch_field ck = Some e →
  max_acc_field ck (Z.max (e - 1) 0) = Some p →
  let w' := final_state (restore_progress ck w) in
  start_epoch (self_ w') = e ∧ _init_max_acc_and_epoch (self_ w') = p.
Proof.
  intros He Hp. rewrite (restore_progress_run _ _ _ _ He Hp).
  destruct (Ctx.load_optim _ && _); [|done].
  destruct (restore_optimizer_frame ck (restored e p w)) as (Hs & Hi & _).
  cbn in *. done.
Qed.

End Resume.

Section ResumeClaims.

Context {metric : Type}.
Context `{!Collaborators metric}.
Implicit Types (self : trainer metric) (w : world metric).
Implicit Types (sd ud : gmap string tensor) (cd : gmap string (option tensor)).

(** C1, amended.  Let the parameter mapping of the checkpoint have
    every parameter of the live model, with the same shape.  Then the
    update set [_resume_from_checkpoint] computes covers all live
    parameters, with the tensors of the record.
    - If the mapping has a name the live model has not (a strict
      superset) and the live model is not empty, the load is handled
      as a mismatched checkpoint: the update set is loaded and [True]
      returned, but [start_epoch] and the best-score pair keep the
      values they had.
    - If the mapping has no other name, the load is a full match and,
      unless ['anew'] is set while training, [start_epoch] and the
      best-score pair are those of the record; [True] is returned
      and the update set loaded unless the optimizer is to be
      restored too. *)
Theorem superset_checkpoint_resume w ck cd :
  fs w !! checkpoint (self_ w) = Some ck →
  ckp_dict_of ck = Some cd →
  offers cd (model (nets (self_ w))) →
  let self := self_ w in
  let sd := model (nets self) in
  let r := _resume_from_checkpoint w in
  let self' := self_ (final_state r) in
  ∃ ud,
    update_dict_of sd cd = Some ud
    ∧ dom ud = dom sd
    ∧ (∀ k, is_Some (sd !! k) → cd !! k = Some (ud !! k))
    ∧ ((∃ k, is_Some (cd !! k) ∧ sd !! k = None) → sd ≠ ∅ →
         returns r = Some true
         ∧ model (nets self') = ud
         ∧ start_epoch self' = start_epoch self
         ∧ _init_max_acc_and_epoch self' = _init_max_acc_and_epoch self)
    ∧ ((∀ k, is_Some (cd !! k) → is_Some (sd !! k)) →
       Ctx.anew (ctx self) && is_training self = false →
       ∀ e p, epoch_field ck = Some e → max_acc_field ck (Z.max (e - 1) 0) = Some p →
         start_epoch self' = e
         ∧ _init_max_acc_and_epoch self' = p
         ∧ (Ctx.load_optim (ctx self) && is_training self = false →
              returns r = Some true ∧ model (nets self') = ud)).
Proof.
  intros Hfile Hcd Hoff self sd r self'.
  destruct (offers_update_dict sd cd Hoff) as (ud & Hud & Hdom & Hval).
  exists ud. split; [done|]. split; [done|]. split; [done|].
  assert (Hsize : size ud = size sd) by by rewrite <- !size_dom, Hdom.
  assert (Hunion : ud ∪ sd = ud).
  { apply map_eq. intros k. rewrite lookup_union.
    destruct (ud !! k) eqn:Hk; [by destruct (sd !! k)|].
    apply not_elem_of_dom in Hk. rewrite Hdom in Hk.
    apply not_elem_of_dom in Hk. by rewrite Hk. }
  pose proof (resume_found w ck cd ud Hfile Hcd Hud) as Hr. cbn zeta in Hr.
  fold self sd r in Hr.
  rewrite (bool_decide_eq_false_2 (size ud < size sd)%nat) in Hr by lia.
  rewrite andb_false_r in Hr. cbn [orb] in Hr.
  split.
  - intros Hextra Hne.
    assert (Hlt : (size sd < size cd)%nat).
    { apply size_lt_of_extra; [|done].
      intros k [t Hk]. destruct (Hoff k t Hk) as (t' & -> & _). eauto. }
    rewrite (bool_decide_eq_true_2 _ Hlt) in Hr.
    rewrite bool_decide_eq_false_2 in Hr.
    2:{ rewrite Hsize. intros H0. apply map_size_empty_inv in H0. done. }
    subst self'. rewrite Hr. cbn. fold self sd. rewrite Hunion. done.
  - intros Hnames Hanew e p He Hp.
    assert (Hle : (size cd ≤ size sd)%nat) by by apply size_le_of_names.
    rewrite (bool_decide_eq_false_2 (size sd < size cd)%nat) in Hr by lia.
    replace (negb (Ctx.anew (ctx self)) || negb (is_training self)) with true in Hr
      by (symmetry; destruct (Ctx.anew _), (is_training _); done).
    destruct (restore_progress_counters ck (loading w) e p He Hp) as [Hs Hi].
    destruct (restore_progress_frame ck (loading w)) as (Hm & _).
    pose proof (restore_progress_run ck (loading w) e p He Hp) as Hrun.
    cbn in Hs, Hi, Hm. subst self'. rewrite Hr.
    destruct (restore_progress ck (loading w)) as [[] w1|ex w1] eqn:Hrp; cbn in *.
    + split; [done|]. split; [done|]. intros _. split; [done|].
      fold self sd in Hm. by rewrite Hm, Hunion.
    + split; [done|]. split; [done|]. intros Hopt.
      fold self in Hrun. rewrite Hopt in Hrun. done.
Qed.

(** C7, amended.  In a full-match resume (the record has exactly the
    live parameters, and ['anew'] is not set while training) of a
    checkpoint whose ['max_acc'] is a bare number [x] and whose
    ['epoch'] field is [e], the restored best-score pair is
    [(x, max(e - 1, 0))]: the number is paired with [ckp_epoch], the
    epoch the checkpoint was written at, one less than the stored
    one.  A stored epoch of 5 gives [(x, 4)], one of 6 gives
    [(x, 5)]. *)
Theorem bare_best_score_gets_ckp_epoch w ck cd (v : pyval) (x : Q) (e : Z) :
  fs w !! checkpoint (self_ w) = Some ck →
  ckp_dict_of ck = Some cd →
  offers cd (model (nets (self_ w))) →
  (∀ k, is_Some (cd !! k) → is_Some (model (nets (self_ w)) !! k)) →
  Ctx.anew (ctx (self_ w)) && is_training (self_ w) = false →
  ck !! "epoch"%string = Some (VInt e) →
  ck !! "max_acc"%string = Some v →
  bare_number v = Some x →
  let self' := self_ (final_state (_resume_from_checkpoint w)) in
  start_epoch self' = e
  ∧ _init_max_acc_and_epoch self' = (x, Z.max (e - 1) 0)
  ∧ (e = 5 → _init_max_acc_and_epoch self' = (x, 4))
  ∧ (e = 6 → _init_max_acc_and_epoch self' = (x, 5)).
Proof.
  intros Hfile Hcd Hoff Hnames Hanew He Hv Hx self'.
  assert (He' : epoch_field ck = Some e) by (unfold epoch_field; by rewrite He).
  assert (Hp : max_acc_field ck (Z.max (e - 1) 0) = Some (x, Z.max (e - 1) 0)).
  { unfold max_acc_field. rewrite Hv. destruct v; cbn in Hx; congruence. }
  destruct (offers_update_dict _ cd Hoff) as (ud & Hud & Hdom & _).
  assert (Hsize : size ud = size (model (nets (self_ w))))
    by by rewrite <- !size_dom, Hdom.
  pose proof (size_le_of_names _ cd Hnames) as Hle.
  pose proof (resume_found w ck cd ud Hfile Hcd Hud) as Hr. cbn zeta in Hr.
  rewrite !bool_decide_eq_false_2 in Hr by lia. cbn [orb] in Hr.
  replace (negb (Ctx.anew (ctx (self_ w))) || negb (is_training (self_ w)))
    with true in Hr by (symmetry; destruct (Ctx.anew _), (is_training _); done).
  destruct (restore_progress_counters ck (loading w) e _ He' Hp) as [Hs Hi].
  assert (start_epoch self' = e ∧ _init_max_acc_and_epoch self' = (x, Z.max (e - 1) 0))
    as [Hs' Hi'].
  { subst self'. rewrite Hr.
    destruct (restore_progress ck (loading w)) as [[] w1|ex w1]; cbn in *; done. }
  split; [done|]. split; [done|]. rewrite Hi'. split; by intros ->.
Qed.

End ResumeClaims.

Section ResumeFailures.

Context {metric : Type}.
Context `{!Collaborators metric}.
Implicit Types (self : trainer metric) (w : world metric).
Implicit Types (sd ud : gmap string tensor) (cd : gmap string (option tensor)).

(** C6, amended.  Let no entry of the checkpoint's parameter mapping
    match a parameter of the live model in both name and shape.  Then
    the update set is empty and every parameter of the live model is
    left as it was.  When the live model or the mapping has at least
    one entry, [_resume_from_checkpoint] returns [False] before
    applying anything: [self] and the files are unchanged.  (When
    both are empty the sizes agree and the load goes through as a
    full match.) *)
Theorem disjoint_checkpoint_is_not_loaded w ck cd :
  fs w !! checkpoint (self_ w) = Some ck →
  ckp_dict_of ck = Some cd →
  has_shapes (model (nets (self_ w))) cd →
  (∀ k t t', model (nets (self_ w)) !! k = Some t → cd !! k = Some (Some t') →
             shape t ≠ shape t') →
  let sd := model (nets (self_ w)) in
  let r := _resume_from_checkpoint w in
  update_dict_of sd cd = Some ∅
  ∧ model (nets (self_ (final_state r))) = sd
  ∧ (sd ≠ ∅ ∨ cd ≠ ∅ →
     returns r = Some false
     ∧ self_ (final_state r) = self_ w
     ∧ fs (final_state r) = fs w).
Proof.
  intros Hfile Hcd Hsh Hzero sd r.
  pose proof (has_shapes_update_dict _ _ Hsh) as Hud.
  pose proof (update_dict_empty _ _ _ Hud Hzero) as Hempty.
  rewrite Hempty in Hud. split; [done|].
  pose proof (resume_found w ck cd ∅ Hfile Hcd Hud) as Hr. cbn zeta in Hr.
  fold sd r in Hr. rewrite map_size_empty in Hr.
  rewrite (bool_decide_eq_true_2 (0 = 0)%nat) in Hr by done.
  assert (Hunion : (∅ : gmap string tensor) ∪ sd = sd) by apply (left_id _ _).
  split.
  - rewrite Hr.
    destruct (bool_decide (0 < size sd)%nat || _); [by destruct (negb _ && _)|].
    destruct (negb _ || negb _); cbn; [|done].
    destruct (restore_progress_frame ck (loading w)) as (Hm & _). cbn in Hm.
    destruct (restore_progress ck (loading w)); cbn in *; [|done].
    by rewrite Hm.
  - intros Hne.
    assert (bool_decide (0 < size sd)%nat || bool_decide (size sd < size cd)%nat = true)
      as Hmis.
    { apply orb_true_iff. rewrite !bool_decide_eq_true.
      destruct (decide (size sd = 0)%nat) as [H0|]; [|lia].
      right. rewrite H0. apply map_size_empty_inv in H0.
      destruct Hne as [|Hcd']; [done|].
      destruct (decide (size cd = 0)%nat) as [H1|]; [|lia].
      by apply map_size_empty_inv in H1. }
    rewrite Hr, Hmis. by destruct (negb _ && _).
Qed.

Lemma partial_checkpoint_resume_eval w ck cd :
  is_training (self_ w) = false →
  fs w !! checkpoint (self_ w) = Some ck →
  ckp_dict_of ck = Some cd →
  has_shapes (model (nets (self_ w))) cd →
  (∃ k t, model (nets (self_ w)) !! k = Some t
          ∧ (cd !! k = None ∨ ∃ t', cd !! k = Some (Some t') ∧ shape t' ≠ shape t)) →
  _resume_from_checkpoint w
    = Ok false (logged [Log Error MsgMismatchedForEvaluation] (loading w)).
Proof.
  intros Hval Hfile Hcd Hsh (k & t & Hk & Hpart).
  pose proof (has_shapes_update_dict _ _ Hsh) as Hud.
  rewrite (resume_found w ck cd _ Hfile Hcd Hud). cbn zeta.
  assert (size (merge keep_entry cd (model (nets (self_ w))))
            < size (model (nets (self_ w))))%nat as Hlt.
  { eapply update_dict_size_lt; [done|]. exists k, t. split; [done|].
    intros t' Ht'. destruct Hpart as [Hnone|(t'' & Ht'' & Hne)]; [congruence|].
    rewrite Ht' in Ht''. injection Ht'' as <-. done. }
  rewrite (bool_decide_eq_true_2 _ Hlt), Hval. done.
Qed.

Context `{!Task metric}.

(** C5.  In evaluation mode, let the parameter mapping of the
    checkpoint lack a parameter of the live model, or have it in
    another shape (the values it has under live names being
    tensors).  Then [_resume_from_checkpoint] returns [False],
    leaving [self] as it was, and [evaluate] returns without a call
    of [validate_epoch]. *)
Theorem evaluation_rejects_partial_checkpoint w ck cd :
  is_training (self_ w) = false →
  fs w !! checkpoint (self_ w) = Some ck →
  ckp_dict_of ck = Some cd →
  has_shapes (model (nets (self_ w))) cd →
  (∃ k t, model (nets (self_ w)) !! k = Some t
          ∧ (cd !! k = None ∨ ∃ t', cd !! k = Some (Some t') ∧ shape t' ≠ shape t)) →
  returns (_resume_from_checkpoint w) = Some false
  ∧ self_ (final_state (_resume_from_checkpoint w)) = self_ w
  ∧ returns (evaluate w) = Some tt
  ∧ ∀ e store, CallValidateEpoch e store ∈ trace (final_state (evaluate w)) →
               CallValidateEpoch e store ∈ trace w.
Proof.
  intros Hval Hfile Hcd Hsh Hpart.
  pose proof (partial_checkpoint_resume_eval w ck cd Hval Hfile Hcd Hsh Hpart) as Hr.
  rewrite Hr. split; [done|]. split; [done|].
  unfold evaluate. run.
  destruct (load_checkpoint (self_ w)); run; rewrite ?Hr; cbn;
    (split; [done|]); intros e store;
    rewrite !elem_of_app, !elem_of_cons, elem_of_nil; intuition discriminate.
Qed.

End ResumeFailures.

(** ** [_save_checkpoint] and the loop of [train] *)

Section Loop.

Context {metric : Type}.
Context `{!Collaborators metric}.
Implicit Types (self : trainer metric) (w : world metric).

(** [_save_checkpoint] returns exactly when the tracking interval is
    not zero and, for a best score, the latest and the best slot are
    two files; it then leaves [save_files] and has made
    [save_events]. *)
Lemma save_checkpoint_inv sd os best epoch is_best w w' :
  _save_checkpoint sd os best epoch is_best w = Ok tt w' ↔
  track_intvl (self_ w) ≠ 0
  ∧ (is_best = true → weight_path Latest ≠ weight_path Best)
  ∧ w' = {| self_ := self_ w;
            fs := save_files (checkpoint_state sd os best epoch) epoch
                             (track_intvl (self_ w)) is_best (fs w);
            trace := trace w ++ save_events (checkpoint_state sd os best epoch) epoch
                                            (track_intvl (self_ w)) is_best |}.
Proof.
  unfold _save_checkpoint, save_files, save_events, torch_save, copyfile. run.
  destruct (decide (track_intvl (self_ w) = 0)) as [H0|H0]; run.
  { split; [done|]. by intros [? _]. }
  destruct (decide (epoch `mod` track_intvl (self_ w) = 0)); run;
    destruct is_best; run; rewrite <- ?app_assoc; cbn;
    try (destruct (decide (weight_path Latest = weight_path Best)) as [Heq|Hne]; run;
         [split; [done|]; intros (_ & Hne & _); by destruct Hne
         |rewrite lookup_insert_eq; run]);
    (split; [intros [= <-]; done | intros (_ & _ & ->); done]).
Qed.

Lemma latest_after_save state epoch track is_best (files : gmap string checkpoint_record) :
  (is_best = true → weight_path Latest ≠ weight_path Best) →
  save_files state epoch track is_best files !! weight_path Latest = Some state.
Proof.
  intros Hpaths. unfold save_files. destruct is_best.
  - rewrite lookup_insert_ne by (symmetry; auto). apply lookup_insert_eq.
  - apply lookup_insert_eq.
Qed.

Lemma since_app w0 w evs : trace w = trace w0 ++ evs → since w0 w = evs.
Proof. unfold since. intros ->. by rewrite drop_app_length. Qed.

Context `{!Task metric}.

(** A completed iteration, read backwards: what it returned, what it
    left and what it called. *)
Lemma train_one_epoch_inv epoch best w best' w' :
  train_one_epoch epoch best w = Ok best' w' →
  ∃ it : iteration metric,
    let self := self_ w in
    best' = iteration_best best epoch it
    ∧ track_intvl self ≠ 0
    ∧ (Qgtb (it_acc it) best.1 = true → weight_path Latest ≠ weight_path Best)
    ∧ (∃ self_v, ctx self_v = ctx self
                 ∧ validate_epoch self_v epoch (save self) = Ok (it_acc it) (it_nets it))
    ∧ self_ w' = set_nets (it_nets it) self
    ∧ fs w' = save_files (iteration_state best epoch it) (epoch + 1) (track_intvl self)
                         (Qgtb (it_acc it) best.1) (fs w)
    ∧ trace w' = trace w ++ iteration_events self best epoch it.
Proof.
  unfold train_one_epoch, _adjust_learning_rate, call_hook. run.
  destruct (scheduled_lr (self_ w) epoch w) as [lr0 w1|] eqn:Hlr; run; [|by intros].
  assert (w1 = w) as ->.
  { unfold scheduled_lr in Hlr. revert Hlr. run.
    repeat case_decide; by intros [= _ ->]. }
  destruct (optimizer (nets (self_ w))) as [o|] eqn:Ho; run; [|by intros].
  match goal with |- context [train_epoch ?s epoch] =>
    destruct (train_epoch s epoch) as [[] nets_t|] eqn:Ht end; run; [|by intros].
  match goal with |- context [validate_epoch ?s epoch ?b] =>
    pose (self_v := s); destruct (validate_epoch s epoch b) as [acc nets_v|] eqn:Hv
  end; run; [|by intros].
  intros Hsave.
  assert (∃ os w5,
            _save_checkpoint (model nets_v) os
              (if Qgtb acc best.1 then (acc, epoch) else best) (epoch + 1)
              (Qgtb acc best.1) w5 = Ok tt w'
            ∧ self_ w5 = set_nets nets_v (self_ w) ∧ fs w5 = fs w
            ∧ trace w5 = trace w ++
                [Log ShowNl (MsgEpochLr epoch lr0); CallTrainEpoch epoch;
                 Log ShowNl MsgValidate; CallValidateEpoch epoch (save (self_ w));
                 Log ShowNl (MsgCurrentBest acc epoch
                               (if Qgtb acc best.1 then (acc, epoch) else best).1
                               (if Qgtb acc best.1 then (acc, epoch) else best).2)] ∧
            best' = if Qgtb acc best.1 then (acc, epoch) else best)
    as (os & w5 & Hsv & Hself & Hfs & Htr & ->).
  { revert Hsave.
    destruct (Ctx.save_optim (ctx (self_ w))); run.
    - destruct (optimizer nets_v) as [o'|]; run; [|by intros].
      match goal with |- context [_save_checkpoint ?a ?b ?c ?d ?e ?f] =>
        destruct (_save_checkpoint a b c d e f) as [[] w6|] eqn:Hs end; [|by intros].
      intros [= <- <-]. eexists _, _. split; [exact Hs|].
      cbn. rewrite <- !app_assoc. done.
    - match goal with |- context [_save_checkpoint ?a ?b ?c ?d ?e ?f] =>
        destruct (_save_checkpoint a b c d e f) as [[] w6|] eqn:Hs end; [|by intros].
      intros [= <- <-]. eexists _, _. split; [exact Hs|].
      cbn. rewrite <- !app_assoc. done. }
  apply save_checkpoint_inv in Hsv as (Htrack & Hpaths & ->).
  exists {| it_lr := lr0; it_acc := acc; it_nets := nets_v; it_optim := os |}.
  unfold iteration_best, iteration_state, iteration_events, track_intvl in *. cbn.
  rewrite Hself in Htrack. cbn in Htrack.
  rewrite Hself, Hfs, Htr. cbn. rewrite <- !app_assoc.
  split; [done|]. split; [done|]. split; [exact Hpaths|].
  split; [by exists self_v|]. split; [done|]. split; reflexivity.
Qed.

Lemma scores_iteration_events self best e it :
  scores (iteration_events self best e it) = [it_acc it].
Proof.
  unfold scores, iteration_events, save_events. cbn. rewrite !omap_app. cbn.
  by destruct (decide _), (Qgtb _ _).
Qed.

Lemma saves_iteration_events self best e it :
  saves (iteration_events self best e it)
    = (if decide ((e + 1) `mod` track_intvl self = 0)
       then [(weight_path (History (e + 1)), iteration_state best e it)] else [])
      ++ [(weight_path Latest, iteration_state best e it)].
Proof.
  unfold saves, iteration_events, save_events. cbn. rewrite !omap_app. cbn.
  by destruct (decide _), (Qgtb _ _).
Qed.

Lemma train_loop_app l1 l2 best w :
  train_loop (l1 ++ l2) best w =
    match train_loop l1 best w with
    | Ok best1 w1 => train_loop l2 best1 w1
    | Raise e w1 => Raise e w1
    end.
Proof.
  revert best w. induction l1 as [|e l1 IH]; intros best w; [done|].
  cbn. run. destruct (train_one_epoch e best w); [apply IH|done].
Qed.

(** Every epoch of a loop that has returned was completed. *)
Lemma train_loop_completes w0 best_end w_end e :
  let self := self_ w0 in
  train_loop (epoch_range self) (_init_max_acc_and_epoch self) w0 = Ok best_end w_end →
  start_epoch self ≤ e < num_epochs self →
  ∃ best w best' w', epoch_completed w0 e best w best' w'.
Proof.
  intros self Hloop He. unfold epoch_range in Hloop.
  replace (num_epochs self - start_epoch self)
    with ((e - start_epoch self) + (1 + (num_epochs self - e - 1))) in Hloop by lia.
  rewrite seqZ_app in Hloop by lia.
  rewrite (seqZ_app _ 1) in Hloop by lia.
  rewrite train_loop_app in Hloop.
  destruct (train_loop (seqZ _ (e - _)) _ w0) as [best w|] eqn:Hbefore; [|done].
  rewrite train_loop_app in Hloop.
  replace (start_epoch self + (e - start_epoch self)) with e in Hloop by lia.
  change (seqZ e 1) with [e] in Hloop. cbn in Hloop. revert Hloop. run.
  destruct (train_one_epoch e best w) as [best' w'|] eqn:Hstep; [|done].
  intros _. exists best, w, best', w'. done.
Qed.

(** [train], read backwards: the loop was entered in the world the
    optional resume left, whatever the resume returned. *)
Lemma train_inv w w_end :
  train w = Ok tt w_end →
  ∃ w0 best_end,
    (if load_checkpoint (self_ w)
     then ∃ resumed : bool, _resume_from_checkpoint w = Ok resumed w0
     else w0 = w)
    ∧ train_loop (epoch_range (self_ w0)) (_init_max_acc_and_epoch (self_ w0)) w0
        = Ok best_end w_end.
Proof.
  unfold train. run. destruct (load_checkpoint (self_ w)); run.
  - destruct (_resume_from_checkpoint w) as [resumed w0|]; run; [|done].
    destruct (train_loop _ _ w0) as [best_end w1|] eqn:Hloop; [|done].
    intros [= <-]. exists w0, best_end. eauto.
  - destruct (train_loop _ _ w) as [best_end w1|] eqn:Hloop; [|done].
    intros [= <-]. exists w, best_end. eauto.
Qed.

(** The locals [(max_acc, best_epoch)] hold the running maximum: no
    score reported since the loop was entered, nor the initial one,
    is above [max_acc], and [max_acc] is one of them. *)
Lemma train_loop_running_max epochs best w best' w' :
  train_loop epochs best w = Ok best' w' →
  ctx (self_ w') = ctx (self_ w)
  ∧ ∃ evs, trace w' = trace w ++ evs
    ∧ (∀ s, s ∈ best.1 :: scores evs → (s <= best'.1)%Q)
    ∧ best'.1 ∈ best.1 :: scores evs.
Proof.
  revert best w. induction epochs as [|e epochs IH]; intros best w.
  - intros [= <- <-]. split; [done|]. exists []. rewrite app_nil_r. split; [done|].
    cbn. split; [|apply list_elem_of_singleton; done].
    intros s ->%list_elem_of_singleton. apply Qle_refl.
  - cbn. run. destruct (train_one_epoch e best w) as [b1 w1|] eqn:Hstep; [|done].
    intros Hrest. destruct (IH _ _ Hrest) as (Hctx & evs & Htr & Hub & Hin).
    apply train_one_epoch_inv in Hstep
      as (it & -> & _ & _ & _ & Hself & _ & Htr1).
    cbn zeta in *. split; [by rewrite Hctx, Hself|].
    exists (iteration_events (self_ w) best e it ++ evs).
    split; [by rewrite Htr, Htr1, <- app_assoc|].
    unfold scores in *. rewrite omap_app. fold (scores (iteration_events (self_ w) best e it)).
    rewrite scores_iteration_events. cbn [app].
    unfold iteration_best in *.
    destruct (Qgtb (it_acc it) best.1) eqn:Hgt; cbn in *.
    + apply Qgtb_lt in Hgt. split.
      * intros s [->|[->|Hs]%elem_of_cons]%elem_of_cons.
        -- apply Qlt_le_weak in Hgt. eapply Qle_trans; [exact Hgt|].
           apply Hub. by left.
        -- apply Hub. by left.
        -- apply Hub. by right.
      * right. done.
    + apply Qgtb_le in Hgt. split.
      * intros s [->|[->|Hs]%elem_of_cons]%elem_of_cons.
        -- apply Hub. by left.
        -- eapply Qle_trans; [exact Hgt|]. apply Hub. by left.
        -- apply Hub. by right.
      * apply elem_of_cons in Hin as [->|Hin]; [by left|by right; right].
Qed.

End Loop.

Section LoopClaims.

Context {metric : Type}.
Context `{!Collaborators metric} `{!Task metric}.
Implicit Types (self : trainer metric) (w : world metric).

(** C2.  For every epoch [e] of [range(start_epoch, num_epochs)] that
    [train] completes, the checkpoint persisted at the end of the
    epoch has [e + 1] in its ['epoch'] field: this is the record the
    latest slot holds when the iteration ends, and every
    [torch.save] of the iteration wrote this same record. *)
Theorem checkpoint_stores_next_epoch w0 e best w best' w' :
  epoch_completed w0 e best w best' w' →
  ∃ state,
    fs w' !! weight_path Latest = Some state
    ∧ state !! "epoch"%string = Some (VInt (e + 1))
    ∧ (weight_path Latest, state) ∈ saves (since w w')
    ∧ ∀ path state', (path, state') ∈ saves (since w w') → state' = state.
Proof.
  intros (_ & _ & Hstep).
  apply train_one_epoch_inv in Hstep
    as (it & _ & _ & Hpaths & _ & _ & Hfs & Htr). cbn zeta in *.
  exists (iteration_state best e it).
  rewrite (since_app _ _ _ Htr), saves_iteration_events.
  split; [|split; [|split]].
  - rewrite Hfs. by apply latest_after_save.
  - done.
  - rewrite elem_of_app, list_elem_of_singleton. by right.
  - intros path state'.
    case_decide; cbn; rewrite ?elem_of_cons, elem_of_nil; intuition congruence.
Qed.

(** C3, amended.  In a completed epoch [e] of [train],
    [_save_checkpoint] writes the history slot exactly when the epoch
    it stores, [e + 1], is a multiple of the tracking interval (which
    is not zero), to the path named after [e + 1]; it writes the
    latest slot in every completed epoch.  With an interval of 5,
    completing the epochs 4, 9 and 14 writes a history file, and
    completing the epochs 0, 1, 2, 3, 5 and 10 does not. *)
Theorem history_written_on_stored_epoch w0 e best w best' w' :
  epoch_completed w0 e best w best' w' →
  let track := track_intvl (self_ w) in
  ∃ state,
    track ≠ 0
    ∧ ((e + 1) `mod` track = 0 →
         saves (since w w') = [(weight_path (History (e + 1)), state);
                               (weight_path Latest, state)])
    ∧ ((e + 1) `mod` track ≠ 0 →
         saves (since w w') = [(weight_path Latest, state)])
    ∧ (track = 5 →
         (e = 4 ∨ e = 9 ∨ e = 14 →
            saves (since w w') = [(weight_path (History (e + 1)), state);
                                  (weight_path Latest, state)])
         ∧ (e = 0 ∨ e = 1 ∨ e = 2 ∨ e = 3 ∨ e = 5 ∨ e = 10 →
            saves (since w w') = [(weight_path Latest, state)])).
Proof.
  intros (_ & _ & Hstep) track.
  apply train_one_epoch_inv in Hstep
    as (it & _ & Htrack & _ & _ & _ & _ & Htr). cbn zeta in *.
  exists (iteration_state best e it).
  rewrite (since_app _ _ _ Htr), saves_iteration_events. fold track.
  split; [done|]. split; [|split].
  - intros Hmod. by rewrite decide_True.
  - intros Hmod. by rewrite decide_False.
  - intros ->. split.
    + intros Hcase. rewrite decide_True; [done|].
      destruct Hcase as [->|[->| ->]]; reflexivity.
    + intros Hcase. rewrite decide_False; [done|].
      destruct Hcase as [->|[->|[->|[->|[->| ->]]]]]; discriminate.
Qed.

(** C9.  Let the best slot be a file of its own.  In a completed
    epoch [e] of [train] whose validation returned the score [acc]:
    - if [acc] is strictly above every score of the earlier epochs of
      the run and above the initial best score (the resumed one, or
      [0.0]), the best pair becomes [(acc, e)] and the latest slot,
      just written, is copied to the best slot;
    - otherwise (a tie or a lower score) the best pair is unchanged,
      nothing is copied and the best slot is as it was. *)
Theorem best_slot_follows_strict_maximum w0 e best w best' w' :
  epoch_completed w0 e best w best' w' →
  weight_path Best ≠ weight_path Latest →
  weight_path Best ≠ weight_path (History (e + 1)) →
  let previous := (_init_max_acc_and_epoch (self_ w0)).1 :: scores (since w0 w) in
  let copy := CopyFile (weight_path Latest) (weight_path Best) in
  ∃ acc,
    (∃ self_v nets_v, validate_epoch self_v e (save (self_ w)) = Ok acc nets_v)
    ∧ scores (since w w') = [acc]
    ∧ (above_all acc previous →
         best' = (acc, e)
         ∧ copy ∈ since w w'
         ∧ is_Some (fs w' !! weight_path Latest)
         ∧ fs w' !! weight_path Best = fs w' !! weight_path Latest)
    ∧ (¬ above_all acc previous →
         best' = best
         ∧ (copy ∉ since w w')
         ∧ fs w' !! weight_path Best = fs w !! weight_path Best).
Proof.
  intros (_ & Hbefore & Hstep) Hlatest Hhistory previous copy.
  apply train_loop_running_max in Hbefore as (_ & evs & Htr0 & Hub & Hin).
  apply train_one_epoch_inv in Hstep
    as (it & -> & Htrack & _ & (self_v & _ & Hv) & _ & Hfs & Htr). cbn zeta in *.
  subst previous. rewrite (since_app _ _ _ Htr0), (since_app _ _ _ Htr).
  exists (it_acc it). split; [by eauto|].
  split; [apply scores_iteration_events|].
  assert (Qgtb (it_acc it) best.1 = true
          ↔ above_all (it_acc it) ((_init_max_acc_and_epoch (self_ w0)).1 :: scores evs))
    as Hiff.
  { rewrite Qgtb_lt. split.
    - intros Hgt s Hs. eapply Qle_lt_trans; [by apply Hub|done].
    - intros Hall. by apply Hall. }
  unfold iteration_best, iteration_events, save_events, save_files in *.
  split.
  - intros Hall. apply Hiff in Hall. rewrite Hfs, Hall. split; [done|]. split.
    { rewrite !elem_of_app, !elem_of_cons. right. right. right. left. done. }
    rewrite lookup_insert_eq, lookup_insert_ne, lookup_insert_eq by done. eauto.
  - intros Hnot. destruct (Qgtb (it_acc it) best.1) eqn:Hgt.
    { destruct Hnot. by apply Hiff. }
    split; [done|]. split.
    { subst copy. case_decide; cbn; rewrite ?elem_of_cons, elem_of_nil;
        intuition discriminate. }
    rewrite Hfs, lookup_insert_ne by done.
    case_decide; [by rewrite lookup_insert_ne|done].
Qed.

(** C4, amended.  When training starts with a resume path that is
    not empty and names no file, the resume attempt fails:
    [_resume_from_checkpoint] logs an error and returns [False],
    leaving [self] as it was.  [train] does not look at the result:
    it goes on to run the loop from that state, which for a new
    trainer is [start_epoch] 0 and the best pair [(0.0, 0)]. *)
Theorem missing_checkpoint_is_ignored_by_train w :
  load_checkpoint (self_ w) = true →
  fs w !! checkpoint (self_ w) = None →
  let w1 := logged [Log Error (MsgNoCheckpointFound (checkpoint (self_ w)))] w in
  _resume_from_checkpoint w = Ok false w1
  ∧ self_ w1 = self_ w
  ∧ train w =
      match train_loop (epoch_range (self_ w)) (_init_max_acc_and_epoch (self_ w)) w1 with
      | Ok _ w' => Ok tt w'
      | Raise e w' => Raise e w'
      end.
Proof.
  intros Hload Hfile w1. pose proof (resume_missing w Hfile) as Hr.
  split; [done|]. split; [done|].
  unfold train. run. rewrite Hload. run. rewrite Hr. done.
Qed.

End LoopClaims.

(** ** [CDTrainer.validate_epoch] *)

Section CDTrainerClaims.

Context {metric : Type}.
Context `{!CDCollaborators metric}.
Implicit Types (self : trainer metric).

Lemma init_max_acc_is_no_attribute self :
  CDTrainer.getattr self "_init_max_acc" = None.
Proof. reflexivity. Qed.

(** C10.  With an empty list of metrics, a call of
    [CDTrainer.validate_epoch] whose loop over the batches ends
    normally, so that the [return] statement is reached, raises
    [AttributeError]: the fallback reads [self._init_max_acc], which
    is no attribute of a trainer ([__init__] binds
    [_init_max_acc_and_epoch]).  No call returns a score. *)
Theorem validate_epoch_without_metrics_fails self epoch store losses n :
  metrics (nets self) = [] →
  CDTrainer.validate_batches (nets self) meter_new
    (CDTrainer.validated self val_loader) (Ctx.batch_size (ctx self)) = Ok losses n →
  CDTrainer.validate_epoch self epoch store
    = Raise (AttributeError "_init_max_acc") n
  ∧ returns (CDTrainer.validate_epoch self epoch store) = None.
Proof.
  intros Hmetrics Hloop.
  assert (∀ bs (m : AverageMeter) n0 l n1 b,
            metrics n0 = [] →
            CDTrainer.validate_batches n0 m bs b = Ok l n1 → metrics n1 = [])
    as Hkeep.
  { induction bs as [|x bs IH]; intros m n0 l n1 b Hn0; cbn.
    - by intros [= _ <-].
    - destruct (val_forward n0 x) as [[loss obs]|]; [|done].
      apply IH. cbn. by rewrite Hn0. }
  unfold CDTrainer.validate_epoch. rewrite Hloop.
  unfold CDTrainer.validate_return.
  rewrite (Hkeep _ _ _ _ _ _ Hmetrics Hloop), init_max_acc_is_no_attribute. done.
Qed.

End CDTrainerClaims.

(** * Further properties of the code *)

(** ** More on [_adjust_learning_rate] *)

Section LearningRateEffects.

Context {metric : Type}.
Implicit Types (self : trainer metric) (w : world metric).

(** The schedule reads [self] and changes nothing. *)
Lemma scheduled_lr_pure self epoch w :
  final_state (scheduled_lr self epoch w) = w.
Proof. unfold scheduled_lr. run. by repeat case_decide. Qed.





(** X1.  When [_adjust_learning_rate] returns [x], the optimizer has
    the same state and as many parameter groups as before, and the
    ['lr'] of every group is [x]; nothing else of [self], no file and
    no logged call has changed. *)
Theorem adjust_learning_rate_sets_every_group w epoch x w' :
  _adjust_learning_rate epoch w = Ok x w' →
  ∃ o o',
    optimizer (nets (self_ w)) = Some o
    ∧ opt_state o' = opt_state o
    ∧ length (param_groups o') = length (param_groups o)
    ∧ Forall (eq x) (param_groups o')
    ∧ w' = {| self_ := set_nets (set_optimizer (Some o') (nets (self_ w))) (self_ w);
              fs := fs w; trace := trace w |}.
Proof.
  unfold _adjust_learning_rate. run.
  pose proof (scheduled_lr_pure (self_ w) epoch w) as Hpure.
  destruct (scheduled_lr (self_ w) epoch w) as [x0 w1|]; run; [|by intros].
  cbn in Hpure. subst w1.
  destruct (optimizer (nets (self_ w))) as [o|]; run; [|by intros].
  intros [= <- <-].
  exists o, {| opt_state := opt_state o; param_groups := (λ _, x0) <$> param_groups o |}.
  cbn. split; [done|]. split; [done|]. split; [by rewrite length_fmap|]. split; [|done].
  apply Forall_fmap, Forall_true. done.
Qed.

(** Without an optimizer [_adjust_learning_rate] raises, and leaves
    the world as it was. *)
Lemma adjust_learning_rate_needs_optimizer w epoch :
  optimizer (nets (self_ w)) = None →
  ∃ ex, _adjust_learning_rate epoch w = Raise ex w.
Proof.
  intros Ho. unfold _adjust_learning_rate. run.
  pose proof (scheduled_lr_pure (self_ w) epoch w) as Hpure.
  destruct (scheduled_lr (self_ w) epoch w) as [x0 w1|ex w1]; run; cbn in Hpure; subst.
  - rewrite Ho. eauto.
  - eauto.
Qed.

(** X2.  [_adjust_learning_rate] fails without changing anything:
    whatever it raises, [self], the files and the logged calls are as
    before.  It raises [ValueError] for a policy other than ['step'],
    ['poly'] and ['const'], also when there is no optimizer;
    [ZeroDivisionError] for a ['step'] of 0 and for ['poly'] over 0
    epochs; and [AttributeError] when the schedule has a value but
    [self.optimizer] does not exist (evaluation mode). *)
Theorem adjust_learning_rate_fails_cleanly w epoch :
  let self := self_ w in
  let policy := Ctx.lr_mode (ctx self) in
  let r := _adjust_learning_rate epoch w in
  (succeeded r = false → final_state r = w)
  ∧ (policy ≠ "step"%string → policy ≠ "poly"%string → policy ≠ "const"%string →
       r = Raise (ValueError "unknown lr mode") w)
  ∧ (policy = "step"%string → Ctx.step (ctx self) = 0 → r = Raise ZeroDivisionError w)
  ∧ (policy = "poly"%string → num_epochs self = 0 → r = Raise ZeroDivisionError w)
  ∧ (optimizer (nets self) = None → succeeded (scheduled_lr self epoch w) = true →
       r = Raise (AttributeError "optimizer") w).
Proof.
  intros self policy r. subst self policy r.
  unfold _adjust_learning_rate. run.
  pose proof (scheduled_lr_pure (self_ w) epoch w) as Hpure.
  split; [|split; [|split; [|split]]].
  - destruct (scheduled_lr (self_ w) epoch w) as [x0 w1|]; run; cbn in Hpure; subst; [|done].
    by destruct (optimizer (nets (self_ w))).
  - intros H1 H2 H3. unfold scheduled_lr. by rewrite !decide_False by done.
  - intros H1 H2. unfold scheduled_lr. by rewrite !decide_True by done.
  - intros H1 H2. unfold scheduled_lr. rewrite H1.
    rewrite (decide_False (P := "poly"%string = "step"%string)) by done.
    by rewrite !decide_True by done.
  - intros Ho Hok.
    destruct (scheduled_lr (self_ w) epoch w) as [x0 w1|]; run; cbn in Hpure; subst; [|done].
    by rewrite Ho.
Qed.




End LearningRateEffects.

(** ** More on [_resume_from_checkpoint] *)

Section ResumeEffects.

Context {metric : Type}.
Context `{!Collaborators metric}.
Implicit Types (self : trainer metric) (w : world metric).
Implicit Types (sd ud : gmap string tensor) (cd : gmap string (option tensor)).

(** A mapping of tensors has a shape under every name. *)
Lemma tensors_have_shapes sd (d : gmap string tensor) : has_shapes sd (Some <$> d).
Proof. intros k v Hk ->. by apply lookup_fmap_Some in Hk as (t & [=] & _). Qed.

(** An update set written over the live parameters keeps their names
    and shapes. *)
Lemma update_dict_union_dom sd cd ud :
  update_dict_of sd cd = Some ud → dom (ud ∪ sd) = dom sd.
Proof.
  intros Hud. rewrite dom_union_L. apply subseteq_union_1_L. by eapply update_dict_dom.
Qed.

Lemma update_dict_union_lookup sd cd ud k :
  update_dict_of sd cd = Some ud →
  (ud ∪ sd) !! k =
    match cd !! k, sd !! k with
    | Some (Some t'), Some t => if decide (shape t = shape t') then Some t' else Some t
    | _, live => live
    end.
Proof.
  intros Hud. rewrite lookup_union, (update_dict_lookup _ _ _ _ Hud).
  destruct (cd !! k) as [[t'|]|], (sd !! k) as [t|]; cbn; try done.
  by case_decide.
Qed.

(** The update set of a record that offers every live parameter and
    has no other name replaces the live model. *)
Lemma offers_update_union sd cd ud :
  offers cd sd → update_dict_of sd cd = Some ud → ud ∪ sd = ud.
Proof.
  intros Hoff Hud. destruct (offers_update_dict sd cd Hoff) as (ud' & Hud' & Hdom & _).
  assert (ud' = ud) as -> by congruence.
  apply map_eq. intros k. rewrite lookup_union.
  destruct (ud !! k) eqn:Hk; [by destruct (sd !! k)|].
  apply not_elem_of_dom in Hk. rewrite Hdom in Hk.
  apply not_elem_of_dom in Hk. by rewrite Hk.
Qed.

Lemma restore_optimizer_settings ck w :
  let w' := final_state (restore_optimizer ck w) in
  ctx (self_ w') = ctx (self_ w) ∧ mode (self_ w') = mode (self_ w)
  ∧ metrics (nets (self_ w')) = metrics (nets (self_ w)).
Proof.
  unfold restore_optimizer. run.
  destruct (optimizer (nets (self_ w))); run; [|done].
  destruct (ck !! "optimizer"%string); run; [|done].
  destruct (optimizer_load_state_dict _ _); run; done.
Qed.

Lemma restore_progress_settings ck w :
  let w' := final_state (restore_progress ck w) in
  ctx (self_ w') = ctx (self_ w) ∧ mode (self_ w') = mode (self_ w)
  ∧ metrics (nets (self_ w')) = metrics (nets (self_ w)).
Proof.
  unfold restore_progress. run.
  destruct (epoch_field ck); run; [|done].
  destruct (max_acc_field ck _); run; [|done].
  destruct (Ctx.load_optim _ && _); [|done].
  match goal with |- context [restore_optimizer ck ?w0] =>
    destruct (restore_optimizer_settings ck w0) as (Hc & Hm & Hms) end.
  cbn in *. done.
Qed.

Ltac quiet := repeat (constructor; [first [by left; eauto | by right]|]); constructor.

(** Where [_resume_from_checkpoint] ends, on every path: the files and
    the settings are those it started with, the model is the one it
    started with or that model under an update set, and the calls it
    made are to the logger and to [torch.load]. *)
Lemma resume_outline w :
  let w' := final_state (_resume_from_checkpoint w) in
  let sd := model (nets (self_ w)) in
  fs w' = fs w
  ∧ ctx (self_ w') = ctx (self_ w) ∧ mode (self_ w') = mode (self_ w)
  ∧ metrics (nets (self_ w')) = metrics (nets (self_ w))
  ∧ (model (nets (self_ w')) = sd
     ∨ ∃ cd ud, update_dict_of sd cd = Some ud ∧ model (nets (self_ w')) = ud ∪ sd)
  ∧ ∃ evs, trace w' = trace w ++ evs
           ∧ Forall (λ ev, (∃ l m, ev = Log l m) ∨ ev = TorchLoad (checkpoint (self_ w))) evs.
Proof.

  destruct (fs w !! checkpoint (self_ w)) as [ck|] eqn:Hfile.
  2:{ rewrite (resume_missing w Hfile). cbn. repeat (split; [done|]). split; [by left|].
      eexists. split; [done|]. quiet. }
  destruct (ckp_dict_of ck) as [cd|] eqn:Hcd.
  2:{ unfold _resume_from_checkpoint. run. rewrite Hfile. run. rewrite Hcd. run.
      repeat (split; [done|]). split; [by left|].
      eexists. rewrite <- app_assoc. split; [done|]. quiet. }
  destruct (update_dict_of (model (nets (self_ w))) cd) as [ud|] eqn:Hud.
  2:{ unfold _resume_from_checkpoint. run. rewrite Hfile. run. rewrite Hcd. run.
      rewrite Hud. run.
      repeat (split; [done|]). split; [by left|].
      eexists. rewrite <- app_assoc. split; [done|]. quiet. }
  rewrite (resume_found w ck cd ud Hfile Hcd Hud). cbn zeta.
  destruct (bool_decide (size ud < _)%nat || _).
  - destruct (negb _ && _); [|destruct (bool_decide (size ud = 0%nat))]; cbn.
    + repeat (split; [done|]). split; [by left|].
      eexists. rewrite <- app_assoc. split; [done|]. quiet.
    + repeat (split; [done|]). split; [by left|].
      eexists. rewrite <- app_assoc. split; [done|]. quiet.
    + repeat (split; [done|]). split; [right; eauto|].
      eexists. rewrite <- !app_assoc. split; [done|]. quiet.
  - destruct (negb _ || negb _); cbn.
    + destruct (restore_progress_frame ck (loading w)) as (Hm & Hf & Ht).
      destruct (restore_progress_settings ck (loading w)) as (Hc & Hmo & Hms).
      destruct (restore_progress ck (loading w)) as [[] w1|e w1]; cbn in *.
      * rewrite Hf, Hc, Hmo, Hms, Hm, Ht. repeat (split; [done|]). split; [right; eauto|].
        eexists. rewrite <- !app_assoc. split; [done|]. quiet.
      * rewrite Hf, Hc, Hmo, Hms, Hm, Ht. repeat (split; [done|]). split; [by left|].
        eexists. split; [done|]. quiet.
    + repeat (split; [done|]). split; [right; eauto|].
      eexists. rewrite <- !app_assoc. split; [done|]. quiet.
Qed.

(** A full match whose counters are to be restored and whose optimizer
    is not: the counters of the record, then the parameters. *)
Lemma resume_full_match w ck cd ud e p :
  fs w !! checkpoint (self_ w) = Some ck →
  ckp_dict_of ck = Some cd →
  update_dict_of (model (nets (self_ w))) cd = Some ud →
  size ud = size (model (nets (self_ w))) →
  (size cd ≤ size (model (nets (self_ w))))%nat →
  Ctx.anew (ctx (self_ w)) && is_training (self_ w) = false →
  Ctx.load_optim (ctx (self_ w)) && is_training (self_ w) = false →
  epoch_field ck = Some e →
  max_acc_field ck (Z.max (e - 1) 0) = Some p →
  _resume_from_checkpoint w = Ok true (loaded ud (restored e p (loading w))).
Proof.
  intros Hfile Hcd Hud Hsize Hle Hanew Hopt He Hp.
  rewrite (resume_found w ck cd ud Hfile Hcd Hud). cbn zeta.
  rewrite !bool_decide_eq_false_2 by lia. cbn [orb].
  replace (negb (Ctx.anew (ctx (self_ w))) || negb (is_training (self_ w))) with true
    by (symmetry; destruct (Ctx.anew _), (is_training _); done).
  rewrite (restore_progress_run ck (loading w) e p He Hp).
  change (self_ (loading w)) with (self_ w). by rewrite Hopt.
Qed.

(** X6.  Whatever [_resume_from_checkpoint] returns or raises, it has
    written no file and changed neither the settings, the mode nor the
    metric objects, and the only calls it has made are to the logger
    and to [torch.load] on the resume path. *)
Theorem resume_writes_nothing w :
  let w' := final_state (_resume_from_checkpoint w) in
  fs w' = fs w
  ∧ ctx (self_ w') = ctx (self_ w) ∧ mode (self_ w') = mode (self_ w)
  ∧ metrics (nets (self_ w')) = metrics (nets (self_ w))
  ∧ ∃ evs, trace w' = trace w ++ evs
           ∧ Forall (λ ev, (∃ l m, ev = Log l m) ∨ ev = TorchLoad (checkpoint (self_ w))) evs.
Proof.
  destruct (resume_outline w) as (Hf & Hc & Hm & Hms & _ & Hevs). done.
Qed.

(** X7.  Whatever [_resume_from_checkpoint] returns or raises, the
    model has the parameter names it had, each with the shape it had:
    a load never adds, drops or reshapes a parameter. *)
Theorem resume_keeps_names_and_shapes w :
  let sd := model (nets (self_ w)) in
  let sd' := model (nets (self_ (final_state (_resume_from_checkpoint w)))) in
  dom sd' = dom sd
  ∧ ∀ k t', sd' !! k = Some t' → ∃ t, sd !! k = Some t ∧ shape t' = shape t.
Proof.
  destruct (resume_outline w) as (_ & _ & _ & _ & [Hsd|(cd & ud & Hud & Hsd)] & _);
    cbn zeta; rewrite Hsd.
  - split; [done|]. eauto.
  - split; [by eapply update_dict_union_dom|].
    intros k t'. rewrite (update_dict_union_lookup _ _ _ _ Hud).
    destruct (cd !! k) as [[t0|]|], (model (nets (self_ w)) !! k) as [t|];
      try (intros [= <-]; by eauto); try done.
    case_decide; intros [= <-]; eauto.
Qed.

(** X8.  In training, a checkpoint that matches some parameters of the
    live model but not all of them, or that has more entries than the
    model has parameters, is loaded in part: [True] is returned, every
    parameter the record has under the same name and shape takes the
    record's tensor, every other parameter keeps its own, and
    [start_epoch], the best pair and the optimizer are left alone. *)
Theorem training_loads_matching_parameters w ck cd :
  is_training (self_ w) = true →
  fs w !! checkpoint (self_ w) = Some ck →
  ckp_dict_of ck = Some cd →
  has_shapes (model (nets (self_ w))) cd →
  (∃ k t t', model (nets (self_ w)) !! k = Some t ∧ cd !! k = Some (Some t')
             ∧ shape t = shape t') →
  ((∃ k t, model (nets (self_ w)) !! k = Some t
           ∧ ∀ t', cd !! k = Some (Some t') → shape t ≠ shape t')
   ∨ (size (model (nets (self_ w))) < size cd)%nat) →
  let self := self_ w in
  let sd := model (nets self) in
  let r := _resume_from_checkpoint w in
  let self' := self_ (final_state r) in
  returns r = Some true
  ∧ (∀ k t t', sd !! k = Some t → cd !! k = Some (Some t') → shape t = shape t' →
               model (nets self') !! k = Some t')
  ∧ (∀ k t, sd !! k = Some t → (∀ t', cd !! k = Some (Some t') → shape t ≠ shape t') →
            model (nets self') !! k = Some t)
  ∧ start_epoch self' = start_epoch self
  ∧ _init_max_acc_and_epoch self' = _init_max_acc_and_epoch self
  ∧ optimizer (nets self') = optimizer (nets self).
Proof.
  intros Htrain Hfile Hcd Hsh (k0 & t0 & t0' & Hk0 & Hc0 & Hs0) Hmis self sd r self'.
  pose proof (has_shapes_update_dict _ _ Hsh) as Hud.
  set (ud := merge keep_entry cd (model (nets (self_ w)))) in *.
  assert (size ud ≠ 0%nat) as Hne.
  { intros H0. apply map_size_empty_inv in H0.
    pose proof (update_dict_lookup _ _ _ k0 Hud) as Hl.
    rewrite H0, lookup_empty, Hk0, Hc0 in Hl. cbn in Hl.
    by rewrite decide_True in Hl by done. }
  assert (bool_decide (size ud < size sd)%nat || bool_decide (size sd < size cd)%nat = true)
    as Hbranch.
  { apply orb_true_iff. rewrite !bool_decide_eq_true.
    destruct Hmis as [Hmiss|Hlt]; [left|by right].
    by eapply update_dict_size_lt. }
  pose proof (resume_found w ck cd ud Hfile Hcd Hud) as Hr. cbn zeta in Hr.
  fold self sd r in Hr. rewrite Hbranch in Hr. fold self in Htrain.
  rewrite Htrain in Hr. cbn [negb andb] in Hr.
  rewrite bool_decide_eq_false_2 in Hr by done.
  subst self'. rewrite Hr. cbn. fold self sd.
  split; [done|]. split; [|split; [|done]].
  - intros k t t' Hk Hc Hs. rewrite (update_dict_union_lookup _ _ _ _ Hud).
    fold self sd. rewrite Hc, Hk. by rewrite decide_True.
  - intros k t Hk Hno. rewrite (update_dict_union_lookup _ _ _ _ Hud).
    fold self sd. rewrite Hk. destruct (cd !! k) as [[t'|]|] eqn:Hc; try done.
    rewrite decide_False; [done|]. by apply Hno.
Qed.

(** X9.  In training with ['anew'] set, a checkpoint that has exactly
    the parameters of the live model gives its tensors to the model
    and nothing else: [True] is returned, and [start_epoch], the best
    pair and the optimizer are those the trainer had. *)
Theorem anew_takes_parameters_only w ck cd :
  is_training (self_ w) = true →
  Ctx.anew (ctx (self_ w)) = true →
  fs w !! checkpoint (self_ w) = Some ck →
  ckp_dict_of ck = Some cd →
  offers cd (model (nets (self_ w))) →
  (∀ k, is_Some (cd !! k) → is_Some (model (nets (self_ w)) !! k)) →
  let self := self_ w in
  let r := _resume_from_checkpoint w in
  let self' := self_ (final_state r) in
  returns r = Some true
  ∧ dom (model (nets self')) = dom (model (nets self))
  ∧ (∀ k, is_Some (model (nets self) !! k) → cd !! k = Some (model (nets self') !! k))
  ∧ start_epoch self' = start_epoch self
  ∧ _init_max_acc_and_epoch self' = _init_max_acc_and_epoch self
  ∧ optimizer (nets self') = optimizer (nets self).
Proof.
  intros Htrain Hanew Hfile Hcd Hoff Hnames self r self'.
  destruct (offers_update_dict _ cd Hoff) as (ud & Hud & Hdom & Hval).
  assert (Hsize : size ud = size (model (nets (self_ w))))
    by by rewrite <- !size_dom, Hdom.
  pose proof (size_le_of_names _ cd Hnames) as Hle.
  pose proof (resume_found w ck cd ud Hfile Hcd Hud) as Hr. cbn zeta in Hr.
  rewrite !bool_decide_eq_false_2 in Hr by lia. cbn [orb] in Hr.
  rewrite Hanew, Htrain in Hr. cbn [negb orb] in Hr.
  subst self' r. rewrite Hr. cbn. rewrite (offers_update_union _ _ _ Hoff Hud).
  done.
Qed.

(** X10.  When the optimizer is to be restored (training, not
    ['anew'], ['load_optim'] set) from a fully matching checkpoint
    that has no ['optimizer'] entry, [_resume_from_checkpoint] raises
    [KeyError]: by then [start_epoch] and the best pair are those of
    the record, while no parameter has been loaded. *)
Theorem load_optim_needs_optimizer_entry w ck cd o e p :
  is_training (self_ w) = true →
  Ctx.anew (ctx (self_ w)) = false →
  Ctx.load_optim (ctx (self_ w)) = true →
  optimizer (nets (self_ w)) = Some o →
  fs w !! checkpoint (self_ w) = Some ck →
  ckp_dict_of ck = Some cd →
  offers cd (model (nets (self_ w))) →
  (∀ k, is_Some (cd !! k) → is_Some (model (nets (self_ w)) !! k)) →
  epoch_field ck = Some e →
  max_acc_field ck (Z.max (e - 1) 0) = Some p →
  ck !! "optimizer"%string = None →
  ∃ w', _resume_from_checkpoint w = Raise (KeyError "optimizer") w'
        ∧ start_epoch (self_ w') = e
        ∧ _init_max_acc_and_epoch (self_ w') = p
        ∧ model (nets (self_ w')) = model (nets (self_ w)).
Proof.
  intros Htrain Hanew Hopt Ho Hfile Hcd Hoff Hnames He Hp Hkey.
  destruct (offers_update_dict _ cd Hoff) as (ud & Hud & Hdom & Hval).
  assert (Hsize : size ud = size (model (nets (self_ w))))
    by by rewrite <- !size_dom, Hdom.
  pose proof (size_le_of_names _ cd Hnames) as Hle.
  rewrite (resume_found w ck cd ud Hfile Hcd Hud). cbn zeta.
  rewrite !bool_decide_eq_false_2 by lia. cbn [orb].
  rewrite Hanew. cbn [negb orb].
  rewrite (restore_progress_run ck (loading w) e p He Hp).
  change (self_ (loading w)) with (self_ w). rewrite Hopt, Htrain. cbn [andb].
  unfold restore_optimizer. run. rewrite Ho. run. rewrite Hkey. run.
  eexists. split; [done|]. done.
Qed.

(** X11.  A checkpoint file that is the parameter mapping itself (no
    ['state_dict'], ['epoch'] or ['max_acc'] entry), with exactly the
    parameters of the live model, is a full match: unless ['anew'] is
    set while training, the load returns [True], the model takes the
    tensors of the file, and [start_epoch] and the best pair are set
    to 0 and [(0.0, 0)] whatever they were. *)
Theorem bare_state_dict_resets_progress w (d : gmap string tensor) :
  fs w !! checkpoint (self_ w) = Some (VTensor <$> d) →
  d !! "state_dict"%string = None →
  d !! "epoch"%string = None →
  d !! "max_acc"%string = None →
  dom d = dom (model (nets (self_ w))) →
  (∀ k t t', model (nets (self_ w)) !! k = Some t → d !! k = Some t' → shape t' = shape t) →
  Ctx.anew (ctx (self_ w)) && is_training (self_ w) = false →
  Ctx.load_optim (ctx (self_ w)) && is_training (self_ w) = false →
  let r := _resume_from_checkpoint w in
  let self' := self_ (final_state r) in
  returns r = Some true
  ∧ model (nets self') = d
  ∧ start_epoch self' = 0
  ∧ _init_max_acc_and_epoch self' = (0%Q, 0).
Proof.
  intros Hfile Hsd He Hm Hdom Hshape Hanew Hopt r self'.
  assert (ckp_dict_of (VTensor <$> d) = Some (Some <$> d)) as Hcd.
  { unfold ckp_dict_of. rewrite lookup_fmap, Hsd. cbn. f_equal.
    rewrite <- map_fmap_compose. done. }
  assert (offers (Some <$> d) (model (nets (self_ w)))) as Hoff.
  { intros k t Hk. assert (is_Some (d !! k)) as [t' Ht'].
    { apply elem_of_dom. rewrite Hdom. apply elem_of_dom. eauto. }
    exists t'. rewrite lookup_fmap, Ht'. split; [done|]. by eapply Hshape. }
  destruct (offers_update_dict _ _ Hoff) as (ud & Hud & Hdomu & Hval).
  assert (ud = d) as ->.
  { apply map_eq. intros k. destruct (model (nets (self_ w)) !! k) as [t|] eqn:Hk.
    - specialize (Hval k (mk_is_Some _ _ Hk)). rewrite lookup_fmap in Hval.
      destruct (d !! k), (ud !! k); cbn in Hval; congruence.
    - apply not_elem_of_dom in Hk. pose proof Hk as Hk'.
      rewrite <- Hdomu in Hk. rewrite <- Hdom in Hk'.
      apply not_elem_of_dom in Hk, Hk'. congruence. }
  assert (Hsize : size d = size (model (nets (self_ w))))
    by by rewrite <- !size_dom, Hdom.
  assert (Hle : (size (Some <$> d : gmap string (option tensor))
                 ≤ size (model (nets (self_ w))))%nat)
    by (rewrite map_size_fmap; lia).
  assert (epoch_field (VTensor <$> d) = Some 0) as Hef
    by (unfold epoch_field; by rewrite lookup_fmap, He).
  assert (max_acc_field (VTensor <$> d) (Z.max (0 - 1) 0) = Some (0%Q, 0)) as Hmf
    by (unfold max_acc_field; by rewrite lookup_fmap, Hm).
  subst self' r.
  rewrite (resume_full_match w _ _ d 0 (0%Q, 0) Hfile Hcd Hud Hsize Hle Hanew Hopt Hef Hmf).
  cbn. by rewrite (offers_update_union _ _ _ Hoff Hud).
Qed.

End ResumeEffects.

Lemma raised_Raise {S A} (e : exn) (r : result S A) :
  raised r = Some e → r = Raise e (final_state r).
Proof. destruct r; [done|]. by intros [= ->]. Qed.

(** ** More on [_save_checkpoint] *)

Section SaveEffects.

Context {metric : Type}.
Context `{!Collaborators metric}.
Implicit Types (self : trainer metric) (w : world metric).

(** [_save_checkpoint] raises in two ways: on a tracking interval of
    0, before it writes, and on a best slot that is the latest slot,
    once the history and the latest slot are written. *)
Lemma save_checkpoint_raise_inv sd os best epoch is_best w ex w' :
  _save_checkpoint sd os best epoch is_best w = Raise ex w' →
  (track_intvl (self_ w) = 0 ∧ ex = ZeroDivisionError ∧ w' = w)
  ∨ (track_intvl (self_ w) ≠ 0 ∧ is_best = true
     ∧ weight_path Latest = weight_path Best ∧ ex = SameFileError
     ∧ self_ w' = self_ w
     ∧ fs w' = save_files (checkpoint_state sd os best epoch) epoch
                          (track_intvl (self_ w)) false (fs w)).
Proof.
  unfold _save_checkpoint, save_files, torch_save, copyfile. run.
  destruct (decide (track_intvl (self_ w) = 0)) as [H0|H0]; run.
  { intros [= <- <-]. by left. }
  destruct (decide (epoch `mod` track_intvl (self_ w) = 0)); run;
    destruct is_best; run; try done;
    (destruct (decide (weight_path Latest = weight_path Best)) as [Heq|Hne]; run;
     [intros [= <- <-]; right; done | by rewrite lookup_insert_eq]).
Qed.

(** Every slot [_save_checkpoint] writes holds the record it built. *)
Lemma save_files_written state epoch track is_best
    (files : gmap string checkpoint_record) (s : slot) :
  s = Latest ∨ (s = Best ∧ is_best = true)
    ∨ (s = History epoch ∧ epoch `mod` track = 0) →
  save_files state epoch track is_best files !! weight_path s = Some state.
Proof.
  unfold save_files. intros [->|[[-> ->]|[-> Hmod]]].
  - destruct is_best; rewrite !lookup_insert; by repeat case_decide.
  - apply lookup_insert_eq.
  - rewrite decide_True by done.
    destruct is_best; rewrite !lookup_insert; by repeat case_decide.
Qed.

(** It writes no other file, and removes none. *)
Lemma save_files_other state epoch track is_best
    (files : gmap string checkpoint_record) (p : string) :
  p ≠ weight_path Latest → p ≠ weight_path Best →
  (epoch `mod` track = 0 → p ≠ weight_path (History epoch)) →
  save_files state epoch track is_best files !! p = files !! p.
Proof.
  unfold save_files. intros Hl Hb Hh.
  destruct is_best; case_decide; rewrite !lookup_insert;
    repeat case_decide; subst; try done;
    first [by destruct Hl | by destruct Hb | by destruct Hh].
Qed.

Lemma save_files_keeps state epoch track is_best
    (files : gmap string checkpoint_record) (p : string) :
  is_Some (files !! p) → is_Some (save_files state epoch track is_best files !! p).
Proof.
  unfold save_files. intros Hp.
  destruct is_best; case_decide; rewrite !lookup_insert; by repeat case_decide.
Qed.

(** Reading back the record [_save_checkpoint] builds. *)
Lemma saved_state_fields sd os (best : Q * Z) epoch :
  ckp_dict_of (checkpoint_state sd os best epoch) = Some (Some <$> sd)
  ∧ epoch_field (checkpoint_state sd os best epoch) = Some epoch
  ∧ ∀ at_epoch, max_acc_field (checkpoint_state sd os best epoch) at_epoch = Some best.
Proof. destruct best. done. Qed.

(** Resuming from a file that holds such a record, into a model with
    the names and shapes of the saved parameters. *)
Lemma resume_of_saved_state w sd os best epoch :
  fs w !! checkpoint (self_ w) = Some (checkpoint_state sd os best epoch) →
  dom sd = dom (model (nets (self_ w))) →
  (∀ k t t', model (nets (self_ w)) !! k = Some t → sd !! k = Some t' →
             shape t' = shape t) →
  Ctx.anew (ctx (self_ w)) && is_training (self_ w) = false →
  Ctx.load_optim (ctx (self_ w)) && is_training (self_ w) = false →
  ∃ w', _resume_from_checkpoint w = Ok true w'
        ∧ model (nets (self_ w')) = sd
        ∧ start_epoch (self_ w') = epoch
        ∧ _init_max_acc_and_epoch (self_ w') = best
        ∧ ctx (self_ w') = ctx (self_ w)
        ∧ fs w' = fs w.
Proof.
  intros Hfile Hdom Hshape Hanew Hopt.
  destruct (saved_state_fields sd os best epoch) as (Hcd & He & Hp).
  assert (offers (Some <$> sd) (model (nets (self_ w)))) as Hoff.
  { intros k t Hk. assert (is_Some (sd !! k)) as [t' Ht'].
    { apply elem_of_dom. rewrite Hdom. apply elem_of_dom. eauto. }
    exists t'. rewrite lookup_fmap, Ht'. split; [done|]. by eapply Hshape. }
  destruct (offers_update_dict _ _ Hoff) as (ud & Hud & Hdomu & Hval).
  assert (ud = sd) as ->.
  { apply map_eq. intros k. destruct (model (nets (self_ w)) !! k) as [t|] eqn:Hk.
    - specialize (Hval k (mk_is_Some _ _ Hk)). rewrite lookup_fmap in Hval.
      destruct (sd !! k), (ud !! k); cbn in Hval; congruence.
    - apply not_elem_of_dom in Hk. pose proof Hk as Hk'.
      rewrite <- Hdomu in Hk. rewrite <- Hdom in Hk'.
      apply not_elem_of_dom in Hk, Hk'. congruence. }
  assert (Hsize : size sd = size (model (nets (self_ w))))
    by by rewrite <- !size_dom, Hdom.
  assert (Hle : (size (Some <$> sd : gmap string (option tensor))
                 ≤ size (model (nets (self_ w))))%nat)
    by (rewrite map_size_fmap; lia).
  rewrite (resume_full_match w _ _ sd epoch best Hfile Hcd Hud Hsize Hle Hanew Hopt He
             (Hp _)).
  eexists. split; [done|]. cbn. by rewrite (offers_update_union _ _ _ Hoff Hud).
Qed.


(** X13.  [_save_checkpoint] fails in two ways only.  With a tracking
    interval of 0 it raises [ZeroDivisionError] before it has written
    anything.  When the epoch is a best one and the best slot
    resolves to the path of the latest slot, it raises
    [SameFileError] once the latest slot is written. *)
Theorem save_checkpoint_failures sd os best epoch is_best w :
  let r := _save_checkpoint sd os best epoch is_best w in
  let state := checkpoint_state sd os best epoch in
  (track_intvl (self_ w) = 0 → r = Raise ZeroDivisionError w)
  ∧ (track_intvl (self_ w) ≠ 0 → is_best = true →
     weight_path Latest = weight_path Best →
     ∃ w', r = Raise SameFileError w'
           ∧ fs w' !! weight_path Latest = Some state)
  ∧ (succeeded r = false →
     track_intvl (self_ w) = 0
     ∨ (is_best = true ∧ weight_path Latest = weight_path Best)).
Proof.
  intros r state. subst r state. split; [|split].
  - intros H0. unfold _save_checkpoint. run. by rewrite decide_True.
  - intros H0 -> Heq.
    destruct (_save_checkpoint sd os best epoch true w) as [[] w'|ex w'] eqn:Hr.
    + apply save_checkpoint_inv in Hr as (_ & Hne & _). by destruct Hne.
    + apply save_checkpoint_raise_inv in Hr as [(? & _)|(_ & _ & _ & -> & _ & Hfs)]; [done|].
      exists w'. split; [done|]. rewrite Hfs. by apply save_files_written; left.
  - destruct (_save_checkpoint sd os best epoch is_best w) as [[] w'|ex w'] eqn:Hr; [done|].
    intros _. apply save_checkpoint_raise_inv in Hr as [(? & _)|(_ & ? & ? & _)]; auto.
Qed.

End SaveEffects.

(** ** More on the loop of [train] *)

Section LoopEffects.

Context {metric : Type}.
Context `{!Collaborators metric} `{!Task metric}.
Implicit Types (self : trainer metric) (w : world metric).

Lemma train_calls_iteration_events self best e (it : iteration metric) :
  train_calls (iteration_events self best e it) = [e].
Proof.
  unfold train_calls, iteration_events, save_events. cbn. rewrite !omap_app. cbn.
  by destruct (decide _), (Qgtb _ _).
Qed.

Lemma validate_calls_iteration_events self best e (it : iteration metric) :
  validate_calls (iteration_events self best e it) = [(e, save self)].
Proof.
  unfold validate_calls, iteration_events, save_events. cbn. rewrite !omap_app. cbn.
  by destruct (decide _), (Qgtb _ _).
Qed.

Lemma reads_no_calls evs :
  Forall reads evs → train_calls evs = [] ∧ validate_calls evs = [] ∧ saves evs = [].
Proof.
  induction 1 as [|ev evs Hev _ (IH1 & IH2 & IH3)]; [done|].
  unfold train_calls, validate_calls, saves in *. cbn.
  rewrite IH1, IH2, IH3. by destruct ev.
Qed.

Lemma resume_reads w :
  ∃ evs, trace (final_state (_resume_from_checkpoint w)) = trace w ++ evs
         ∧ Forall reads evs.
Proof.
  destruct (resume_outline w) as (_ & _ & _ & _ & _ & evs & Htr & Hevs).
  exists evs. split; [done|]. eapply Forall_impl; [exact Hevs|].
  by intros ev [(l & m & ->)| ->].
Qed.

(** A loop that has returned has left the settings and the counters of
    [self] alone, has called the two hooks once per epoch, in order,
    and has touched no file but the checkpoint slots. *)
Lemma train_loop_outline epochs best w best' w' :
  train_loop epochs best w = Ok best' w' →
  ctx (self_ w') = ctx (self_ w) ∧ mode (self_ w') = mode (self_ w)
  ∧ start_epoch (self_ w') = start_epoch (self_ w)
  ∧ _init_max_acc_and_epoch (self_ w') = _init_max_acc_and_epoch (self_ w)
  ∧ (∀ p, (∀ s, p ≠ weight_path s) → fs w' !! p = fs w !! p)
  ∧ (∀ p, is_Some (fs w !! p) → is_Some (fs w' !! p))
  ∧ ∃ evs, trace w' = trace w ++ evs
           ∧ train_calls evs = epochs
           ∧ validate_calls evs = (λ e, (e, save (self_ w))) <$> epochs.
Proof.
  revert best w. induction epochs as [|e epochs IH]; intros best w.
  - intros [= <- <-]. repeat (split; [done|]). exists []. by rewrite app_nil_r.
  - cbn. run. destruct (train_one_epoch e best w) as [b1 w1|] eqn:Hstep; [|done].
    intros Hrest.
    destruct (IH _ _ Hrest) as (Hc & Hm & Hs & Hi & Hother & Hkeep & evs & Htr & Ht & Hv).
    apply train_one_epoch_inv in Hstep
      as (it & -> & _ & _ & _ & Hself & Hfs & Htr1). cbn zeta in *.
    rewrite Hc, Hm, Hs, Hi, Hself. repeat (split; [done|]).
    split; [|split].
    + intros p Hp. rewrite (Hother p Hp), Hfs. apply save_files_other; auto.
    + intros p Hp. apply Hkeep. rewrite Hfs. by apply save_files_keeps.
    + exists (iteration_events (self_ w) best e it ++ evs).
      split; [by rewrite Htr, Htr1, <- app_assoc|].
      unfold train_calls, validate_calls in *. rewrite !omap_app.
      fold (train_calls (iteration_events (self_ w) best e it)).
      fold (validate_calls (iteration_events (self_ w) best e it)).
      rewrite train_calls_iteration_events, validate_calls_iteration_events, Ht, Hv.
      rewrite Hself. done.
Qed.

(** [train] once its resume has returned. *)
Lemma train_after_resume w (resumed : bool) w0 :
  load_checkpoint (self_ w) = true →
  _resume_from_checkpoint w = Ok resumed w0 →
  train w =
    match train_loop (epoch_range (self_ w0)) (_init_max_acc_and_epoch (self_ w0)) w0 with
    | Ok _ w' => Ok tt w'
    | Raise e w' => Raise e w'
    end.
Proof. intros Hload Hr. unfold train. run. rewrite Hload. run. by rewrite Hr. Qed.

(** X14.  A training run that is interrupted goes on where it stopped.
    Once an epoch [e] of [train] is completed, a training run that
    resumes from the latest slot (same architecture, ['anew'] and
    ['load_optim'] not set) loads the parameters the epoch left,
    takes [e + 1] as [start_epoch] and the best pair of the first run
    as its own, and enters its loop at the epoch [e + 1]. *)
Theorem resumed_training_continues w0 e best w best' w' w2 :
  epoch_completed w0 e best w best' w' →
  fs w2 = fs w' →
  checkpoint (self_ w2) = weight_path Latest →
  load_checkpoint (self_ w2) = true →
  dom (model (nets (self_ w'))) = dom (model (nets (self_ w2))) →
  (∀ k t t', model (nets (self_ w2)) !! k = Some t →
             model (nets (self_ w')) !! k = Some t' → shape t' = shape t) →
  Ctx.anew (ctx (self_ w2)) = false →
  Ctx.load_optim (ctx (self_ w2)) = false →
  ∃ w3,
    _resume_from_checkpoint w2 = Ok true w3
    ∧ model (nets (self_ w3)) = model (nets (self_ w'))
    ∧ start_epoch (self_ w3) = e + 1
    ∧ _init_max_acc_and_epoch (self_ w3) = best'
    ∧ train w2 =
        match train_loop (seqZ (e + 1) (num_epochs (self_ w2) - (e + 1))) best' w3 with
        | Ok _ w4 => Ok tt w4
        | Raise ex w4 => Raise ex w4
        end.
Proof.
  intros (_ & _ & Hstep) Hfs Hpath Hload Hdom Hshape Hanew Hopt.
  apply train_one_epoch_inv in Hstep
    as (it & -> & _ & Hpaths & _ & Hself & Hfs' & _). cbn zeta in *.
  rewrite Hself in Hdom, Hshape. cbn in Hdom, Hshape.
  assert (fs w2 !! checkpoint (self_ w2) = Some (iteration_state best e it)) as Hfile.
  { rewrite Hfs, Hpath, Hfs'. by apply latest_after_save. }
  destruct (resume_of_saved_state w2 _ _ _ _ Hfile Hdom Hshape) as
    (w3 & Hr & Hm & Hs & Hb & Hc & _).
  { by rewrite Hanew. }
  { by rewrite Hopt. }
  exists w3. split; [done|]. rewrite Hself. cbn. split; [done|]. split; [done|].
  split; [done|].
  rewrite (train_after_resume w2 true w3 Hload Hr).
  unfold epoch_range, num_epochs. by rewrite Hs, Hb, Hc.
Qed.

(** X15.  A training run that returns has called [train_epoch] and
    then [validate_epoch] once for every epoch from [start_epoch] (as
    the resume left it) up to [num_epochs], in increasing order,
    validation always with [store = self.save].  The loop itself
    never assigns [start_epoch] or the initial best pair: without a
    resume path they are after the run what they were before. *)
Theorem train_runs_remaining_epochs_in_order w w_end :
  train w = Ok tt w_end →
  let first := start_epoch (self_ w_end) in
  let remaining := seqZ first (num_epochs (self_ w) - first) in
  train_calls (since w w_end) = remaining
  ∧ validate_calls (since w w_end) = (λ e, (e, save (self_ w))) <$> remaining
  ∧ (load_checkpoint (self_ w) = false →
       first = start_epoch (self_ w)
       ∧ _init_max_acc_and_epoch (self_ w_end) = _init_max_acc_and_epoch (self_ w)).
Proof.
  intros Htrain first remaining.
  apply train_inv in Htrain as (w0 & best_end & Hresume & Hloop).
  apply train_loop_outline in Hloop
    as (Hc & _ & Hs & Hi & _ & _ & evs & Htr & Ht & Hv).
  assert (ctx (self_ w0) = ctx (self_ w) ∧ ∃ evs0, trace w0 = trace w ++ evs0 ∧ Forall reads evs0)
    as (Hc0 & evs0 & Htr0 & Hreads).
  { destruct (load_checkpoint (self_ w)).
    - destruct Hresume as (b & Hr).
      destruct (resume_outline w) as (_ & Hctx & _).
      destruct (resume_reads w) as (evs0 & Htr0 & Hreads).
      rewrite Hr in Hctx, Htr0. cbn in Hctx, Htr0. eauto.
    - subst w0. split; [done|]. exists []. by rewrite app_nil_r. }
  apply reads_no_calls in Hreads as (Ht0 & Hv0 & _).
  assert (since w w_end = evs0 ++ evs) as ->.
  { apply since_app. by rewrite Htr, Htr0, <- app_assoc. }
  assert (epoch_range (self_ w0) = remaining) as Hrange.
  { subst remaining first. unfold epoch_range, num_epochs. by rewrite Hs, Hc0. }
  unfold train_calls, validate_calls in *. rewrite !omap_app, Ht0, Hv0, Ht, Hv. cbn.
  unfold save. rewrite Hc0, Hrange. split; [done|]. split; [done|].
  intros Hload. rewrite Hload in Hresume. subst w0 first. by rewrite Hs, Hi.
Qed.

(** X16.  A completed epoch [e] of [train] writes the latest slot, the
    best slot and the history slot of [e + 1], and no other file:
    every other path, the history files of other epochs among them,
    holds what it held, and no file is removed. *)
Theorem completed_epoch_touches_only_its_slots w0 e best w best' w' :
  epoch_completed w0 e best w best' w' →
  (∀ p, p ≠ weight_path Latest → p ≠ weight_path Best →
        p ≠ weight_path (History (e + 1)) → fs w' !! p = fs w !! p)
  ∧ (∀ p, is_Some (fs w !! p) → is_Some (fs w' !! p))
  ∧ (∀ p, is_Some (fs w0 !! p) → is_Some (fs w' !! p)).
Proof.
  intros (_ & Hbefore & Hstep).
  apply train_loop_outline in Hbefore as (_ & _ & _ & _ & _ & Hkeep0 & _).
  apply train_one_epoch_inv in Hstep as (it & _ & _ & _ & _ & _ & Hfs & _).
  cbn zeta in *. rewrite Hfs. split; [|split].
  - intros p Hl Hb Hh. by apply save_files_other.
  - intros p Hp. by apply save_files_keeps.
  - intros p Hp. by apply save_files_keeps, Hkeep0.
Qed.

(** X17.  An epoch of [train] that fails has written no checkpoint
    file: whatever is raised by the schedule, by a hook or by
    [_save_checkpoint], the files are those the epoch started with.
    The one exception is [SameFileError], raised when the best slot
    resolves to the path of the latest slot. *)
Theorem failed_epoch_writes_nothing epoch best w ex w' :
  train_one_epoch epoch best w = Raise ex w' →
  fs w' = fs w ∨ (ex = SameFileError ∧ weight_path Latest = weight_path Best).
Proof.
  unfold train_one_epoch, _adjust_learning_rate, call_hook. run.
  pose proof (scheduled_lr_pure (self_ w) epoch w) as Hpure.
  destruct (scheduled_lr (self_ w) epoch w) as [lr0 w1|ex0 w1]; cbn in Hpure; subst w1; run.
  2:{ intros [= _ <-]. by left. }
  destruct (optimizer (nets (self_ w))) as [o|] eqn:Ho; run.
  2:{ intros [= _ <-]. by left. }
  match goal with |- context [train_epoch ?s epoch] =>
    destruct (train_epoch s epoch) as [[] nets_t|] end; run.
  2:{ intros [= _ <-]. by left. }
  match goal with |- context [validate_epoch ?s epoch ?b] =>
    destruct (validate_epoch s epoch b) as [acc nets_v|] end; run.
  2:{ intros [= _ <-]. by left. }
  destruct (Ctx.save_optim (ctx (self_ w))); run.
  - destruct (optimizer nets_v) as [o'|]; run.
    2:{ intros [= _ <-]. by left. }
    match goal with |- context [_save_checkpoint ?a ?b ?c ?d ?e ?f] =>
      destruct (_save_checkpoint a b c d e f) as [[] w6|ex6 w6] eqn:Hs end; [done|].
    intros [= <- <-].
    apply save_checkpoint_raise_inv in Hs as [(_ & _ & ->)|(_ & _ & ? & ? & _)]; auto.
  - match goal with |- context [_save_checkpoint ?a ?b ?c ?d ?e ?f] =>
      destruct (_save_checkpoint a b c d e f) as [[] w6|ex6 w6] eqn:Hs end; [done|].
    intros [= <- <-].
    apply save_checkpoint_raise_inv in Hs as [(_ & _ & ->)|(_ & _ & ? & ? & _)]; auto.
Qed.

(** X18.  Let the best slot be a file of its own.  When the loop of
    [train] returns, either no epoch has improved on the initial best
    pair and the best slot holds what it held, or the best slot holds
    the checkpoint of the best epoch: its ['max_acc'] is the final
    best pair [(max_acc, best_epoch)] and its ['epoch'] is
    [best_epoch + 1]. *)
Theorem best_slot_holds_best_epoch epochs best w best' w' :
  train_loop epochs best w = Ok best' w' →
  weight_path Best ≠ weight_path Latest →
  (∀ e, weight_path Best ≠ weight_path (History e)) →
  (best' = best ∧ fs w' !! weight_path Best = fs w !! weight_path Best)
  ∨ (best'.2 ∈ epochs
     ∧ ∃ sd os, fs w' !! weight_path Best
                  = Some (checkpoint_state sd os best' (best'.2 + 1))).
Proof.
  intros Hloop Hlatest Hhistory. revert best w Hloop.
  induction epochs as [|e epochs IH]; intros best w.
  - intros [= <- <-]. by left.
  - cbn. run. destruct (train_one_epoch e best w) as [b1 w1|] eqn:Hstep; [|done].
    intros Hrest.
    apply train_one_epoch_inv in Hstep as (it & -> & _ & _ & _ & _ & Hfs & _).
    cbn zeta in Hfs.
    destruct (IH _ _ Hrest) as [[-> Hsame]|(Hin & sd & os & Hbest)].
    2:{ right. split; [by right|]. eauto. }
    rewrite Hsame, Hfs. unfold iteration_state, iteration_best, save_files.
    destruct (Qgtb (it_acc it) best.1).
    + right. split; [by left|]. exists (model (it_nets it)), (it_optim it).
      apply lookup_insert_eq.
    + left. split; [done|]. rewrite lookup_insert_ne by done.
      case_decide; [by rewrite lookup_insert_ne|done].
Qed.

End LoopEffects.

(** ** [evaluate], [run] and the base class *)

Section DriverEffects.

Context {metric : Type}.
Context `{!Collaborators metric} `{!Task metric}.
Implicit Types (self : trainer metric) (w : world metric).

(** [evaluate] once its resume has returned. *)
Lemma evaluate_after_resume w (resumed : bool) w0 :
  load_checkpoint (self_ w) = true →
  _resume_from_checkpoint w = Ok resumed w0 →
  evaluate w =
    if resumed then
      match validate_epoch (self_ w0) (ckp_epoch (self_ w0)) (save (self_ w0)) with
      | Ok _ n => Ok tt (validated_world w0 n)
      | Raise e n => Raise e (validated_world w0 n)
      end
    else Ok tt w0.
Proof.
  intros Hload Hr. unfold evaluate, call_hook, validated_world. run.
  rewrite Hload. run. rewrite Hr. destruct resumed; run; [|done].
  by destruct (validate_epoch _ _ _).
Qed.

(** X19.  In evaluation mode [run] only reads and validates: it
    writes no file, and the calls it makes are to the logger, to
    [torch.load] and, at most once, to [validate_epoch]; it never
    prompts, trains, saves or copies.  Without a resume path it logs
    one warning and does nothing else. *)
Theorem evaluation_run_only_loads_and_validates w :
  is_training (self_ w) = false →
  let w' := final_state (run w) in
  fs w' = fs w
  ∧ ∃ evs, trace w' = trace w ++ evs
           ∧ Forall (λ ev, reads ev ∨ ∃ e store, ev = CallValidateEpoch e store) evs
           ∧ (length (validate_calls evs) ≤ 1)%nat
           ∧ (load_checkpoint (self_ w) = false →
                evs = [Log Warning MsgNoCheckpointAssigned] ∧ self_ w' = self_ w).
Proof.
  intros Hval. unfold run. run. rewrite Hval.
  destruct (load_checkpoint (self_ w)) eqn:Hload.
  2:{ unfold evaluate. run. rewrite Hload. cbn. split; [done|].
      eexists. split; [done|]. split; [|split; [cbn; lia|done]].
      repeat constructor. }
  destruct (resume_outline w) as (Hfs & _).
  destruct (resume_reads w) as (evs0 & Htr0 & Hreads).
  pose proof (reads_no_calls _ Hreads) as (_ & Hv0 & _).
  assert (Forall (λ ev, reads ev ∨ ∃ e store, ev = CallValidateEpoch e store) evs0)
    as Hreads' by (eapply Forall_impl; [exact Hreads|]; by left).
  destruct (_resume_from_checkpoint w) as [resumed w0|ex w0] eqn:Hr; cbn in Hfs, Htr0.
  - rewrite (evaluate_after_resume w resumed w0 Hload Hr).
    destruct resumed.
    + assert (∀ r : result (net metric) Q,
                final_state match r with
                            | Ok _ n => Ok tt (validated_world w0 n)
                            | Raise e n => Raise e (validated_world w0 n)
                            end = validated_world w0 (final_state r)) as Hfinal
        by by intros [].
      rewrite Hfinal. cbn. split; [done|].
      exists (evs0 ++ [CallValidateEpoch (ckp_epoch (self_ w0)) (save (self_ w0))]).
      rewrite Htr0, <- app_assoc. split; [done|]. split; [|split; [|done]].
      * apply Forall_app. split; [done|]. apply Forall_singleton. right. eauto.
      * unfold validate_calls in *. rewrite omap_app, Hv0. cbn. lia.
    + cbn. split; [done|]. exists evs0. split; [done|]. split; [done|].
      split; [|done]. rewrite Hv0. cbn. lia.
  - unfold evaluate. run. rewrite Hload. run. rewrite Hr. cbn.
    split; [done|]. exists evs0. split; [done|]. split; [done|].
    split; [|done]. rewrite Hv0. cbn. lia.
Qed.

(** X20.  In evaluation mode, a checkpoint that has exactly the
    parameters of the live model, with the stored epoch [e], is
    validated once, at the epoch [max(e - 1, 0)] and with
    [store = self.save], by a trainer that has the tensors of the
    record and [e] as [start_epoch]; [evaluate] returns exactly when
    that call does, with the nets the call has left. *)
Theorem evaluate_validates_at_checkpoint_epoch w ck cd e p :
  is_training (self_ w) = false →
  load_checkpoint (self_ w) = true →
  fs w !! checkpoint (self_ w) = Some ck →
  ckp_dict_of ck = Some cd →
  offers cd (model (nets (self_ w))) →
  (∀ k, is_Some (cd !! k) → is_Some (model (nets (self_ w)) !! k)) →
  epoch_field ck = Some e →
  max_acc_field ck (Z.max (e - 1) 0) = Some p →
  ∃ self_v,
    let call := validate_epoch self_v (Z.max (e - 1) 0) (save (self_ w)) in
    start_epoch self_v = e
    ∧ _init_max_acc_and_epoch self_v = p
    ∧ (∀ k, is_Some (model (nets (self_ w)) !! k) →
            cd !! k = Some (model (nets self_v) !! k))
    ∧ validate_calls (since w (final_state (evaluate w)))
        = [(Z.max (e - 1) 0, save (self_ w))]
    ∧ returns (evaluate w) = (λ _, tt) <$> returns call
    ∧ nets (self_ (final_state (evaluate w))) = final_state call.
Proof.
  intros Hval Hload Hfile Hcd Hoff Hnames He Hp.
  destruct (offers_update_dict _ cd Hoff) as (ud & Hud & Hdom & Hvals).
  assert (Hsize : size ud = size (model (nets (self_ w))))
    by by rewrite <- !size_dom, Hdom.
  pose proof (size_le_of_names _ cd Hnames) as Hle.
  assert (Ctx.anew (ctx (self_ w)) && is_training (self_ w) = false) as Hanew
    by (rewrite Hval; apply andb_false_r).
  assert (Ctx.load_optim (ctx (self_ w)) && is_training (self_ w) = false) as Hopt
    by (rewrite Hval; apply andb_false_r).
  pose proof (resume_full_match w ck cd ud e p Hfile Hcd Hud Hsize Hle Hanew Hopt He Hp)
    as Hr.
  rewrite (evaluate_after_resume w true _ Hload Hr).
  exists (self_ (loaded ud (restored e p (loading w)))). cbn zeta.
  change (ckp_epoch (self_ (loaded ud (restored e p (loading w)))))
    with (Z.max (e - 1) 0).
  change (save (self_ (loaded ud (restored e p (loading w))))) with (save (self_ w)).
  split; [done|]. split; [done|]. split.
  { cbn. rewrite (offers_update_union _ _ _ Hoff Hud). exact Hvals. }
  destruct (validate_epoch _ _ _) as [acc n|ex n]; cbn.
  - split; [|done]. erewrite since_app.
    2:{ cbn. rewrite <- !app_assoc. done. }
    done.
  - split; [|done]. erewrite since_app.
    2:{ cbn. rewrite <- !app_assoc. done. }
    done.
Qed.

End DriverEffects.

Section BaseClass.

Context {metric : Type}.
Context `{!Collaborators metric}.
Implicit Types (self : trainer metric) (w : world metric).

(** X21.  With the hooks of the base class [Trainer] itself, neither
    driver gets anything done.  No epoch of [train] completes: when
    the learning rate can be set, the epoch raises
    [NotImplementedError] with no file written, and [train] returns
    only when there is no epoch left to run.  [evaluate] raises
    [NotImplementedError] whenever its resume succeeds. *)
Theorem base_class_hooks_are_abstract w :
  (∀ epoch best, succeeded (train_one_epoch (Task0 := abstract_task) epoch best w) = false)
  ∧ (∀ epoch best o x,
       optimizer (nets (self_ w)) = Some o →
       scheduled_lr (self_ w) epoch w = Ok x w →
       ∃ w', train_one_epoch (Task0 := abstract_task) epoch best w
               = Raise NotImplementedError w'
             ∧ fs w' = fs w)
  ∧ (∀ w', train (Task0 := abstract_task) w = Ok tt w' →
           num_epochs (self_ w) ≤ start_epoch (self_ w') ∧ fs w' = fs w)
  ∧ (∀ w0, load_checkpoint (self_ w) = true →
           _resume_from_checkpoint w = Ok true w0 →
           ∃ w', evaluate (Task0 := abstract_task) w = Raise NotImplementedError w').
Proof.
  split; [|split; [|split]].
  - intros epoch best.
    destruct (train_one_epoch (Task0 := abstract_task) epoch best w) as [b w'|] eqn:Hstep;
      [|done].
    apply (train_one_epoch_inv (Task0 := abstract_task)) in Hstep
      as (it & _ & _ & _ & (self_v & _ & Hv) & _). done.
  - intros epoch best o x Ho Hlr.
    unfold train_one_epoch, _adjust_learning_rate, call_hook. run.
    rewrite Hlr. run. rewrite Ho. run. eexists. split; done.
  - intros w' Htrain.
    apply (train_inv (Task0 := abstract_task)) in Htrain
      as (w0 & best_end & Hresume & Hloop).
    assert (fs w0 = fs w ∧ ctx (self_ w0) = ctx (self_ w)) as [Hfs Hctx].
    { destruct (load_checkpoint (self_ w)); [|by subst].
      destruct Hresume as (b & Hr).
      destruct (resume_outline w) as (Hfs & Hctx & _). by rewrite Hr in Hfs, Hctx. }
    unfold epoch_range in Hloop.
    destruct (decide (num_epochs (self_ w0) - start_epoch (self_ w0) ≤ 0)) as [Hle|Hgt].
    + rewrite seqZ_nil in Hloop by done. injection Hloop as _ <-.
      unfold num_epochs in *. rewrite <- Hctx. split; [lia|done].
    + rewrite seqZ_cons in Hloop by lia. cbn in Hloop. revert Hloop. run.
      destruct (train_one_epoch (Task0 := abstract_task) (start_epoch (self_ w0))
                  (_init_max_acc_and_epoch (self_ w0)) w0) as [b w1|] eqn:Hstep; [|done].
      apply (train_one_epoch_inv (Task0 := abstract_task)) in Hstep
        as (it & _ & _ & _ & (self_v & _ & Hv) & _). done.
  - intros w0 Hload Hr.
    rewrite (evaluate_after_resume (Task0 := abstract_task) w true w0 Hload Hr). cbn.
    eauto.
Qed.

(** X22.  [Trainer.__init__] accepts the commands ['train'] and
    ['val'] only.  The trainer it builds is in training mode exactly
    for ['train'], starts at epoch 0 with the best pair [(0.0, 0)] (so
    that [ckp_epoch] is 0), and has an optimizer exactly when it is in
    training mode: an epoch of the training loop run on an evaluation
    trainer fails before any hook is called and without a file
    written. *)
Theorem init_builds_mode_and_optimizer (settings : Ctx.t) (m : gmap string tensor)
    (o : optim) (ms : list metric) `{!Task metric} :
  (is_Some (Trainer_init settings m o ms)
   ↔ Ctx.cmd settings = "train"%string ∨ Ctx.cmd settings = "val"%string)
  ∧ ∀ self, Trainer_init settings m o ms = Some self →
      ctx self = settings
      ∧ (is_training self = true ↔ Ctx.cmd settings = "train"%string)
      ∧ start_epoch self = 0 ∧ _init_max_acc_and_epoch self = (0%Q, 0)
      ∧ ckp_epoch self = 0
      ∧ model (nets self) = m ∧ metrics (nets self) = ms
      ∧ optimizer (nets self) = (if is_training self then Some o else None)
      ∧ (is_training self = false →
         ∀ files calls epoch best,
           let w := {| self_ := self; fs := files; trace := calls |} in
           ∃ ex, train_one_epoch epoch best w = Raise ex w).
Proof.
  unfold Trainer_init. split.
  - repeat case_decide; split; try (by intros [? [=]]); try (by eauto);
      intros [|]; done.
  - intros self. repeat case_decide; intros [= <-]; unfold is_training, ckp_epoch; cbn;
      (split; [done|]); (split; [rewrite bool_decide_eq_true; split; intros; first [done|lia]|]); do 6 (split; [done|]).
    + done.
    + intros _ files calls epoch best.
      destruct (adjust_learning_rate_needs_optimizer
                  {| self_ := {| ctx := settings; mode := 1;
                                 nets := {| model := m; optimizer := None; metrics := ms |};
                                 start_epoch := 0; _init_max_acc_and_epoch := (0%Q, 0) |};
                     fs := files; trace := calls |} epoch eq_refl) as (ex & Hex).
      exists ex. unfold train_one_epoch. run. by rewrite Hex.
Qed.

End BaseClass.

(** ** [save_image]: the path of the image *)

Section SaveImageProperties.

Context {metric : Type}.
Implicit Types (self : trainer metric).

Lemma string_app_cons c (s t : string) : String c s +:+ t = String c (s +:+ t).
Proof. reflexivity. Qed.

Lemma string_app_nil_r (s : string) : s +:+ "" = s.
Proof. induction s as [|c s IH]; [done|]. by rewrite string_app_cons, IH. Qed.

Lemma string_app_assoc (s1 s2 s3 : string) : (s1 +:+ s2) +:+ s3 = s1 +:+ (s2 +:+ s3).
Proof. induction s1 as [|c s1 IH]; [done|]. by rewrite !string_app_cons, IH. Qed.

Lemma string_length_app (s1 s2 : string) :
  String.length (s1 +:+ s2) = (String.length s1 + String.length s2)%nat.
Proof. induction s1 as [|c s1 IH]; [done|]. rewrite string_app_cons. cbn. by rewrite IH. Qed.

Lemma string_app_inv_tail (s1 s2 t : string) : s1 +:+ t = s2 +:+ t → s1 = s2.
Proof.
  revert s2. induction s1 as [|c s1 IH]; intros [|c' s2] Heq.
  - done.
  - apply (f_equal String.length) in Heq. change ("" +:+ t) with t in Heq.
    rewrite string_app_cons in Heq. cbn in Heq. rewrite string_length_app in Heq. lia.
  - apply (f_equal String.length) in Heq. change ("" +:+ t) with t in Heq.
    rewrite string_app_cons in Heq. cbn in Heq. rewrite string_length_app in Heq. lia.
  - rewrite !string_app_cons in Heq. injection Heq as -> Heq. f_equal. by apply IH.
Qed.

Lemma endswith_sep_app (s1 s2 : string) :
  s2 ≠ ""%string → endswith_sep (s1 +:+ s2) = endswith_sep s2.
Proof.
  intros Hne. induction s1 as [|c s1 IH]; [done|].
  rewrite string_app_cons. cbn [endswith_sep]. rewrite IH.
  destruct (s1 +:+ s2) eqn:Happ; [|done].
  destruct s1, s2; done.
Qed.

(** The directory of an epoch is not empty and ends with the
    separator. *)
Lemma epoch_directory (epoch : Z) :
  let a := ("epoch_" +:+ pretty epoch +:+ "/")%string in
  a ≠ ""%string ∧ endswith_sep a = true.
Proof.
  cbn zeta. split; [done|].
  change (endswith_sep (("epoch_" +:+ pretty epoch) +:+ "/") = true).
  by rewrite endswith_sep_app.
Qed.

Lemma file_path_relative self file_name epoch :
  startswith_sep (out_dir self) = false →
  startswith_sep file_name = false →
  file_path self file_name epoch
    = ("epoch_" +:+ pretty epoch +:+ "/") +:+ os_path_join (out_dir self) [file_name].
Proof.
  intros Hd Hn. unfold file_path, os_path_join. cbn [foldl].
  destruct (epoch_directory epoch) as [Hne Hsep]. cbn zeta in *.
  set (a := ("epoch_" +:+ pretty epoch +:+ "/")%string) in *.
  assert (join_component a (out_dir self) = a +:+ out_dir self) as ->.
  { unfold join_component. by rewrite Hd, Hsep, orb_true_r. }
  unfold join_component. rewrite Hn.
  destruct (decide (out_dir self = ""%string)) as [->|Hdir].
  - rewrite string_app_nil_r, Hsep, orb_true_r. done.
  - rewrite (bool_decide_eq_false_2 (out_dir self = ""%string)) by done.
    rewrite bool_decide_eq_false_2.
    2:{ intros Happ. apply (f_equal String.length) in Happ.
        rewrite string_length_app in Happ. destruct (out_dir self); [done|]. cbn in Happ. lia. }
    rewrite endswith_sep_app by done. cbn [orb].
    destruct (endswith_sep (out_dir self)); by rewrite !string_app_assoc.
Qed.

(** X24.  With an output directory and a file name that are relative
    paths, [save_image] puts the image under the directory of its
    epoch, [epoch_<epoch>/], followed by the output directory and the
    file name; the images of two different epochs never get the same
    path. *)
Theorem save_image_keeps_epochs_apart self file_name epoch epoch' :
  startswith_sep (out_dir self) = false →
  startswith_sep file_name = false →
  file_path self file_name epoch
    = ("epoch_" +:+ pretty epoch +:+ "/") +:+ os_path_join (out_dir self) [file_name]
  ∧ (file_path self file_name epoch = file_path self file_name epoch' → epoch = epoch').
Proof.
  intros Hd Hn. split; [by apply file_path_relative|].
  rewrite !file_path_relative by done. intros Heq.
  apply string_app_inv_tail in Heq. apply (inj (String.app "epoch_")) in Heq.
  apply string_app_inv_tail in Heq. by apply (inj pretty) in Heq.
Qed.

(** X25.  With an output directory that is an absolute path, the
    directory of the epoch is dropped from the path of the image,
    which is then the same at every epoch; with a file name that is
    an absolute path, the path is the file name alone. *)
Theorem save_image_absolute_path_drops_epoch self file_name epoch :
  (startswith_sep (out_dir self) = true →
     file_path self file_name epoch = os_path_join (out_dir self) [file_name]
     ∧ ∀ epoch', file_path self file_name epoch' = file_path self file_name epoch)
  ∧ (startswith_sep file_name = true → file_path self file_name epoch = file_name).
Proof.
  unfold file_path, os_path_join. cbn [foldl]. split.
  - intros Hd.
    assert (∀ a, join_component a (out_dir self) = out_dir self) as Hjoin
      by (intros a; unfold join_component; by rewrite Hd).
    rewrite !Hjoin. split; [done|]. intros epoch'. by rewrite Hjoin.
  - intros Hn. unfold join_component at 1. by rewrite Hn.
Qed.

End SaveImageProperties.

(** ** More on [CDTrainer.validate_epoch] *)

Section CDTrainerEffects.

Context {metric : Type}.
Context `{!CDCollaborators metric}.
Implicit Types (self : trainer metric) (n : net metric).

(** The loop over the batches updates every metric object once per
    batch, all with the same arrays, and leaves the rest of the nets
    alone. *)
Lemma validate_batches_metrics n (losses : AverageMeter) bs b l n' :
  CDTrainer.validate_batches n losses bs b = Ok l n' →
  ∃ obs : list arrays,
    length obs = length bs
    ∧ model n' = model n ∧ optimizer n' = optimizer n
    ∧ metrics n' = (λ m, foldl metric_update m obs) <$> metrics n.
Proof.
  revert n losses. induction bs as [|x bs IH]; intros n losses; cbn.
  - intros [= _ <-]. exists []. cbn. by rewrite list_fmap_id.
  - destruct (val_forward n x) as [[loss cm]|]; [|done].
    intros Hrest. apply IH in Hrest as (obs & Hlen & Hm & Ho & Hms). cbn in *.
    exists (cm :: obs). cbn. rewrite Hlen, Hm, Ho, Hms. repeat (split; [done|]).
    by rewrite <- list_fmap_compose.
Qed.

Lemma validate_batches_raise n (losses : AverageMeter) bs b e n' :
  CDTrainer.validate_batches n losses bs b = Raise e n' → e = CollaboratorError 2.
Proof.
  revert n losses. induction bs as [|x bs IH]; intros n losses; cbn; [done|].
  destruct (val_forward n x) as [[loss cm]|]; [apply IH|]. by intros [= <- _].
Qed.

Lemma validate_batches_total n (losses : AverageMeter) bs b :
  (∀ n0 x, is_Some (val_forward n0 x)) →
  succeeded (CDTrainer.validate_batches n losses bs b) = true.
Proof.
  intros Hfw. revert n losses. induction bs as [|x bs IH]; intros n losses; cbn; [done|].
  destruct (Hfw n x) as [[loss cm] ->]. apply IH.
Qed.

(** X23.  With at least one metric object, [CDTrainer.validate_epoch]
    returns the average of the first one, after every metric object
    has been updated once per validated batch: all the batches of the
    loader in evaluation mode, the first 16 at most in training mode.
    It raises only when a forward pass does, and never reads the
    fallback of the [return] statement. *)
Theorem validate_epoch_scores_first_metric self epoch store m ms :
  metrics (nets self) = m :: ms →
  let r := CDTrainer.validate_epoch self epoch store in
  let seen := if is_training self then Nat.min 16 (length val_loader)
              else length val_loader in
  (∀ acc n', r = Ok acc n' →
     ∃ obs : list arrays,
       length obs = seen
       ∧ metrics n' = (λ m0, foldl metric_update m0 obs) <$> (m :: ms)
       ∧ acc = metric_avg (foldl metric_update m obs))
  ∧ (∀ e n', r = Raise e n' → e = CollaboratorError 2)
  ∧ ((∀ n0 x, is_Some (val_forward n0 x)) → succeeded r = true).
Proof.
  intros Hms r seen. subst r. unfold CDTrainer.validate_epoch.
  assert (length (CDTrainer.validated self val_loader) = seen) as Hseen.
  { subst seen. unfold CDTrainer.validated.
    destruct (is_training self); [apply length_take|done]. }
  pose proof (validate_batches_total (nets self) meter_new
                (CDTrainer.validated self val_loader) (Ctx.batch_size (ctx self))) as Htotal.
  destruct (CDTrainer.validate_batches _ _ _ _) as [losses n|e n] eqn:Hloop.
  - apply validate_batches_metrics in Hloop as (obs & Hlen & _ & _ & Hmetrics).
    rewrite Hms in Hmetrics. unfold CDTrainer.validate_return. rewrite Hmetrics. cbn.
    split; [|split; [done|done]].
    intros acc n' [= <- <-]. exists obs. rewrite Hlen, Hseen, Hmetrics. done.
  - apply validate_batches_raise in Hloop as ->.
    split; [done|]. split; [by intros ? ? [= <- _]|]. exact Htotal.
Qed.

End CDTrainerEffects.

(** * The properties on concrete runs *)

Section Examples.

#[local] Existing Instance Demo.collaborators.
#[local] Existing Instance Demo.scored_task.

Local Open Scope string_scope.

Local Abbreviation step_world :=
(Demo.boot (Demo.with_lr_mode "step" (Demo.settings "train" "" 30 5)) Demo.live_model ∅).
Local Abbreviation poly_world :=
(Demo.boot (Demo.with_lr_mode "poly" (Demo.settings "train" "" 30 5)) Demo.live_model ∅).
Local Abbreviation const_world :=
(Demo.boot (Demo.settings "train" "" 30 5) Demo.live_model ∅).

(** C8 on a base rate of 0.1: the tenth epoch of the step policy with
  step 10, the third of thirty of the polynomial one, and the
  constant one. *)
Lemma adjust_learning_rate_policies_witness :
returns (_adjust_learning_rate 10 step_world) = Some (1 / 10 * 0.5)%R
∧ returns (_adjust_learning_rate 3 poly_world)
    = Some (1 / 10 * Rpower (1 - IZR 3 / IZR 30) 1.1)%R
∧ returns (_adjust_learning_rate 7 const_world) = Some (1 / 10)%R.
Proof.
split; [|split].
- destruct (adjust_learning_rate_policies step_world Demo.sgd 10 eq_refl)
    as [Hstep _].
  destruct (Hstep eq_refl ltac:(discriminate)) as [_ Hten].
  exact (proj1 (proj2 (Hten eq_refl)) eq_refl).
- destruct (adjust_learning_rate_policies poly_world Demo.sgd 3 eq_refl)
    as (_ & Hpoly & _).
  exact (Hpoly eq_refl eq_refl eq_refl).
- destruct (adjust_learning_rate_policies const_world Demo.sgd 7 eq_refl)
    as (_ & _ & Hconst).
  exact (Hconst eq_refl).
Defined.

(** *** Resuming *)

Local Abbreviation superset_world :=
  (Demo.resuming "train" Demo.live_model Demo.superset_ckpt).
Local Abbreviation exact_world :=
  (Demo.resuming "train" Demo.live_model Demo.exact_ckpt).

Lemma demo_offers (d : gmap string tensor) :
  d !! "w" = Some Demo.w_stored → offers (Some <$> d) Demo.live_model.
Proof.
  intros Hw k t Hk. unfold Demo.live_model in Hk.
  apply lookup_singleton_Some in Hk as [<- <-].
  exists Demo.w_stored. by rewrite lookup_fmap, Hw.
Defined.

Lemma demo_same_names k :
  is_Some ((Some <$> Demo.exact_dict) !! k : option (option tensor)) →
  is_Some (Demo.live_model !! k).
Proof.
  rewrite lookup_fmap. intros [t Hk]. apply fmap_Some in Hk as (t' & Hk & _).
  unfold Demo.exact_dict in Hk.
  apply lookup_singleton_Some in Hk as [<- _]. by eexists.
Defined.

(** The checkpoint [Demo.superset_ckpt] has the live parameter [w] and
    one more, [extra]; it stores the epoch 7 and the best pair
    (0.9, 6).  Resuming a training run from it loads [w] and returns
    [True], and leaves [start_epoch] at 0 and the best pair at
    (0.0, 0): the load is not treated as a full match. *)
Lemma superset_checkpoint_not_restored :
  ckp_dict_of Demo.superset_ckpt = Some (Some <$> Demo.superset_dict)
  ∧ Demo.superset_dict !! "w" = Some Demo.w_stored
  ∧ Demo.superset_dict !! "extra" = Some Demo.extra_stored
  ∧ dom (model (nets (self_ superset_world))) = {[ "w" ]}
  ∧ shape Demo.w_stored = shape Demo.w_live
  ∧ epoch_field Demo.superset_ckpt = Some 7
  ∧ max_acc_field Demo.superset_ckpt 6 = Some (9 # 10, 6)
  ∧ Ctx.anew (ctx (self_ superset_world)) = false
  ∧ returns (_resume_from_checkpoint superset_world) = Some true
  ∧ model (nets (self_ (final_state (_resume_from_checkpoint superset_world))))
      = {[ "w" := Demo.w_stored ]}
  ∧ start_epoch (self_ (final_state (_resume_from_checkpoint superset_world))) = 0
  ∧ _init_max_acc_and_epoch (self_ (final_state (_resume_from_checkpoint superset_world)))
      = (0%Q, 0).
Proof. repeat split; vm_compute; reflexivity. Qed.

(** C1, amended, on [Demo.superset_ckpt] for the strict superset and on
    [Demo.exact_ckpt] for the full match. *)
Lemma superset_checkpoint_resume_witness :
  (returns (_resume_from_checkpoint superset_world) = Some true
   ∧ start_epoch (self_ (final_state (_resume_from_checkpoint superset_world))) = 0)
  ∧ (returns (_resume_from_checkpoint exact_world) = Some true
     ∧ start_epoch (self_ (final_state (_resume_from_checkpoint exact_world))) = 7
     ∧ _init_max_acc_and_epoch (self_ (final_state (_resume_from_checkpoint exact_world)))
         = (9 # 10, 6)).
Proof.
  split.
  - destruct (superset_checkpoint_resume superset_world Demo.superset_ckpt
                (Some <$> Demo.superset_dict) eq_refl eq_refl
                (demo_offers Demo.superset_dict eq_refl))
      as (ud & _ & _ & _ & Hstrict & _).
    destruct Hstrict as (Hret & _ & Hstart & _).
    + exists "extra". split; [by eexists|reflexivity].
    + intros Hempty. apply (f_equal (lookup "w")) in Hempty. discriminate Hempty.
    + split; [exact Hret|exact Hstart].
  - destruct (superset_checkpoint_resume exact_world Demo.exact_ckpt
                (Some <$> Demo.exact_dict) eq_refl eq_refl
                (demo_offers Demo.exact_dict eq_refl))
      as (ud & _ & _ & _ & _ & Hfull).
    destruct (Hfull demo_same_names eq_refl 7 (9 # 10, 6) eq_refl eq_refl)
      as (Hstart & Hbest & Hret).
    split; [exact (proj1 (Hret eq_refl))|]. split; [exact Hstart|exact Hbest].
Defined.

Local Abbreviation bare_world epoch :=
  (Demo.resuming "train" Demo.live_model (Demo.bare_ckpt epoch)).

(** A full-match resume of a checkpoint whose ['max_acc'] is the bare
    number 0.87 and whose stored epoch is 5 restores the best pair
    (0.87, 4), not (0.87, 5). *)
Lemma bare_best_score_at_stored_epoch_5 :
  Demo.bare_ckpt 5 !! "epoch" = Some (VInt 5)
  ∧ Demo.bare_ckpt 5 !! "max_acc" = Some (VFloat (87 # 100))
  ∧ returns (_resume_from_checkpoint (bare_world 5)) = Some true
  ∧ start_epoch (self_ (final_state (_resume_from_checkpoint (bare_world 5)))) = 5
  ∧ _init_max_acc_and_epoch (self_ (final_state (_resume_from_checkpoint (bare_world 5))))
      = (87 # 100, 4)
  ∧ _init_max_acc_and_epoch (self_ (final_state (_resume_from_checkpoint (bare_world 5))))
      ≠ (87 # 100, 5).
Proof. repeat split; try (vm_compute; reflexivity). vm_compute. discriminate. Qed.

(** C7, amended, on a stored epoch of 6. *)
Lemma bare_best_score_gets_ckp_epoch_witness :
  _init_max_acc_and_epoch (self_ (final_state (_resume_from_checkpoint (bare_world 6))))
    = (87 # 100, 5).
Proof.
  destruct (bare_best_score_gets_ckp_epoch (bare_world 6) (Demo.bare_ckpt 6)
              (Some <$> Demo.exact_dict) (VFloat (87 # 100)) (87 # 100) 6
              eq_refl eq_refl (demo_offers Demo.exact_dict eq_refl) demo_same_names
              eq_refl eq_refl eq_refl eq_refl)
    as (_ & _ & _ & Hsix).
  exact (Hsix eq_refl).
Defined.

Local Abbreviation empty_world := (Demo.resuming "val" ∅ Demo.empty_ckpt).
Local Abbreviation reshaped_world cmd :=
  (Demo.resuming cmd Demo.live_model Demo.reshaped_ckpt).

(** An evaluation run of a model without parameters, resumed from a
    checkpoint without parameters: nothing overlaps, the update set is
    empty, and the resume returns [True]. *)
Lemma empty_checkpoint_is_loaded :
  model (nets (self_ empty_world)) = ∅
  ∧ ckp_dict_of Demo.empty_ckpt = Some ∅
  ∧ update_dict_of (model (nets (self_ empty_world))) ∅ = Some ∅
  ∧ returns (_resume_from_checkpoint empty_world) = Some true.
Proof. repeat split; vm_compute; reflexivity. Qed.

Lemma demo_has_shapes : has_shapes Demo.live_model (Some <$> Demo.reshaped_dict).
Proof. intros k v Hk ->. by apply lookup_fmap_Some in Hk as (t & [=] & _). Defined.

Lemma demo_reshaped k t t' :
  Demo.live_model !! k = Some t →
  (Some <$> Demo.reshaped_dict) !! k = Some (Some t') →
  shape t ≠ shape t'.
Proof.
  unfold Demo.live_model, Demo.reshaped_dict. rewrite lookup_fmap.
  intros [<- <-]%lookup_singleton_Some Hk.
  rewrite lookup_singleton_eq in Hk. injection Hk as <-. discriminate.
Defined.

(** C6, amended, on a checkpoint that has the live parameter in another
    shape. *)
Lemma disjoint_checkpoint_is_not_loaded_witness :
  update_dict_of Demo.live_model (Some <$> Demo.reshaped_dict) = Some ∅
  ∧ returns (_resume_from_checkpoint (reshaped_world "train")) = Some false
  ∧ self_ (final_state (_resume_from_checkpoint (reshaped_world "train")))
      = self_ (reshaped_world "train").
Proof.
  destruct (disjoint_checkpoint_is_not_loaded (reshaped_world "train") Demo.reshaped_ckpt
              (Some <$> Demo.reshaped_dict) eq_refl eq_refl demo_has_shapes demo_reshaped)
    as (Hud & _ & Hfail).
  destruct Hfail as (Hret & Hself & _).
  - left. intros Hempty. apply (f_equal (lookup "w")) in Hempty. discriminate Hempty.
  - split; [exact Hud|]. split; [exact Hret|exact Hself].
Defined.

(** C5 on the same checkpoint, in evaluation mode. *)
Lemma evaluation_rejects_partial_checkpoint_witness :
  returns (_resume_from_checkpoint (reshaped_world "val")) = Some false
  ∧ returns (evaluate (reshaped_world "val")) = Some tt
  ∧ ∀ e store, CallValidateEpoch e store ∉ trace (final_state (evaluate (reshaped_world "val"))).
Proof.
  destruct (evaluation_rejects_partial_checkpoint (reshaped_world "val") Demo.reshaped_ckpt
              (Some <$> Demo.reshaped_dict) eq_refl eq_refl eq_refl demo_has_shapes)
    as (Hret & _ & Heval & Hcalls).
  - exists "w", Demo.w_live. split; [reflexivity|]. right.
    exists Demo.extra_stored. split; [reflexivity|discriminate].
  - split; [exact Hret|]. split; [exact Heval|].
    intros e store Hin. apply Hcalls in Hin. by apply elem_of_nil in Hin.
Defined.

(** *** The loop *)

(** The run [Demo.six_epochs] up to an epoch, and that epoch. *)
Local Abbreviation before e :=
  (train_loop (seqZ (start_epoch (self_ Demo.six_epochs))
                    (e - start_epoch (self_ Demo.six_epochs)))
              (_init_max_acc_and_epoch (self_ Demo.six_epochs)) Demo.six_epochs).
Local Abbreviation during e :=
  (train_one_epoch e (value (0%Q, 0) (before e)) (final_state (before e))).
Local Abbreviation completed e :=
  (epoch_completed Demo.six_epochs e (value (0%Q, 0) (before e)) (final_state (before e))
                   (value (0%Q, 0) (during e)) (final_state (during e))).

Lemma demo_epoch_2 : completed 2.
Proof.
  assert (succeeded (before 2) = true) as Hbefore by (vm_compute; reflexivity).
  assert (succeeded (during 2) = true) as Hduring by (vm_compute; reflexivity).
  assert (start_epoch (self_ Demo.six_epochs) ≤ 2 < num_epochs (self_ Demo.six_epochs))
    as Hrange by (split; by vm_compute).
  exact (conj Hrange (conj (succeeded_Ok (0%Q, 0) _ Hbefore)
                           (succeeded_Ok (0%Q, 0) _ Hduring))).
Defined.

Lemma demo_epoch_4 : completed 4.
Proof.
  assert (succeeded (before 4) = true) as Hbefore by (vm_compute; reflexivity).
  assert (succeeded (during 4) = true) as Hduring by (vm_compute; reflexivity).
  assert (start_epoch (self_ Demo.six_epochs) ≤ 4 < num_epochs (self_ Demo.six_epochs))
    as Hrange by (split; by vm_compute).
  exact (conj Hrange (conj (succeeded_Ok (0%Q, 0) _ Hbefore)
                           (succeeded_Ok (0%Q, 0) _ Hduring))).
Defined.

(** C2 on the epoch 4 of the run: the latest slot then stores the
    epoch 5. *)
Lemma checkpoint_stores_next_epoch_witness :
  ∃ state,
    fs (final_state (during 4)) !! weight_path Latest = Some state
    ∧ state !! "epoch" = Some (VInt 5).
Proof.
  destruct (checkpoint_stores_next_epoch _ _ _ _ _ _ demo_epoch_4)
    as (state & Hfs & Hepoch & _ & _).
  exists state. split; [exact Hfs|exact Hepoch].
Defined.

(** With the tracking interval 5, completing the epoch 0 writes the
    latest slot only, and completing the epoch 4 writes the history
    file of the epoch 5. *)
Lemma history_follows_stored_epoch :
  track_intvl (self_ Demo.six_epochs) = 5
  ∧ succeeded (during 0) = true
  ∧ (saves (since (final_state (before 0)) (final_state (during 0)))).*1
      = [ "checkpoint_latest.pth" ]
  ∧ succeeded (during 4) = true
  ∧ (saves (since (final_state (before 4)) (final_state (during 4)))).*1
      = [ "checkpoint_5.pth"; "checkpoint_latest.pth" ].
Proof. repeat split; vm_compute; reflexivity. Qed.

(** C3, amended, on the epoch 4 of the run. *)
Lemma history_written_on_stored_epoch_witness :
  ∃ state,
    saves (since (final_state (before 4)) (final_state (during 4)))
      = [ (weight_path (History 5), state); (weight_path Latest, state) ].
Proof.
  destruct (history_written_on_stored_epoch _ _ _ _ _ _ demo_epoch_4)
    as (state & _ & _ & _ & Hfive).
  exists state. exact (proj1 (Hfive eq_refl) (or_introl eq_refl)).
Defined.

(** C9 on the epoch 2 of the run, whose score 0.7 is above the two
    scores 0.5 before it and the initial 0.0. *)
Lemma best_slot_follows_strict_maximum_witness :
  value (0%Q, 0) (during 2) = (7 # 10, 2)
  ∧ fs (final_state (during 2)) !! weight_path Best
      = fs (final_state (during 2)) !! weight_path Latest.
Proof.
  assert (weight_path Best ≠ weight_path Latest) as Hlatest by discriminate.
  assert (weight_path Best ≠ weight_path (History (2 + 1))) as Hhistory
    by (vm_compute; discriminate).
  destruct (best_slot_follows_strict_maximum _ _ _ _ _ _ demo_epoch_2 Hlatest Hhistory)
    as (acc & _ & Hacc & Hbest & _).
  assert (scores (since (final_state (before 2)) (final_state (during 2))) = [7 # 10])
    as Hscore by (vm_compute; reflexivity).
  assert (acc = 7 # 10) as ->.
  { pose proof (eq_trans (eq_sym Hacc) Hscore) as Heq. by injection Heq. }
  assert (above_allb (7 # 10)
            ((_init_max_acc_and_epoch (self_ Demo.six_epochs)).1
               :: scores (since Demo.six_epochs (final_state (before 2)))) = true)
    as Hall by (vm_compute; reflexivity).
  destruct (Hbest (above_allb_spec _ _ Hall)) as (Hpair & _ & _ & Hcopy).
  exact (conj Hpair Hcopy).
Defined.

(** A training run asked to resume from a file that is not there
    returns normally, having trained the epoch 0 from [start_epoch] 0
    and the best pair (0.0, 0) and saved its checkpoint. *)
Lemma missing_checkpoint_trains_from_scratch :
  load_checkpoint (self_ Demo.missing) = true
  ∧ fs Demo.missing !! checkpoint (self_ Demo.missing) = None
  ∧ returns (_resume_from_checkpoint Demo.missing) = Some false
  ∧ returns (train Demo.missing) = Some tt
  ∧ trace (final_state (train Demo.missing)) !! 0%nat
      = Some (Log Error (MsgNoCheckpointFound "missing.pth"))
  ∧ trace (final_state (train Demo.missing)) !! 2%nat = Some (CallTrainEpoch 0)
  ∧ (saves (trace (final_state (train Demo.missing)))).*1 = [ "checkpoint_latest.pth" ]
  ∧ start_epoch (self_ (final_state (train Demo.missing))) = 0.
Proof. repeat split; vm_compute; reflexivity. Qed.

(** C4, amended, on the same run. *)
Lemma missing_checkpoint_is_ignored_by_train_witness :
  returns (_resume_from_checkpoint Demo.missing) = Some false
  ∧ train Demo.missing =
      match train_loop (epoch_range (self_ Demo.missing))
                       (_init_max_acc_and_epoch (self_ Demo.missing))
                       (logged [Log Error (MsgNoCheckpointFound "missing.pth")] Demo.missing)
      with
      | Ok _ w' => Ok tt w'
      | Raise e w' => Raise e w'
      end.
Proof.
  destruct (missing_checkpoint_is_ignored_by_train Demo.missing eq_refl eq_refl)
    as (Hresume & _ & Htrain).
  split; [by rewrite Hresume|exact Htrain].
Defined.

(** *** [CDTrainer] *)

#[local] Existing Instance Demo.cd_collaborators.

Local Abbreviation validated_batches :=
  (CDTrainer.validate_batches (nets Demo.without_metrics) meter_new
     (CDTrainer.validated Demo.without_metrics val_loader)
     (Ctx.batch_size (ctx Demo.without_metrics))).

(** C10 on a trainer without metrics and two batches. *)
Lemma validate_epoch_without_metrics_fails_witness :
  returns (CDTrainer.validate_epoch Demo.without_metrics 0 false) = None.
Proof.
  assert (succeeded validated_batches = true) as Hloop by (vm_compute; reflexivity).
  exact (proj2 (validate_epoch_without_metrics_fails Demo.without_metrics 0 false _ _
                  eq_refl (succeeded_Ok (0%Q, 0) validated_batches Hloop))).
Defined.

End Examples.

(** * The further properties on concrete runs *)

Section FurtherExamples.

#[local] Existing Instance Demo.collaborators.
#[local] Existing Instance Demo.scored_task.

Local Open Scope string_scope.

Local Abbreviation step_world :=
  (Demo.boot (Demo.with_lr_mode "step" (Demo.settings "train" "" 30 5)) Demo.live_model ∅).
Local Abbreviation poly_world :=
  (Demo.boot (Demo.with_lr_mode "poly" (Demo.settings "train" "" 30 5)) Demo.live_model ∅).
Local Abbreviation cosine_world :=
  (Demo.boot (Demo.with_lr_mode "cosine" (Demo.settings "train" "" 30 5)) Demo.live_model ∅).

(** X1 on the tenth epoch of the step policy. *)
Lemma adjust_learning_rate_sets_every_group_witness :
  ∃ o o',
    optimizer (nets (self_ step_world)) = Some o
    ∧ length (param_groups o') = length (param_groups o)
    ∧ Forall (eq (value 0%R (_adjust_learning_rate 10 step_world))) (param_groups o').
Proof.
  assert (succeeded (_adjust_learning_rate 10 step_world) = true) as Hok
    by (vm_compute; reflexivity).
  destruct (adjust_learning_rate_sets_every_group step_world 10 _ _
              (succeeded_Ok 0%R _ Hok)) as (o & o' & Ho & _ & Hlen & Hall & _).
  exists o, o'. exact (conj Ho (conj Hlen Hall)).
Defined.

(** X2 on a policy the schedule does not know. *)
Lemma adjust_learning_rate_fails_cleanly_witness :
  _adjust_learning_rate 3 cosine_world = Raise (ValueError "unknown lr mode") cosine_world.
Proof.
  destruct (adjust_learning_rate_fails_cleanly cosine_world 3) as (_ & Hmode & _).
  apply Hmode; discriminate.
Defined.





(** *** Resuming *)

Local Abbreviation superset_world :=
  (Demo.resuming "train" Demo.live_model Demo.superset_ckpt).
Local Abbreviation flagged_world anew load_optim :=
  (Demo.boot (Demo.with_resume_flags anew load_optim (Demo.settings "train" "ck.pth" 6 5))
             Demo.live_model {[ "ck.pth" := Demo.exact_ckpt ]}).
Local Abbreviation weights_only_world :=
  (Demo.resuming "train" Demo.live_model Demo.weights_only_ckpt).

(** X8 on the checkpoint [Demo.superset_ckpt], which has the live
    parameter [w] and one more. *)
Lemma training_loads_matching_parameters_witness :
  returns (_resume_from_checkpoint superset_world) = Some true
  ∧ model (nets (self_ (final_state (_resume_from_checkpoint superset_world)))) !! "w"
      = Some Demo.w_stored
  ∧ start_epoch (self_ (final_state (_resume_from_checkpoint superset_world))) = 0.
Proof.
  destruct (training_loads_matching_parameters superset_world Demo.superset_ckpt
              (Some <$> Demo.superset_dict) eq_refl eq_refl eq_refl
              (tensors_have_shapes _ _))
    as (Hret & Hload & _ & Hstart & _).
  - exists "w", Demo.w_live, Demo.w_stored. split; [reflexivity|]. split; reflexivity.
  - right. vm_compute. lia.
  - split; [exact Hret|]. split; [|exact Hstart].
    exact (Hload "w" Demo.w_live Demo.w_stored eq_refl eq_refl eq_refl).
Defined.

(** X9 on a training run with ['anew'] and the checkpoint
    [Demo.exact_ckpt], which stores the epoch 7. *)
Lemma anew_takes_parameters_only_witness :
  returns (_resume_from_checkpoint (flagged_world true false)) = Some true
  ∧ start_epoch (self_ (final_state (_resume_from_checkpoint (flagged_world true false)))) = 0
  ∧ _init_max_acc_and_epoch
      (self_ (final_state (_resume_from_checkpoint (flagged_world true false)))) = (0%Q, 0).
Proof.
  assert (fs (flagged_world true false) !! checkpoint (self_ (flagged_world true false))
          = Some Demo.exact_ckpt) as Hfile by reflexivity.
  destruct (anew_takes_parameters_only (flagged_world true false) Demo.exact_ckpt
              (Some <$> Demo.exact_dict) eq_refl eq_refl Hfile eq_refl
              (demo_offers Demo.exact_dict eq_refl) demo_same_names)
    as (Hret & _ & _ & Hstart & Hbest & _).
  exact (conj Hret (conj Hstart Hbest)).
Defined.

(** X10 on a training run with ['load_optim'] and the same
    checkpoint, which has no ['optimizer'] entry. *)
Lemma load_optim_needs_optimizer_entry_witness :
  ∃ w', _resume_from_checkpoint (flagged_world false true) = Raise (KeyError "optimizer") w'
        ∧ start_epoch (self_ w') = 7
        ∧ model (nets (self_ w')) = Demo.live_model.
Proof.
  assert (fs (flagged_world false true) !! checkpoint (self_ (flagged_world false true))
          = Some Demo.exact_ckpt) as Hfile by reflexivity.
  destruct (load_optim_needs_optimizer_entry (flagged_world false true) Demo.exact_ckpt
              (Some <$> Demo.exact_dict) Demo.sgd 7 (9 # 10, 6)
              eq_refl eq_refl eq_refl eq_refl Hfile eq_refl
              (demo_offers Demo.exact_dict eq_refl) demo_same_names
              eq_refl eq_refl eq_refl)
    as (w' & Hr & Hstart & _ & Hmodel).
  exists w'. exact (conj Hr (conj Hstart Hmodel)).
Defined.

Lemma demo_same_shape k t t' :
  Demo.live_model !! k = Some t → Demo.exact_dict !! k = Some t' → shape t' = shape t.
Proof.
  unfold Demo.live_model, Demo.exact_dict.
  intros [<- <-]%lookup_singleton_Some [_ <-]%lookup_singleton_Some. reflexivity.
Defined.

(** X11 on a file that holds the parameter [w] and nothing else. *)
Lemma bare_state_dict_resets_progress_witness :
  returns (_resume_from_checkpoint weights_only_world) = Some true
  ∧ model (nets (self_ (final_state (_resume_from_checkpoint weights_only_world))))
      = Demo.exact_dict
  ∧ start_epoch (self_ (final_state (_resume_from_checkpoint weights_only_world))) = 0.
Proof.
  destruct (bare_state_dict_resets_progress weights_only_world Demo.exact_dict
              eq_refl eq_refl eq_refl eq_refl eq_refl demo_same_shape eq_refl eq_refl)
    as (Hret & Hmodel & Hstart & _).
  exact (conj Hret (conj Hmodel Hstart)).
Defined.

(** *** Saving and the loop *)

(** The run [Demo.six_epochs] up to an epoch, and that epoch. *)
Local Abbreviation before e :=
  (train_loop (seqZ (start_epoch (self_ Demo.six_epochs))
                    (e - start_epoch (self_ Demo.six_epochs)))
              (_init_max_acc_and_epoch (self_ Demo.six_epochs)) Demo.six_epochs).
Local Abbreviation during e :=
  (train_one_epoch e (value (0%Q, 0) (before e)) (final_state (before e))).

(** The checkpoint of a best epoch 2 with the score 0.7, saved from
    the world [Demo.six_epochs]. *)
Local Abbreviation saved :=
  (_save_checkpoint Demo.exact_dict (VDict ∅) (7 # 10, 2) 3 true Demo.six_epochs).

(** A new training run over the files [files], asked to resume from
    the latest slot. *)
Local Abbreviation restarted files :=
  (Demo.boot (Demo.settings "train" "checkpoint_latest.pth" 6 5) Demo.live_model files).

Lemma demo_boot_fs c m (files : gmap string checkpoint_record) :
  fs (Demo.boot c m files) = files.
Proof. reflexivity. Defined.


Lemma demo_epoch_4_model :
  model (nets (self_ (final_state (during 4)))) = Demo.live_model.
Proof. vm_compute. reflexivity. Defined.

(** X14 on the run [Demo.six_epochs], interrupted after the epoch 4:
    the new run starts at the epoch 5. *)
Lemma resumed_training_continues_witness :
  ∃ w3,
    _resume_from_checkpoint (restarted (fs (final_state (during 4)))) = Ok true w3
    ∧ start_epoch (self_ w3) = 4 + 1
    ∧ _init_max_acc_and_epoch (self_ w3) = value (0%Q, 0) (during 4).
Proof.
  assert (dom (model (nets (self_ (final_state (during 4)))))
          = dom (model (nets (self_ (restarted (fs (final_state (during 4))))))))
    as Hdom by (rewrite demo_epoch_4_model; reflexivity).
  assert (∀ k t t',
            model (nets (self_ (restarted (fs (final_state (during 4)))))) !! k = Some t →
            model (nets (self_ (final_state (during 4)))) !! k = Some t' →
            shape t' = shape t) as Hshape.
  { rewrite demo_epoch_4_model. intros k t t' Hk Hk'.
    change (Demo.live_model !! k = Some t) in Hk.
    rewrite Hk in Hk'. by injection Hk' as <-. }
  pose proof (demo_boot_fs (Demo.settings "train" "checkpoint_latest.pth" 6 5)
                Demo.live_model (fs (final_state (during 4)))) as Hfs.
  assert (checkpoint (self_ (restarted (fs (final_state (during 4))))) = weight_path Latest)
    as Hpath by reflexivity.
  destruct (resumed_training_continues _ _ _ _ _ _
              (restarted (fs (final_state (during 4)))) demo_epoch_4
              Hfs Hpath eq_refl Hdom Hshape eq_refl eq_refl)
    as (w3 & Hr & _ & Hstart & Hbest & _).
  exists w3. exact (conj Hr (conj Hstart Hbest)).
Defined.

(** X15 on the run [Demo.six_epochs]. *)
Lemma train_runs_remaining_epochs_in_order_witness :
  train_calls (since Demo.six_epochs (final_state (train Demo.six_epochs)))
    = [0; 1; 2; 3; 4; 5]
  ∧ validate_calls (since Demo.six_epochs (final_state (train Demo.six_epochs)))
      = [(0, false); (1, false); (2, false); (3, false); (4, false); (5, false)].
Proof.
  assert (succeeded (train Demo.six_epochs) = true) as Hok by (vm_compute; reflexivity).
  destruct (train_runs_remaining_epochs_in_order Demo.six_epochs _
              (succeeded_Ok tt _ Hok)) as (Htrain & Hvalidate & _).
  assert (seqZ (start_epoch (self_ (final_state (train Demo.six_epochs))))
               (num_epochs (self_ Demo.six_epochs)
                - start_epoch (self_ (final_state (train Demo.six_epochs))))
          = [0; 1; 2; 3; 4; 5]) as Hrange by (vm_compute; reflexivity).
  split.
  - exact (eq_trans Htrain Hrange).
  - exact (eq_trans Hvalidate (f_equal (fmap (λ e, (e, save (self_ Demo.six_epochs))))
                                       Hrange)).
Defined.

(** X16 on the epoch 4 of that run and a file that is no slot. *)
Lemma completed_epoch_touches_only_its_slots_witness :
  fs (final_state (during 4)) !! "notes.txt" = fs (final_state (before 4)) !! "notes.txt".
Proof.
  destruct (completed_epoch_touches_only_its_slots _ _ _ _ _ _ demo_epoch_4)
    as (Hother & _).
  apply Hother; vm_compute; discriminate.
Defined.

(** X17 on the first epoch of a run with the hooks of the base
    class. *)
Lemma failed_epoch_writes_nothing_witness :
  fs (final_state (train_one_epoch (Task0 := abstract_task) 0 (0%Q, 0) Demo.six_epochs))
    = fs Demo.six_epochs
  ∨ (NotImplementedError = SameFileError ∧ weight_path Latest = weight_path Best).
Proof.
  assert (raised (train_one_epoch (Task0 := abstract_task) 0 (0%Q, 0) Demo.six_epochs)
          = Some NotImplementedError) as Hraised by (vm_compute; reflexivity).
  exact (failed_epoch_writes_nothing (Task0 := abstract_task) 0 (0%Q, 0) Demo.six_epochs _ _
           (raised_Raise _ _ Hraised)).
Defined.

(** X18 on the run [Demo.six_epochs], whose best epoch is 2. *)
Lemma best_slot_holds_best_epoch_witness :
  ∃ sd os,
    fs (final_state (before 6)) !! weight_path Best
      = Some (checkpoint_state sd os (7 # 10, 2) (2 + 1)).
Proof.
  assert (succeeded (before 6) = true) as Hok by (vm_compute; reflexivity).
  assert (value (0%Q, 0) (before 6) = (7 # 10, 2)) as Hbest by (vm_compute; reflexivity).
  assert (weight_path Best ≠ weight_path Latest) as Hlatest by discriminate.
  assert (∀ e, weight_path Best ≠ weight_path (History e)) as Hhistory
    by (intros e; discriminate).
  destruct (best_slot_holds_best_epoch _ _ _ _ _ (succeeded_Ok (0%Q, 0) (before 6) Hok)
              Hlatest Hhistory) as [[Hsame _]|(_ & sd & os & Hslot)].
  - pose proof (eq_trans (eq_sym Hbest) Hsame) as Heq. discriminate Heq.
  - exists sd, os. exact (eq_trans Hslot (f_equal (λ b, Some (checkpoint_state sd os b (b.2 + 1)))
                                                  Hbest)).
Defined.

Local Abbreviation untracked_world :=
  (Demo.boot (Demo.settings "train" "" 6 0) Demo.live_model ∅).

(** X13 on a tracking interval of 0. *)
Lemma save_checkpoint_failures_witness :
  _save_checkpoint Demo.live_model (VDict ∅) (0%Q, 0) 1 false untracked_world
    = Raise ZeroDivisionError untracked_world.
Proof.
  destruct (save_checkpoint_failures Demo.live_model (VDict ∅) (0%Q, 0) 1 false
              untracked_world) as (Hzero & _).
  exact (Hzero eq_refl).
Defined.

(** *** The drivers *)

Local Abbreviation idle_world :=
  (Demo.boot (Demo.settings "val" "" 6 5) Demo.live_model ∅).
Local Abbreviation exact_val_world :=
  (Demo.resuming "val" Demo.live_model Demo.exact_ckpt).

(** X19 on an evaluation run without a resume path. *)
Lemma evaluation_run_only_loads_and_validates_witness :
  fs (final_state (run idle_world)) = fs idle_world
  ∧ ∃ evs, trace (final_state (run idle_world)) = (trace idle_world ++ evs)%list
           ∧ evs = [Log Warning MsgNoCheckpointAssigned].
Proof.
  destruct (evaluation_run_only_loads_and_validates idle_world eq_refl)
    as (Hfs & evs & Htrace & _ & _ & Hidle).
  split; [exact Hfs|]. exists evs. exact (conj Htrace (proj1 (Hidle eq_refl))).
Defined.

(** X20 on the checkpoint [Demo.exact_ckpt], which stores the epoch
    7: the validation is called at the epoch 6. *)
Lemma evaluate_validates_at_checkpoint_epoch_witness :
  validate_calls (since exact_val_world (final_state (evaluate exact_val_world)))
    = [(6, false)].
Proof.
  destruct (evaluate_validates_at_checkpoint_epoch exact_val_world Demo.exact_ckpt
              (Some <$> Demo.exact_dict) 7 (9 # 10, 6) eq_refl eq_refl eq_refl eq_refl
              (demo_offers Demo.exact_dict eq_refl) demo_same_names eq_refl eq_refl)
    as (self_v & _ & _ & _ & Hcalls & _).
  exact Hcalls.
Defined.

(** X21 on the run [Demo.six_epochs]. *)
Lemma base_class_hooks_are_abstract_witness :
  succeeded (train_one_epoch (Task0 := abstract_task) 0 (0%Q, 0) Demo.six_epochs) = false.
Proof.
  exact (proj1 (base_class_hooks_are_abstract Demo.six_epochs) 0 (0%Q, 0)).
Defined.

(** *** [CDTrainer] and [save_image] *)

#[local] Existing Instance Demo.cd_collaborators.

Local Abbreviation with_metric :=
  (Demo.fresh (Demo.settings "train" "" 6 5) Demo.live_model).

(** X23 on a trainer with one metric object and two batches. *)
Lemma validate_epoch_scores_first_metric_witness :
  succeeded (CDTrainer.validate_epoch with_metric 0 false) = true.
Proof.
  destruct (validate_epoch_scores_first_metric with_metric 0 false 0%Q [] eq_refl)
    as (_ & _ & Htotal).
  apply Htotal. intros n0 x. eexists. reflexivity.
Defined.

Local Abbreviation storing dir :=
  (Demo.fresh (Demo.with_out_dir dir (Demo.settings "val" "" 6 5)) Demo.live_model).

(** X24 on the output directory [out]. *)
Lemma save_image_keeps_epochs_apart_witness :
  file_path (storing "out") "a.png" 3 = "epoch_3/out/a.png".
Proof.
  exact (proj1 (save_image_keeps_epochs_apart (storing "out") "a.png" 3 3 eq_refl eq_refl)).
Defined.

(** X25 on the output directory [/data/out]. *)
Lemma save_image_absolute_path_drops_epoch_witness :
  file_path (storing "/data/out") "a.png" 3 = "/data/out/a.png"
  ∧ file_path (storing "/data/out") "a.png" 4 = file_path (storing "/data/out") "a.png" 3.
Proof.
  destruct (proj1 (save_image_absolute_path_drops_epoch (storing "/data/out") "a.png" 3)
              eq_refl) as (Hpath & Hsame).
  exact (conj Hpath (Hsame 4)).
Defined.

End FurtherExamples.
